(** * TaskBuddy: the plan mutation services and the task metrics

    A shallow embedding of the task services of TaskBuddy
    ([addTaskToDay], [updateTask], [deleteTask], [moveTask],
    [sortTasksByOrder], [runWithRetry], the context-level
    [moveTaskBetweenDays]) and of [TaskService.calculateTaskMetricsByOwner],
    with the properties of the plan aggregate that they establish.

    Conventions of the embedding.
    - A JavaScript number that holds an index, an order or a count is a [Z].
    - A [Record<string, TaskItem>] is an insertion-ordered association list
      with pairwise distinct keys: [Object.values] and [Object.keys]
      enumerate a JavaScript object in insertion order as long as no key is
      an array index, and an assignment [o[k] = v] creates the own
      property [k] unless [k] is [__proto__]. Every theorem that speaks of
      the position of an entry in an object that the code builds or extends
      assumes that no key of the object consists of digits only or is
      [__proto__] ([Js.plain_keys]).
    - A lookup [o[k]] goes through the prototype chain, and [Js.get] is the
      lookup of an own property. The two differ on the twelve keys that
      [Object.prototype] defines ([Js.inherited]). [deleteTask] is modelled
      on these keys too; [updateTask] and [moveTask] store, for such a key
      that the bucket does not have, an entry that is no [TaskItem], and
      every theorem on an item that is absent assumes that its id is none
      of these keys.
    - The minutes of a task are integers, and a sum of minutes is a [Z]; the
      code adds floating-point numbers, whose sums are the same as long as
      no minutes are negative and their total is at most [2^53]
      ([TaskService.exact_minutes]), which every theorem that states a sum
      of minutes assumes.
    - [Record<number, DayPlan>] (the days of a plan) is a [gmap Z DayPlan];
      the enumeration order of days is never observed.
    - [Date.now()] and [uuidv4()] are parameters [now] and [taskId]; the
      readings of the clock within one call are taken to be equal.
    - A Firestore transaction body is a state-passing function on the store
      that may throw; [runTransaction] commits the writes of a body that
      returns and drops the writes of a body that throws. The store hands
      out and keeps objects as they were written, and no other client
      writes between the attempts of a call. *)

From Stdlib Require Import ZArith QArith.
From stdpp Require Import base option list sorting gmap strings pretty.

Local Open Scope Z_scope.

(** ** JavaScript objects and arrays *)

Module Js.

Section Object.
Context {V : Type}.

(** A plain object used as a dictionary with string keys: its own
    properties, in the order in which [Object.keys] enumerates them. *)
Definition Obj := list (string * V).

(** [o[k]] for an own property [k] of [o]. *)
Fixpoint get (k : string) (o : Obj) : option V :=
  match o with
  | [] => None
  | (k', v) :: o' => if decide (k = k') then Some v else get k o'
  end.

(** [o[k] = v]: an existing key keeps its position, a new key is
    appended. *)
Fixpoint set (k : string) (v : V) (o : Obj) : Obj :=
  match o with
  | [] => [(k, v)]
  | (k', v') :: o' =>
      if decide (k = k') then (k', v) :: o' else (k', v') :: set k v o'
  end.

(** [delete o[k]] *)
Fixpoint del (k : string) (o : Obj) : Obj :=
  match o with
  | [] => []
  | (k', v') :: o' =>
      if decide (k = k') then o' else (k', v') :: del k o'
  end.

(** [Object.keys(o)] and [Object.values(o)] *)
Definition keys (o : Obj) : list string := o.*1.
Definition values (o : Obj) : list V := o.*2.
End Object.

Arguments Obj : clear implicits.

(** The properties that every object literal inherits from
    [Object.prototype]. The value of each is a function or an object, so
    [o[k]] is truthy for these keys whether or not [o] has the key. *)
Definition inherited (k : string) : Prop :=
  k ∈ ["constructor"; "toString"; "toLocaleString"; "valueOf";
       "hasOwnProperty"; "isPrototypeOf"; "propertyIsEnumerable";
       "__proto__"; "__defineGetter__"; "__defineSetter__";
       "__lookupGetter__"; "__lookupSetter__"].

#[global] Instance inherited_dec k : Decision (inherited k).
Proof. unfold inherited. apply _. Defined.

(** [!!o[k]], for an object whose own values are objects: the lookup finds
    an own property or, failing that, an inherited one. *)
Definition truthy_at {V} (k : string) (o : Obj V) : bool :=
  match get k o with
  | Some _ => true
  | None => bool_decide (inherited k)
  end.

(** An object enumerates its array-index keys (the canonical decimal
    numerals below [2^32 - 1]) first, in ascending order, and its other
    string keys after them in insertion order. Every array index consists
    of digits only; an object none of whose keys does is enumerated in
    insertion order. *)
Fixpoint all_digits (k : string) : bool :=
  match k with
  | EmptyString => true
  | String c k' =>
      match Ascii.is_nat c with
      | Some _ => all_digits k'
      | None => false
      end
  end.

Definition digits_only (k : string) : bool :=
  match k with
  | EmptyString => false
  | String _ _ => all_digits k
  end.

(** A key that is no array index and that an assignment [o[k] = v] makes
    an own property of [o]: the assignment to [__proto__] sets the
    prototype of [o] instead. *)
Definition plain_key (k : string) : Prop :=
  digits_only k = false ∧ k ≠ "__proto__".

#[global] Instance plain_key_dec k : Decision (plain_key k).
Proof. unfold plain_key. apply _. Defined.

(** Every key of the object is a plain key. *)
Definition plain_keys {V} (o : Obj V) : Prop := Forall plain_key (keys o).

#[global] Instance plain_keys_dec {V} (o : Obj V) : Decision (plain_keys o).
Proof. unfold plain_keys. apply _. Defined.

Section Array.
Context {A : Type}.

(** The start position of [Array.prototype.splice]: a negative start
    counts from the end, and the result is clamped to [0, length]. *)
Definition splice_start (len : nat) (start : Z) : nat :=
  if start <? 0 then Z.to_nat (Z.max (Z.of_nat len + start) 0)
  else Z.to_nat (Z.min start (Z.of_nat len)).

(** [l.splice(start, deleteCount, ...items)], the array after the call. *)
Definition splice (l : list A) (start : Z) (deleteCount : nat)
    (items : list A) : list A :=
  let s := splice_start (length l) start in
  take s l ++ items ++ drop (s + deleteCount) l.

(** [Array.prototype.sort] with a comparator. The sort is stable; for a
    comparator that is a total preorder the result is the one of a stable
    insertion sort. *)
Fixpoint sort_insert (cmp : A → A → Z) (x : A) (l : list A) : list A :=
  match l with
  | [] => [x]
  | y :: l' =>
      if cmp x y <=? 0 then x :: y :: l' else y :: sort_insert cmp x l'
  end.

Fixpoint sort (cmp : A → A → Z) (l : list A) : list A :=
  match l with
  | [] => []
  | x :: l' => sort_insert cmp x (sort cmp l')
  end.

(** The comparator as a relation: [a] may stand before [b]. *)
Definition precedes (cmp : A → A → Z) (a b : A) : Prop := cmp a b ≤ 0.
End Array.

End Js.

(** ** Data model ([types/index.ts]) *)

Inductive ItemType := task | section.

#[global] Instance ItemType_eq_dec : EqDecision ItemType.
Proof. solve_decision. Defined.

(** The object stored under [TaskItem.item]: the envelope of [Item] and the
    fields that [Task] and [Section] add to it, each of them present or
    not. [assignedTo] is [Some None] for [null]. *)
Record Item := mkItem {
  item_id : string;
  title : string;
  order : option Z;
  item_createdAt : Z;
  item_updatedAt : Z;
  minutes : option Z;
  assignedTo : option (option string);
  completed : option bool;
  categoryId : option string;
  notes : option string;
  color : option string;
  collapsed : option bool;
}.

Record TaskItem := mkTaskItem {
  type : ItemType;
  item : Item;
}.

(** [Partial<Item>]: [None] is an absent key. *)
Record PartialItem := mkPartialItem {
  upd_id : option string;
  upd_title : option string;
  upd_order : option Z;
  upd_createdAt : option Z;
  upd_updatedAt : option Z;
  upd_minutes : option Z;
  upd_assignedTo : option (option string);
  upd_completed : option bool;
  upd_categoryId : option string;
  upd_notes : option string;
  upd_color : option string;
  upd_collapsed : option bool;
}.

(** [Partial<TaskItem>] *)
Record PartialTaskItem := mkPartialTaskItem {
  upd_type : option ItemType;
  upd_item : option PartialItem;
}.

Record DayPlan := mkDayPlan {
  day_id : string;
  dayOfWeek : Z;
  tasks : Js.Obj TaskItem;
}.

Record WeekPlan := mkWeekPlan {
  plan_id : string;
  name : string;
  isTemplate : bool;
  days : gmap Z DayPlan;
  plan_createdAt : Z;
  plan_updatedAt : Z;
  createdBy : string;
  collaborators : list string;
  partnershipId : string;
  templateId : option string;
  weekStartDate : option string;
}.

#[global] Instance Item_eq_dec : EqDecision Item.
Proof. solve_decision. Defined.
#[global] Instance TaskItem_eq_dec : EqDecision TaskItem.
Proof. solve_decision. Defined.

(** Field updates written as in the source's object spreads. *)
Definition with_order (o : option Z) (i : Item) : Item :=
  mkItem (item_id i) (title i) o (item_createdAt i) (item_updatedAt i)
    (minutes i) (assignedTo i) (completed i) (categoryId i) (notes i)
    (color i) (collapsed i).

Definition with_updatedAt (t : Z) (i : Item) : Item :=
  mkItem (item_id i) (title i) (order i) (item_createdAt i) t
    (minutes i) (assignedTo i) (completed i) (categoryId i) (notes i)
    (color i) (collapsed i).

Definition with_assignedTo (a : option string) (i : Item) : Item :=
  mkItem (item_id i) (title i) (order i) (item_createdAt i) (item_updatedAt i)
    (minutes i) (Some a) (completed i) (categoryId i) (notes i)
    (color i) (collapsed i).

Definition with_item (f : Item → Item) (t : TaskItem) : TaskItem :=
  mkTaskItem (type t) (f (item t)).

Definition with_tasks (ts : Js.Obj TaskItem) (d : DayPlan) : DayPlan :=
  mkDayPlan (day_id d) (dayOfWeek d) ts.

Definition id_of (t : TaskItem) : string := item_id (item t).
Definition order_of (t : TaskItem) : option Z := order (item t).


(** ** The aggregate store and its transactions ([firebase/firestore.ts]) *)

(** What a [throw] carries: an [Error] with its message, or [undefined]. *)
Inductive Thrown := Err (message : string) | Undefined.

#[global] Instance Thrown_eq_dec : EqDecision Thrown.
Proof. solve_decision. Defined.

(** The two plan collections, each a map from plan id to document. *)
Record Store := mkStore {
  templates : gmap string WeekPlan;
  executionPlans : gmap string WeekPlan;
}.

Definition getPlanCollection (isTemplate : bool) (s : Store)
    : gmap string WeekPlan :=
  if isTemplate then templates s else executionPlans s.

Definition setPlanCollection (isTemplate : bool)
    (c : gmap string WeekPlan) (s : Store) : Store :=
  if isTemplate then mkStore c (executionPlans s) else mkStore (templates s) c.

(** A computation over a state [S] that returns or throws. *)
Definition M (S A : Type) : Type := S → (Thrown + A) * S.

(** The body of a transaction. *)
Definition Txn : Type → Type := M Store.

#[global] Instance M_ret {S} : MRet (M S) := λ A a s, (inr a, s).
#[global] Instance M_bind {S} : MBind (M S) := λ A B f m s,
  match m s with
  | (inr a, s') => f a s'
  | (inl e, s') => (inl e, s')
  end.

Definition throw {S A} (e : Thrown) : M S A := λ s, (inl e, s).

(** [transaction.get(ref)]: the document, or [None] when
    [planDoc.exists()] is false. *)
Definition transaction_get (isTemplate : bool) (planId : string)
    : Txn (option WeekPlan) :=
  λ s, (inr (getPlanCollection isTemplate s !! planId), s).

Definition with_days (ds : gmap Z DayPlan) (updatedAt : Z) (p : WeekPlan)
    : WeekPlan :=
  mkWeekPlan (plan_id p) (name p) (isTemplate p) ds (plan_createdAt p)
    updatedAt (createdBy p) (collaborators p) (partnershipId p)
    (templateId p) (weekStartDate p).

(** [transaction.update(ref, { days, updatedAt: Date.now() })] *)
Definition transaction_update (isTemplate : bool) (planId : string)
    (ds : gmap Z DayPlan) (now : Z) : Txn unit :=
  λ s, (inr (),
        setPlanCollection isTemplate
          (alter (with_days ds now) planId (getPlanCollection isTemplate s)) s).

(** [firestoreService.runTransaction(updateFunction)]: the writes of a body
    that throws are not committed. *)
Definition runTransaction {A} (updateFunction : Txn A) : Txn A :=
  λ s, match updateFunction s with
       | (inr a, s') => (inr a, s')
       | (inl e, _) => (inl e, s)
       end.

(** ** The retry utility *)

(** What a run of [runWithRetry] does besides calling [fn]: the
    [console.warn] of a failed attempt and the [setTimeout] before the next
    one. *)
Inductive Event :=
  | Warn (attempt : nat) (error : Thrown)
  | Sleep (delay : Z).

(** The [for] loop of [runWithRetry], entered with [n] iterations left. *)
Fixpoint retry_loop {S A} (fn : M S A) (maxRetries : nat) (delay : Z)
    (n : nat) (lastError : Thrown) (s : S)
    : (Thrown + A) * S * list Event :=
  match n with
  | O => (inl lastError, s, [])
  | Datatypes.S n' =>
      let attempt := (maxRetries - n)%nat in
      match fn s with
      | (inr a, s') => (inr a, s', [])
      | (inl error, s') =>
          let '(r, s'', evs) :=
            retry_loop fn maxRetries delay n' error s' in
          (r, s'',
           Warn (attempt + 1) error ::
           (if decide (attempt < maxRetries - 1)%nat
            then [Sleep delay] else []) ++ evs)
      end
  end.

Definition runWithRetry {S A} (fn : M S A) (maxRetries : nat) (delay : Z)
    (s : S) : (Thrown + A) * S * list Event :=
  retry_loop fn maxRetries delay maxRetries Undefined s.

(** The defaults [maxRetries = 5, delay = 1000], used by every caller. *)
Definition maxRetries_default : nat := 5.
Definition delay_default : Z := 1000.

Definition is_warn (e : Event) : bool :=
  match e with Warn _ _ => true | Sleep _ => false end.

Definition is_sleep (e : Event) : bool :=
  match e with Sleep _ => true | Warn _ _ => false end.

(** The number of calls of [fn] in a run that produced the events [evs] and
    ended with [r]: one for each warning, and one more if the run
    returned. *)
Definition attempts {A} (r : Thrown + A) (evs : list Event) : nat :=
  (length (List.filter is_warn evs)
   + match r with inr _ => 1 | inl _ => 0 end)%nat.

(** The state in which [fn] is called for the [i+1]-th time, when each
    call is made in the state that the call before it left. *)
Fixpoint state_before_call {S A} (fn : M S A) (s : S) (i : nat) : S :=
  match i with
  | O => s
  | Datatypes.S i' => state_before_call fn (fn s).2 i'
  end.

(** What the [i+1]-th call of [fn] throws ([undefined] if it returns). *)
Definition thrown_by {S A} (fn : M S A) (s : S) (i : nat) : Thrown :=
  match (fn (state_before_call fn s i)).1 with
  | inl e => e
  | inr _ => Undefined
  end.

(** The warning of the failed call [i+1], and the delay that follows it
    unless the call was the last that the loop makes. *)
Definition events_of_failure {S A} (fn : M S A) (maxRetries : nat)
    (delay : Z) (s : S) (i : nat) : list Event :=
  Warn (i + 1) (thrown_by fn s i)
  :: (if decide (i < maxRetries - 1)%nat then [Sleep delay] else []).

(** ** The task services *)

Definition isAssignableItem (taskItem : TaskItem) : bool :=
  bool_decide (type taskItem = task).

(** [(a, b) => (a.item.order ?? 0) - (b.item.order ?? 0)] *)
Definition compareOrderOrZero (a b : TaskItem) : Z :=
  default 0 (order_of a) - default 0 (order_of b).

(** The comparator of [sortTasksByOrder]. *)
Definition compareOrderIfPresent (a b : TaskItem) : Z :=
  match order_of a, order_of b with
  | Some x, Some y => x - y
  | Some _, None => -1
  | None, Some _ => 1
  | None, None => 0
  end.

(** [l.forEach((t, idx) => { o[t.item.id] = f(idx, t) })] on a fresh [o]. *)
Definition forEach_assign (f : nat → TaskItem → TaskItem)
    (l : list TaskItem) : Js.Obj TaskItem :=
  foldl (λ o '(k, v), Js.set k v o) []
    (imap (λ idx t, (id_of t, f idx t)) l).

(** [{ id: `${planId}-${dayOfWeek}`, dayOfWeek, tasks: {} }] *)
Definition emptyDay (planId : string) (dayOfWeek : Z) : DayPlan :=
  mkDayPlan (planId +:+ "-" +:+ pretty dayOfWeek) dayOfWeek [].

(** *** [sortTasksByOrder] *)

(** [task.item.order === undefined
       ? { ...task, item: { ...task.item, order: index } } : task] *)
Definition fillMissingOrder (index : nat) (t : TaskItem) : TaskItem :=
  match order_of t with
  | None => with_item (with_order (Some (Z.of_nat index))) t
  | Some _ => t
  end.

(** The body of the loop over the days: the new [day.tasks]. *)
Definition sortDayTasks (ts : Js.Obj TaskItem) : Js.Obj TaskItem :=
  let taskArray := Js.sort compareOrderIfPresent (Js.values ts) in
  forEach_assign fillMissingOrder taskArray.

Definition sortTasksByOrder (plan : WeekPlan) : WeekPlan :=
  with_days ((λ day, with_tasks (sortDayTasks (tasks day)) day) <$> days plan)
    (plan_updatedAt plan) plan.

(** *** [addTaskToDay] *)

(** The part of the transaction between the read of the day and the write
    of the days: the created item as it is returned, and the day with the
    item inserted and all items renumbered. *)
Definition addTaskToDay_day (day : DayPlan) (newItem : TaskItem)
    (insertIndex : option Z) (taskId : string) (now : Z)
    : TaskItem * DayPlan :=
  (* Get existing tasks as array, sorted by order *)
  let existingTasks := Js.sort compareOrderOrZero (Js.values (tasks day)) in
  (* Determine insertion position *)
  let targetIndex := default (Z.of_nat (length existingTasks)) insertIndex in
  (* Create the new task *)
  let i := item newItem in
  let newTask :=
    mkTaskItem (type newItem)
      (mkItem taskId (title i) (Some targetIndex) now now (minutes i)
         (assignedTo i) (completed i) (categoryId i) (notes i)
         (color i) (collapsed i)) in
  (* Insert new task and reorder all tasks *)
  let existingTasks := Js.splice existingTasks targetIndex 0 [newTask] in
  let reorderedTasks :=
    forEach_assign
      (λ index t, with_item (with_order (Some (Z.of_nat index))) t)
      existingTasks in
  (newTask, with_tasks reorderedTasks day).

Definition addTaskToDay_txn (planId : string) (dayOfWeek : Z)
    (newItem : TaskItem) (isTemplate : bool) (insertIndex : option Z)
    (taskId : string) (now : Z) : Txn (TaskItem * gmap Z DayPlan) :=
  planDoc ← transaction_get isTemplate planId;
  match planDoc with
  | None => throw (Err "Plan not found")
  | Some plan =>
      let days := days plan in
      let day := default (emptyDay planId dayOfWeek) (days !! dayOfWeek) in
      let r := addTaskToDay_day day newItem insertIndex taskId now in
      let days := <[dayOfWeek := r.2]> days in
      _ ← transaction_update isTemplate planId days now;
      mret (r.1, days)
  end.

Definition addTaskToDay (planId : string) (dayOfWeek : Z)
    (newItem : TaskItem) (isTemplate : bool) (insertIndex : option Z)
    (taskId : string) (now : Z) (s : Store)
    : (Thrown + (TaskItem * gmap Z DayPlan)) * Store * list Event :=
  runWithRetry
    (runTransaction
       (addTaskToDay_txn planId dayOfWeek newItem isTemplate insertIndex
          taskId now))
    maxRetries_default delay_default s.

(** *** [updateTask] *)

Definition or_else {A} (u : option A) (cur : option A) : option A :=
  match u with Some x => Some x | None => cur end.

(** [{ ...currentTask.item, ...(updates.item || {}) }] *)
Definition spread_item (cur : Item) (u : option PartialItem) : Item :=
  match u with
  | None => cur
  | Some u =>
      mkItem (default (item_id cur) (upd_id u))
        (default (title cur) (upd_title u))
        (or_else (upd_order u) (order cur))
        (default (item_createdAt cur) (upd_createdAt u))
        (default (item_updatedAt cur) (upd_updatedAt u))
        (or_else (upd_minutes u) (minutes cur))
        (or_else (upd_assignedTo u) (assignedTo cur))
        (or_else (upd_completed u) (completed cur))
        (or_else (upd_categoryId u) (categoryId cur))
        (or_else (upd_notes u) (notes cur))
        (or_else (upd_color u) (color cur))
        (or_else (upd_collapsed u) (collapsed cur))
  end.

(** [{ ...currentTask, ...updates,
       item: { ...currentTask.item, ...(updates.item || {}),
               updatedAt: Date.now() } }] *)
Definition updatedTaskOf (currentTask : TaskItem) (updates : PartialTaskItem)
    (now : Z) : TaskItem :=
  mkTaskItem (default (type currentTask) (upd_type updates))
    (with_updatedAt now (spread_item (item currentTask) (upd_item updates))).

(** The guard [!day.tasks[taskId]] is taken on the own properties of the
    bucket. For a key that the bucket inherits and does not have
    ([Js.inherited]) the code goes on with a function in the place of the
    item and stores an entry without id and type, which no [TaskItem] is;
    the body is that of the code for every other id. *)
Definition updateTask_txn (planId : string) (dayOfWeek : Z)
    (taskId : string) (updates : PartialTaskItem) (isTemplate : bool)
    (now : Z) : Txn unit :=
  planDoc ← transaction_get isTemplate planId;
  match planDoc with
  | None => throw (Err "Plan not found")
  | Some plan =>
      let days := days plan in
      match days !! dayOfWeek with
      | None => throw (Err "Task not found")
      | Some day =>
          match Js.get taskId (tasks day) with
          | None => throw (Err "Task not found")
          | Some currentTask =>
              let updatedTask := updatedTaskOf currentTask updates now in
              let day := with_tasks (Js.set taskId updatedTask (tasks day)) day in
              let days := <[dayOfWeek := day]> days in
              transaction_update isTemplate planId days now
          end
      end
  end.

Definition updateTask (planId : string) (dayOfWeek : Z) (taskId : string)
    (updates : PartialTaskItem) (isTemplate : bool) (now : Z) (s : Store)
    : (Thrown + unit) * Store * list Event :=
  runWithRetry
    (runTransaction
       (updateTask_txn planId dayOfWeek taskId updates isTemplate now))
    maxRetries_default delay_default s.

(** *** [deleteTask] *)

(** The days after [delete day.tasks[taskId]]: the day is removed if it
    is empty, otherwise it is written back. *)
Definition deleteTask_days (dayOfWeek : Z) (taskId : string)
    (days : gmap Z DayPlan) (day : DayPlan) : gmap Z DayPlan :=
  let day := with_tasks (Js.del taskId (tasks day)) day in
  if decide (length (Js.keys (tasks day)) = 0%nat)
  then delete dayOfWeek days
  else <[dayOfWeek := day]> days.

Definition deleteTask_txn (planId : string) (dayOfWeek : Z)
    (taskId : string) (isTemplate : bool) (now : Z) : Txn unit :=
  planDoc ← transaction_get isTemplate planId;
  match planDoc with
  | None => throw (Err "Plan not found")
  | Some plan =>
      let days := days plan in
      match days !! dayOfWeek with
      | None => throw (Err "Task not found")
      | Some day =>
          (* [!day.tasks[taskId]] reads through the prototype chain; for
             an inherited key that the bucket does not have, the [delete]
             that follows removes nothing *)
          if Js.truthy_at taskId (tasks day)
          then
            let days := deleteTask_days dayOfWeek taskId days day in
            transaction_update isTemplate planId days now
          else throw (Err "Task not found")
      end
  end.

Definition deleteTask (planId : string) (dayOfWeek : Z) (taskId : string)
    (isTemplate : bool) (now : Z) (s : Store)
    : (Thrown + unit) * Store * list Event :=
  runWithRetry
    (runTransaction (deleteTask_txn planId dayOfWeek taskId isTemplate now))
    maxRetries_default delay_default s.

(** *** [moveTask] *)

(** [{ ...t, item: { ...t.item, order: idx,
       updatedAt: t.item.id === taskId ? Date.now() : t.item.updatedAt } }] *)
Definition renumber_moved (taskId : string) (now : Z) (idx : nat)
    (t : TaskItem) : TaskItem :=
  with_item
    (λ i, with_updatedAt
            (if decide (item_id i = taskId) then now else item_updatedAt i)
            (with_order (Some (Z.of_nat idx)) i))
    t.

(** The moved item with the assignee override, if any, applied. *)
Definition reassigned (found : TaskItem)
    (assignToUser : option (option string)) (now : Z) : TaskItem :=
  match assignToUser with
  | Some a =>
      if isAssignableItem found
      then with_item (λ i, with_updatedAt now (with_assignedTo a i)) found
      else found
  | None => found
  end.

(** Reordering within the same day: the new [tasks] of the day. *)
Definition reorderWithinDay (sourceTasks : Js.Obj TaskItem)
    (task : TaskItem) (taskId : string) (sourceIndex targetIndex : Z)
    (now : Z) : Js.Obj TaskItem :=
  let taskList := Js.sort compareOrderOrZero (Js.values sourceTasks) in
  let taskList := Js.splice taskList sourceIndex 1 [] in
  let taskList := Js.splice taskList targetIndex 0 [task] in
  forEach_assign (renumber_moved taskId now) taskList.

(** The target day of a move between days, with the item put in. *)
Definition placeInTargetDay (targetDay : DayPlan) (task : TaskItem)
    (taskId : string) (targetIndex : option Z) (now : Z) : DayPlan :=
  let targetTasks := tasks targetDay in
  match targetIndex with
  | Some targetIndex =>
      let taskList := Js.sort compareOrderOrZero (Js.values targetTasks) in
      let taskList := Js.splice taskList targetIndex 0 [task] in
      with_tasks (forEach_assign (renumber_moved taskId now) taskList)
        targetDay
  | None =>
      let task :=
        with_item
          (with_order (Some (Z.of_nat (length (Js.keys targetTasks)))))
          task in
      with_tasks (Js.set taskId task targetTasks) targetDay
  end.

(** The days after the move of the item [found] of [sourceDay]. *)
Definition moveTask_days (planId : string)
    (sourceDayOfWeek targetDayOfWeek : Z) (taskId : string)
    (assignToUser : option (option string))
    (sourceIndex targetIndex : option Z) (now : Z)
    (days : gmap Z DayPlan) (sourceDay : DayPlan) (found : TaskItem)
    : gmap Z DayPlan :=
  let sourceTasks := tasks sourceDay in
  let task := reassigned found assignToUser now in
  match decide (sourceDayOfWeek = targetDayOfWeek),
        sourceIndex, targetIndex with
  | left _, Some sourceIndex, Some targetIndex =>
      (* Reordering within the same day *)
      let reordered :=
        reorderWithinDay sourceTasks task taskId sourceIndex targetIndex now in
      <[sourceDayOfWeek := with_tasks reordered sourceDay]> days
  | _, _, _ =>
      (* Move between days. [delete sourceDay.tasks[taskId]] changes the
         day object held by [days], so the read of [days[targetDayOfWeek]]
         sees the deletion when the two days are the same; the later
         [days[sourceDayOfWeek] = { ...sourceDay }] is then overwritten by
         [days[targetDayOfWeek] = targetDay]. *)
      let sourceDay := with_tasks (Js.del taskId sourceTasks) sourceDay in
      let days := <[sourceDayOfWeek := sourceDay]> days in
      let targetDay :=
        default (emptyDay planId targetDayOfWeek) (days !! targetDayOfWeek) in
      let targetDay :=
        placeInTargetDay targetDay task taskId targetIndex now in
      <[targetDayOfWeek := targetDay]> days
  end.

(** The guard [!sourceDay.tasks[taskId]] is taken on the own properties of
    the bucket. For a key that the bucket inherits and does not have
    ([Js.inherited]) the code goes on with an empty object in the place of
    the item, and throws a [TypeError] in a renumbering loop or stores that
    object, which no [TaskItem] is; the body is that of the code for every
    other id. *)
Definition moveTask_txn (planId : string)
    (sourceDayOfWeek targetDayOfWeek : Z) (taskId : string)
    (isTemplate : bool) (assignToUser : option (option string))
    (sourceIndex targetIndex : option Z) (now : Z) : Txn unit :=
  planDoc ← transaction_get isTemplate planId;
  match planDoc with
  | None => throw (Err "Plan not found")
  | Some plan =>
      let days := days plan in
      match days !! sourceDayOfWeek with
      | None => throw (Err "Task not found")
      | Some sourceDay =>
          match Js.get taskId (tasks sourceDay) with
          | None => throw (Err "Task not found")
          | Some found =>
              let days :=
                moveTask_days planId sourceDayOfWeek targetDayOfWeek taskId
                  assignToUser sourceIndex targetIndex now days sourceDay
                  found in
              transaction_update isTemplate planId days now
          end
      end
  end.

Definition moveTask (planId : string) (sourceDayOfWeek targetDayOfWeek : Z)
    (taskId : string) (isTemplate : bool)
    (assignToUser : option (option string))
    (sourceIndex targetIndex : option Z) (now : Z) (s : Store)
    : (Thrown + unit) * Store * list Event :=
  runWithRetry
    (runTransaction
       (moveTask_txn planId sourceDayOfWeek targetDayOfWeek taskId isTemplate
          assignToUser sourceIndex targetIndex now))
    maxRetries_default delay_default s.

(** *** [moveTaskBetweenDays] of the task context

    The caller of [moveTask]. Its updates of the React state and its
    activity log entry touch neither plan collection and do not throw
    ([logActivity] and [loadExecutionPlans] catch their errors), so what
    remains of it on the store is its guards followed by [moveTask]. *)
Definition moveTaskBetweenDays
    (activeTemplate activeExecutionPlan : option WeekPlan)
    (currentUser : option string)
    (sourceDayOfWeek targetDayOfWeek : Z) (itemId : string)
    (sourceIndex targetIndex : Z) (assignToUser : option (option string))
    (now : Z) (s : Store) : (Thrown + unit) * Store * list Event :=
  match or_else activeTemplate activeExecutionPlan with
  | None => (inl (Err "No active plan selected"), s, [])
  | Some activePlan =>
      match currentUser with
      | None => (inl (Err "User not authenticated"), s, [])
      | Some _ =>
          match days activePlan !! sourceDayOfWeek
                ≫= λ d, Js.get itemId (tasks d) with
          | None => (inl (Err "Item not found"), s, [])
          | Some currentTaskItem =>
              if bool_decide (type currentTaskItem = section)
                 && bool_decide (sourceDayOfWeek ≠ targetDayOfWeek)
              then (inl (Err "Sections cannot be moved between different days"),
                    s, [])
              else
                moveTask (plan_id activePlan) sourceDayOfWeek targetDayOfWeek
                  itemId (bool_decide (is_Some activeTemplate)) assignToUser
                  (Some sourceIndex) (Some targetIndex) now s
          end
      end
  end.

(** ** The mutation operations as one type *)

(** A call of one of the four mutation operations, with its arguments. *)
Inductive Mutation :=
  | Add (planId : string) (dayOfWeek : Z) (newItem : TaskItem)
        (isTemplate : bool) (insertIndex : option Z) (taskId : string)
  | Update (planId : string) (dayOfWeek : Z) (taskId : string)
        (updates : PartialTaskItem) (isTemplate : bool)
  | Delete (planId : string) (dayOfWeek : Z) (taskId : string)
        (isTemplate : bool)
  | Move (planId : string) (sourceDayOfWeek targetDayOfWeek : Z)
        (taskId : string) (isTemplate : bool)
        (assignToUser : option (option string))
        (sourceIndex targetIndex : option Z).

Definition forget {A} (r : (Thrown + A) * Store * list Event)
    : (Thrown + unit) * Store * list Event :=
  (match r.1.1 with inl e => inl e | inr _ => inr () end, r.1.2, r.2).

(** The call, with its result value dropped. *)
Definition perform (m : Mutation) (now : Z) (s : Store)
    : (Thrown + unit) * Store * list Event :=
  match m with
  | Add planId dayOfWeek newItem isTemplate insertIndex taskId =>
      forget (addTaskToDay planId dayOfWeek newItem isTemplate insertIndex
                taskId now s)
  | Update planId dayOfWeek taskId updates isTemplate =>
      updateTask planId dayOfWeek taskId updates isTemplate now s
  | Delete planId dayOfWeek taskId isTemplate =>
      deleteTask planId dayOfWeek taskId isTemplate now s
  | Move planId source target taskId isTemplate assignToUser sourceIndex
      targetIndex =>
      moveTask planId source target taskId isTemplate assignToUser
        sourceIndex targetIndex now s
  end.

(** The plan a call addresses: its collection and its id. *)
Definition addressed_plan (m : Mutation) : bool * string :=
  match m with
  | Add planId _ _ isTemplate _ _ => (isTemplate, planId)
  | Update planId _ _ _ isTemplate => (isTemplate, planId)
  | Delete planId _ _ isTemplate => (isTemplate, planId)
  | Move planId _ _ _ isTemplate _ _ _ => (isTemplate, planId)
  end.

(** The existing item a call addresses: its day and its id. *)
Definition addressed_item (m : Mutation) : option (Z * string) :=
  match m with
  | Add _ _ _ _ _ _ => None
  | Update _ dayOfWeek taskId _ _ => Some (dayOfWeek, taskId)
  | Delete _ dayOfWeek taskId _ => Some (dayOfWeek, taskId)
  | Move _ source _ taskId _ _ _ _ => Some (source, taskId)
  end.

(** The item addressed by an operation is absent from the addressed
    bucket. *)
Definition item_absent (plan : WeekPlan) (dayOfWeek : Z) (taskId : string)
    : Prop :=
  days plan !! dayOfWeek ≫= (λ day, Js.get taskId (tasks day)) = None.

(** The store after [transaction.update(ref, { days, updatedAt })]. *)
Definition committed (isTemplate : bool) (planId : string)
    (ds : gmap Z DayPlan) (now : Z) (s : Store) : Store :=
  (transaction_update isTemplate planId ds now s).2.

(** ** Sample data: the plan of the service tests and of the scenarios *)

Module Sample.

Definition aTask (id : string) (o : option Z) (m : Z) (a : option string)
    : TaskItem :=
  mkTaskItem task
    (mkItem id ("Task " +:+ id) o 1000 1000 (Some m) (Some a) (Some false)
       None None None None).

Definition aSection (id : string) (o : option Z) : TaskItem :=
  mkTaskItem section
    (mkItem id ("Section " +:+ id) o 1000 1000 None None None None None
       (Some "#1976d2") None).

Definition bucket (l : list TaskItem) : Js.Obj TaskItem :=
  (λ t, (id_of t, t)) <$> l.

Definition aPlan (ds : gmap Z DayPlan) : WeekPlan :=
  mkWeekPlan "plan123" "Test Plan" true ds 1000 1000 "user123" ["user123"]
    "partnership123" None None.

Definition dayOf (s : Store) (d : Z) : option (list (string * option Z)) :=
  p ← templates s !! "plan123";
  day ← days p !! d;
  Some ((λ t, (id_of t, order_of t)) <$> Js.values (tasks day)).

(** The bucket of the test of [sortTasksByOrder]: [task1] has order 2,
    [task2] has order 0 and [task3] has none. *)
Definition legacyBucket : Js.Obj TaskItem :=
  bucket [aTask "task1" (Some 2) 30 None; aTask "task2" (Some 0) 45 None;
          aTask "task3" None 15 None].

Definition legacyPlan : WeekPlan :=
  aPlan {[ 1 := mkDayPlan "day1" 1 legacyBucket ]}.

Definition taskA : TaskItem := aTask "a" (Some 0) 30 None.
Definition taskB : TaskItem := aTask "b" (Some 1) 20 None.
Definition sectionS : TaskItem := aSection "s" (Some 0).

(** Scenario A: day 1 holds [a(0), b(1)]. *)
Definition dayA : DayPlan := mkDayPlan "day1" 1 (bucket [taskA; taskB]).
Definition planA : WeekPlan := aPlan {[ 1 := dayA ]}.
Definition storeA : Store := mkStore {[ "plan123" := planA ]} ∅.

(** Scenario B: day 1 holds [a(0)], day 2 is absent. *)
Definition dayB : DayPlan := mkDayPlan "day1" 1 (bucket [taskA]).
Definition planB : WeekPlan := aPlan {[ 1 := dayB ]}.
Definition storeB : Store := mkStore {[ "plan123" := planB ]} ∅.

(** Scenario D: day 0 holds the section [s], day 1 is absent. *)
Definition dayD : DayPlan := mkDayPlan "day0" 0 (bucket [sectionS]).
Definition planD : WeekPlan := aPlan {[ 0 := dayD ]}.
Definition storeD : Store := mkStore {[ "plan123" := planD ]} ∅.

(** Updates that carry a title and an order. *)
Definition retitleAndReorder : PartialTaskItem :=
  mkPartialTaskItem None
    (Some (mkPartialItem None (Some "Updated Task Title") (Some 5) None None
             None None None None None None None)).

(** Updates that carry a completion flag only. *)
Definition complete : PartialTaskItem :=
  mkPartialTaskItem None
    (Some (mkPartialItem None None None None None None None (Some true) None
             None None None)).

(** A bucket with the orders 1 and 0, in this order. *)
Definition dayBA : DayPlan := mkDayPlan "day1" 1 (bucket [taskB; taskA]).
Definition planBA : WeekPlan := aPlan {[ 1 := dayBA ]}.

End Sample.

(** ** The metrics of [services/TaskService.ts]

    Minutes are integers; the two divisions are exact rationals, of which
    the JavaScript code holds the nearest double. *)

Module TaskService.

(** The [Task] of [types/index.ts]. *)
Record Task := mkTask {
  id : string;
  title : string;
  order : option Z;
  createdAt : Z;
  updatedAt : Z;
  minutes : Z;
  assignedTo : option string;
  completed : bool;
  categoryId : option string;
  notes : option string;
}.

Inductive Owner := user | partner | unassigned.

Section Service.
(** The fields [this.userId] and [this.partnerId] of the service. *)
Variables userId partnerId : string.

(** The [owner] argument has one of the three values of its type, and
    [tasks] is an array; the [default] case and the [!tasks] guard of the
    source are not reachable. *)
Definition filterTasksByOwner (tasks : list Task) (owner : Owner)
    : list Task :=
  match owner with
  | user =>
      List.filter (λ task, bool_decide (assignedTo task = Some userId)) tasks
  | partner =>
      List.filter (λ task, bool_decide (assignedTo task = Some partnerId))
        tasks
  | unassigned =>
      List.filter (λ task, bool_decide (assignedTo task = None)) tasks
  end.

Record Metrics := mkMetrics {
  totalTasks : Z;
  completedTasks : Z;
  totalMinutes : Z;
  remainingMinutes : Z;
  completionRate : Q;
  hoursTotal : Q;
  hoursRemaining : Q;
}.

(** The counts are array lengths. The sums of minutes are those of the
    code's floating-point additions for tasks with [exact_minutes]; the
    rate and the hours are the quotients, which the code rounds to the
    nearest floating-point number. *)
Definition calculateTaskMetrics (tasks : list Task) : Metrics :=
  let totalTasks := Z.of_nat (length tasks) in
  let completedTasks :=
    Z.of_nat (length (List.filter (λ task, completed task) tasks)) in
  let totalMinutes := foldl (λ total task, total + minutes task) 0 tasks in
  let remainingMinutes :=
    foldl (λ total task, total + minutes task) 0
      (List.filter (λ task, negb (completed task)) tasks) in
  mkMetrics totalTasks completedTasks totalMinutes remainingMinutes
    (if 0 <? totalTasks
     then Qdiv (inject_Z completedTasks) (inject_Z totalTasks)
     else inject_Z 0)
    (Qdiv (inject_Z totalMinutes) (inject_Z 60))
    (Qdiv (inject_Z remainingMinutes) (inject_Z 60)).

Record MetricsByOwner := mkMetricsByOwner {
  of_user : Metrics;
  of_partner : Metrics;
  of_unassigned : Metrics;
  of_all : Metrics;
}.

Definition calculateTaskMetricsByOwner (tasks : list Task)
    : MetricsByOwner :=
  let userTasks := filterTasksByOwner tasks user in
  let partnerTasks := filterTasksByOwner tasks partner in
  let unassignedTasks := filterTasksByOwner tasks unassigned in
  mkMetricsByOwner (calculateTaskMetrics userTasks)
    (calculateTaskMetrics partnerTasks)
    (calculateTaskMetrics unassignedTasks)
    (calculateTaskMetrics tasks).

(** The metrics of one owner in the result. *)
Definition metrics_of (m : MetricsByOwner) (owner : Owner) : Metrics :=
  match owner with
  | user => of_user m
  | partner => of_partner m
  | unassigned => of_unassigned m
  end.

(** What the metrics are meant to be, on the whole task list: a task
    belongs to an owner's group by its assignee, and counts and sums range
    over the tasks of the list that belong to the group. *)
Definition belongs (owner : Owner) (t : Task) : bool :=
  match owner with
  | user => bool_decide (assignedTo t = Some userId)
  | partner => bool_decide (assignedTo t = Some partnerId)
  | unassigned => bool_decide (assignedTo t = None)
  end.

Fixpoint count_where (P : Task → bool) (tasks : list Task) : Z :=
  match tasks with
  | [] => 0
  | t :: tasks' => (if P t then 1 else 0) + count_where P tasks'
  end.

Fixpoint minutes_where (P : Task → bool) (tasks : list Task) : Z :=
  match tasks with
  | [] => 0
  | t :: tasks' => (if P t then minutes t else 0) + minutes_where P tasks'
  end.

End Service.

(** No task has negative minutes, and the minutes of all tasks add up to
    at most [2^53]: every partial sum of minutes is then an integer that a
    floating-point number holds exactly, and the sums of the code are the
    sums in [Z]. *)
Definition exact_minutes (tasks : list Task) : Prop :=
  Forall (λ t, 0 ≤ minutes t) tasks
  ∧ foldr Z.add 0 (minutes <$> tasks) ≤ 2 ^ 53.

#[global] Instance exact_minutes_dec tasks : Decision (exact_minutes tasks).
Proof. unfold exact_minutes. apply _. Defined.

(** Four tasks of the collaborators [u1] and [u2]. *)
Definition sampleTask (id : string) (m : Z) (a : option string) (c : bool)
    : Task :=
  mkTask id id None 1000 1000 m a c None None.

Definition sampleTasks : list Task :=
  [sampleTask "t1" 30 (Some "u1") true; sampleTask "t2" 20 None false;
   sampleTask "t3" 15 (Some "u2") false; sampleTask "t4" 45 (Some "u1") false].

End TaskService.

(** ** Well-formed buckets and dense orders *)

(** A bucket maps item ids to items: every entry is stored under the id of
    its item, and no key occurs twice. *)
Definition bucket_wf (ts : Js.Obj TaskItem) : Prop :=
  NoDup (Js.keys ts) ∧ Forall (λ kv, id_of kv.2 = kv.1) ts.

#[global] Instance bucket_wf_dec ts : Decision (bucket_wf ts).
Proof. unfold bucket_wf. apply _. Defined.

(** The orders [0, 1, ..., n-1]. *)
Definition positions (n : nat) : list (option Z) :=
  (λ i, Some (Z.of_nat i)) <$> seq 0 n.

(** Dense ordering: the order values of the items are exactly
    [0 .. count-1], each once. *)
Definition dense_orders (l : list TaskItem) : Prop :=
  order_of <$> l ≡ₚ positions (length l).

(** [a] and [b] both have an order, and that of [a] is not the larger. *)
Definition by_order (a b : TaskItem) : Prop :=
  ∃ x y, order_of a = Some x ∧ order_of b = Some y ∧ x ≤ y.

Definition has_order (t : TaskItem) : Prop := is_Some (order_of t).
Definition lacks_order (t : TaskItem) : Prop := order_of t = None.
Definition has_order_value (o : Z) (t : TaskItem) : Prop :=
  order_of t = Some o.

#[global] Instance has_order_dec t : Decision (has_order t).
Proof. unfold has_order. apply _. Defined.
#[global] Instance lacks_order_dec t : Decision (lacks_order t).
Proof. unfold lacks_order. apply _. Defined.
#[global] Instance has_order_value_dec o t : Decision (has_order_value o t).
Proof. unfold has_order_value. apply _. Defined.

#[global] Instance dense_orders_dec l : Decision (dense_orders l).
Proof. unfold dense_orders. apply _. Defined.

(** The bucket of a day in a stored plan. *)
Definition bucket_of (s : Store) (isTemplate : bool) (planId : string)
    (d : Z) : option (Js.Obj TaskItem) :=
  plan ← getPlanCollection isTemplate s !! planId;
  tasks <$> days plan !! d.

(** The days of a stored plan. *)
Definition days_of (s : Store) (isTemplate : bool) (planId : string)
    : option (gmap Z DayPlan) :=
  days <$> getPlanCollection isTemplate s !! planId.

(** ** The plan services: templates and execution plans

    [getDoc], [setDoc] and [deleteDoc] outside a transaction. A read hands
    out a copy of the stored document, so the normalization that
    [getTemplate] and [getExecutionPlan] apply to what they return does not
    reach the store. The id that [uuidv4()] generates is a parameter of
    each service, and [now] stands for the reads of the clock of one call;
    no property below relates the creation time of a plan to its
    modification time. *)

Definition getDoc (isTemplate : bool) (id : string)
    : M Store (option WeekPlan) :=
  λ s, (inr (getPlanCollection isTemplate s !! id), s).

Definition setDoc (isTemplate : bool) (id : string) (data : WeekPlan)
    : M Store unit :=
  λ s, (inr (),
        setPlanCollection isTemplate
          (<[id := data]> (getPlanCollection isTemplate s)) s).

Definition deleteDoc (isTemplate : bool) (id : string) : M Store unit :=
  λ s, (inr (),
        setPlanCollection isTemplate
          (delete id (getPlanCollection isTemplate s)) s).

(** The fields that an [ExecutionPlan] adds to a [WeekPlan]. *)
Definition sourceTemplateOf (p : WeekPlan) : option string := templateId p.
Definition weekStartOf (p : WeekPlan) : option string := weekStartDate p.

(** [{ ...template, id: templateId, isTemplate: true,
       createdAt: Date.now(), updatedAt: Date.now() }] *)
Definition createTemplate (template : WeekPlan) (templateId : string)
    (now : Z) : M Store WeekPlan :=
  let newTemplate :=
    mkWeekPlan templateId (name template) true (days template) now now
      (createdBy template) (collaborators template) (partnershipId template)
      (sourceTemplateOf template) (weekStartOf template) in
  _ ← setDoc true templateId newTemplate;
  mret newTemplate.

Definition deleteTemplate (templateId : string) : M Store unit :=
  deleteDoc true templateId.

Definition getTemplate (templateId : string) : M Store (option WeekPlan) :=
  templateDoc ← getDoc true templateId;
  mret (sortTasksByOrder <$> templateDoc).

Definition getExecutionPlan (planId : string) : M Store (option WeekPlan) :=
  planDoc ← getDoc false planId;
  mret (sortTasksByOrder <$> planDoc).

Definition deleteExecutionPlan (planId : string) : M Store unit :=
  deleteDoc false planId.

(** [collaborators: template.collaborators || [userId]]: an array is
    truthy, so the collaborators are those of the template. *)
Definition createExecutionPlan (templateId weekStartDate userId : string)
    (executionPlanId : string) (now : Z) : M Store WeekPlan :=
  template ← getTemplate templateId;
  match template with
  | None => throw (Err "Template not found")
  | Some template =>
      let executionPlan :=
        mkWeekPlan executionPlanId (name template) false (days template)
          now now userId (collaborators template) (partnershipId template)
          (Some templateId) (Some weekStartDate) in
      _ ← setDoc false executionPlanId executionPlan;
      mret executionPlan
  end.

Definition createTemplateFromPlan (executionPlanId newName : string)
    (templateId : string) (now : Z) : M Store WeekPlan :=
  plan ← getExecutionPlan executionPlanId;
  match plan with
  | None => throw (Err "Execution plan not found")
  | Some plan =>
      (* planData: the plan without templateId and weekStartDate *)
      let template :=
        mkWeekPlan templateId newName true (days plan) now now
          (createdBy plan) (collaborators plan) (partnershipId plan)
          None None in
      _ ← setDoc true templateId template;
      mret template
  end.

Definition cloneExecutionPlan (executionPlanId weekStartDate : string)
    (newPlanId : string) (now : Z) : M Store WeekPlan :=
  sourcePlan ← getExecutionPlan executionPlanId;
  match sourcePlan with
  | None => throw (Err "Execution plan not found")
  | Some sourcePlan =>
      let clonedPlan :=
        mkWeekPlan newPlanId (name sourcePlan +:+ " (Copy)")
          (isTemplate sourcePlan) (days sourcePlan) now now
          (createdBy sourcePlan) (collaborators sourcePlan)
          (partnershipId sourcePlan) (sourceTemplateOf sourcePlan)
          (Some weekStartDate) in
      _ ← setDoc false newPlanId clonedPlan;
      mret clonedPlan
  end.

(** A call of one of the services that write a plan collection. *)
Inductive PlanCall :=
  | CreateTemplate (template : WeekPlan) (templateId : string)
  | DeleteTemplate (templateId : string)
  | CreateExecutionPlan (templateId weekStartDate userId : string)
      (executionPlanId : string)
  | CreateTemplateFromPlan (executionPlanId newName : string)
      (templateId : string)
  | CloneExecutionPlan (executionPlanId weekStartDate : string)
      (newPlanId : string)
  | DeleteExecutionPlan (planId : string)
  | Mutate (m : Mutation).

(** The store that the call leaves. *)
Definition store_after (c : PlanCall) (now : Z) (s : Store) : Store :=
  match c with
  | CreateTemplate template templateId =>
      (createTemplate template templateId now s).2
  | DeleteTemplate templateId => (deleteTemplate templateId s).2
  | CreateExecutionPlan templateId weekStartDate userId executionPlanId =>
      (createExecutionPlan templateId weekStartDate userId executionPlanId
         now s).2
  | CreateTemplateFromPlan executionPlanId newName templateId =>
      (createTemplateFromPlan executionPlanId newName templateId now s).2
  | CloneExecutionPlan executionPlanId weekStartDate newPlanId =>
      (cloneExecutionPlan executionPlanId weekStartDate newPlanId now s).2
  | DeleteExecutionPlan planId => (deleteExecutionPlan planId s).2
  | Mutate m => (perform m now s).1.2
  end.

(** The store after a sequence of calls, each with its clock reading. *)
Definition store_after_all (cs : list (PlanCall * Z)) (s : Store) : Store :=
  foldl (λ s c, store_after c.1 c.2 s) s cs.

Definition emptyStore : Store := mkStore ∅ ∅.

(** Every document is stored under its id, in the collection that its
    [isTemplate] flag names. *)
Definition store_wf (s : Store) : Prop :=
  ∀ isT k p, getPlanCollection isT s !! k = Some p →
             plan_id p = k ∧ isTemplate p = isT.

(** Every bucket of the plan holds each item under its id. *)
Definition plan_wf (p : WeekPlan) : Prop :=
  ∀ d day, days p !! d = Some day → bucket_wf (tasks day).

(** ** The task context: the callers of [updateTask]

    As for [moveTaskBetweenDays], what these functions do to the store is
    their guards followed by the service call. *)

Definition updateTaskDetails
    (activeTemplate activeExecutionPlan : option WeekPlan)
    (currentUser : option string) (dayOfWeek : Z) (itemId : string)
    (updates : PartialTaskItem) (now : Z) (s : Store)
    : (Thrown + unit) * Store * list Event :=
  match or_else activeTemplate activeExecutionPlan with
  | None => (inl (Err "No active plan selected"), s, [])
  | Some activePlan =>
      match currentUser with
      | None => (inl (Err "User not authenticated"), s, [])
      | Some _ =>
          match days activePlan !! dayOfWeek
                ≫= λ d, Js.get itemId (tasks d) with
          | None => (inl (Err "Item not found"), s, [])
          | Some _ =>
              updateTask (plan_id activePlan) dayOfWeek itemId updates
                (bool_decide (is_Some activeTemplate)) now s
          end
      end
  end.

Definition noUpdates : PartialItem :=
  mkPartialItem None None None None None None None None None None None None.

(** [{ item: { assignedTo: userId } }] *)
Definition assignment (userId : option string) : PartialTaskItem :=
  mkPartialTaskItem None
    (Some (mkPartialItem None None None None None None (Some userId) None
             None None None None)).

(** [{ item: { completed } }] *)
Definition completion (completed : bool) : PartialTaskItem :=
  mkPartialTaskItem None
    (Some (mkPartialItem None None None None None None None (Some completed)
             None None None None)).

Definition assignTask (activeTemplate activeExecutionPlan : option WeekPlan)
    (currentUser : option string) (dayOfWeek : Z) (taskId : string)
    (userId : option string) (now : Z) (s : Store)
    : (Thrown + unit) * Store * list Event :=
  match or_else activeTemplate activeExecutionPlan with
  | None => (inl (Err "No active plan selected"), s, [])
  | Some activePlan =>
      match days activePlan !! dayOfWeek
            ≫= λ d, Js.get taskId (tasks d) with
      | None => (inl (Err "Item not found"), s, [])
      | Some currentTaskItem =>
          if bool_decide (type currentTaskItem ≠ task)
          then (inl (Err "Sections cannot be assigned to users"), s, [])
          else updateTaskDetails activeTemplate activeExecutionPlan
                 currentUser dayOfWeek taskId (assignment userId) now s
      end
  end.

Definition toggleTaskCompletion
    (activeTemplate activeExecutionPlan : option WeekPlan)
    (currentUser : option string) (dayOfWeek : Z) (taskId : string)
    (completed : bool) (now : Z) (s : Store)
    : (Thrown + unit) * Store * list Event :=
  match or_else activeTemplate activeExecutionPlan with
  | None => (inl (Err "No active plan selected"), s, [])
  | Some activePlan =>
      match days activePlan !! dayOfWeek
            ≫= λ d, Js.get taskId (tasks d) with
      | None => (inl (Err "Item not found"), s, [])
      | Some currentTaskItem =>
          if bool_decide (type currentTaskItem ≠ task)
          then (inl (Err "Sections cannot be marked as completed"), s, [])
          else updateTaskDetails activeTemplate activeExecutionPlan
                 currentUser dayOfWeek taskId (completion completed) now s
      end
  end.

(** ** Conversions of [types/index.ts] and the per-day metrics

    A cast [item as Task] does nothing at run time: the result is the same
    object. [asTask] is the typed reading of that object, which exists
    when the three fields that the metrics read are present. *)

(** [{ type: 'task', item: task }] *)
Definition taskToTaskItem (aTask : Item) : TaskItem := mkTaskItem task aTask.

Definition taskItemToTask (taskItem : TaskItem) : Thrown + Item :=
  if bool_decide (type taskItem ≠ task)
  then inl (Err "Cannot convert non-task item to Task")
  else inr (item taskItem).

(** [l.map(f)] for an [f] that may throw: the first throw ends the map. *)
Fixpoint map_throwing {A B} (f : A → Thrown + B) (l : list A)
    : Thrown + list B :=
  match l with
  | [] => inr []
  | x :: l' =>
      match f x with
      | inl e => inl e
      | inr y =>
          match map_throwing f l' with
          | inl e => inl e
          | inr ys => inr (y :: ys)
          end
      end
  end.

Definition taskItemsToTasks (taskItems : list TaskItem) : Thrown + list Item :=
  map_throwing taskItemToTask
    (List.filter (λ item, bool_decide (type item = task)) taskItems).

Definition asTask (i : Item) : option TaskService.Task :=
  m ← minutes i;
  a ← assignedTo i;
  c ← completed i;
  Some (TaskService.mkTask (item_id i) (title i) (order i) (item_createdAt i)
          (item_updatedAt i) m a c (categoryId i) (notes i)).

(** [TaskService.getTasksForDay] *)
Definition getTasksForDay (plan : WeekPlan) (dayOfWeek : Z) : list Item :=
  match days plan !! dayOfWeek with
  | None => []
  | Some day =>
      item <$> List.filter (λ taskItem, bool_decide (type taskItem = task))
                 (Js.values (tasks day))
  end.

(** [TaskService.calculateDayMetrics] *)
Definition calculateDayMetrics (userId partnerId : string) (plan : WeekPlan)
    (dayOfWeek : Z) : option TaskService.MetricsByOwner :=
  TaskService.calculateTaskMetricsByOwner userId partnerId
    <$> mapM asTask (getTasksForDay plan dayOfWeek).

(** [TaskService.calculatePlanMetrics]. [dayKeys] is the enumeration of the
    keys of [plan.days] by the [for ... in] loop. *)
Definition calculatePlanMetrics (userId partnerId : string) (plan : WeekPlan)
    (dayKeys : list Z) : option TaskService.MetricsByOwner :=
  let allTasks := dayKeys ≫= getTasksForDay plan in
  TaskService.calculateTaskMetricsByOwner userId partnerId
    <$> mapM asTask allTasks.

(** Every item of type [task] has the fields of a [Task]. *)
Definition tasks_typed (plan : WeekPlan) : Prop :=
  ∀ d day t, days plan !! d = Some day → t ∈ Js.values (tasks day) →
             type t = task → is_Some (asTask (item t)).

(** The call is an Update whose partial updates carry an item id other
    than the one it addresses. *)
Definition renames_item (m : Mutation) : Prop :=
  match m with
  | Update _ _ taskId updates _ =>
      ∃ k, upd_item updates ≫= upd_id = Some k ∧ k ≠ taskId
  | _ => False
  end.

(** The fields of a plan that no item mutation writes. *)
Definition same_plan_header (p p' : WeekPlan) : Prop :=
  plan_id p' = plan_id p ∧ name p' = name p ∧ isTemplate p' = isTemplate p
  ∧ plan_createdAt p' = plan_createdAt p ∧ createdBy p' = createdBy p
  ∧ collaborators p' = collaborators p ∧ partnershipId p' = partnershipId p
  ∧ templateId p' = templateId p ∧ weekStartDate p' = weekStartDate p.

(** Every item of every bucket of the plan has an order. *)
Definition plan_ordered (p : WeekPlan) : Prop :=
  ∀ d day, days p !! d = Some day → Forall has_order (Js.values (tasks day)).

(** ** Facts about objects *)

Section ObjFacts.
Context {V : Type}.
Implicit Types (o : Js.Obj V) (k : string) (v : V).

Lemma get_None k o : Js.get k o = None ↔ k ∉ Js.keys o.
Proof.
  unfold Js.keys. induction o as [|[k' v'] o IH]; simpl.
  - split; [intros _; apply not_elem_of_nil | done].
  - rewrite not_elem_of_cons. destruct (decide (k = k')) as [->|Hne].
    + split; [done | intros [? _]; done].
    + rewrite IH. split; [by intros ? | by intros [_ ?]].
Qed.

Lemma get_Some_elem k v o : Js.get k o = Some v → (k, v) ∈ o.
Proof.
  induction o as [|[k' v'] o IH]; simpl; [done|].
  destruct (decide (k = k')) as [->|].
  - intros [= ->]. left.
  - intros. right. auto.
Qed.

Lemma get_elem_nodup k v o :
  NoDup (Js.keys o) → (k, v) ∈ o → Js.get k o = Some v.
Proof.
  unfold Js.keys. induction o as [|[k' v'] o IH]; simpl.
  - intros _ H. by apply elem_of_nil in H.
  - rewrite NoDup_cons. intros [Hk' Hnd] Hin.
    apply elem_of_cons in Hin as [[= -> ->]|Hin].
    + destruct (decide (k' = k')); done.
    + destruct (decide (k = k')) as [->|]; [|auto].
      exfalso. apply Hk'. by apply (list_elem_of_fmap_2 fst) in Hin.
Qed.

Lemma set_fresh k v o : k ∉ Js.keys o → Js.set k v o = o ++ [(k, v)].
Proof.
  unfold Js.keys. induction o as [|[k' v'] o IH]; simpl; [done|].
  rewrite not_elem_of_cons. intros [Hne Hk].
  destruct (decide (k = k')); [done|]. by rewrite IH.
Qed.

Lemma foldl_set_fresh (l : list (string * V)) o :
  NoDup (Js.keys o ++ l.*1) →
  foldl (λ o '(k, v), Js.set k v o) o l = o ++ l.
Proof.
  revert o. induction l as [|[k v] l IH]; intros o Hnd; simpl.
  - by rewrite app_nil_r.
  - simpl in Hnd. rewrite set_fresh.
    + rewrite IH.
      * by rewrite <- app_assoc.
      * unfold Js.keys. rewrite fmap_app, <- app_assoc. done.
    + apply NoDup_app in Hnd as (_ & Hdis & _). intros Hk.
      apply (Hdis _ Hk). left.
Qed.

(** The entry of a key that is present, and what [delete] and an
    assignment do to it. *)
Lemma get_split k v o :
  Js.get k o = Some v →
  ∃ l1 l2, o = l1 ++ (k, v) :: l2 ∧ (k ∉ l1.*1)
           ∧ Js.del k o = l1 ++ l2
           ∧ ∀ v', Js.set k v' o = l1 ++ (k, v') :: l2.
Proof.
  induction o as [|[k' v'] o IH]; simpl; [done|].
  destruct (decide (k = k')) as [->|Hne].
  - intros [= ->]. exists [], o. repeat split; try done.
    apply not_elem_of_nil.
  - intros Hget. destruct (IH Hget) as (l1 & l2 & -> & Hk & Hdel & Hset).
    exists ((k', v') :: l1), l2. repeat split.
    + simpl. rewrite not_elem_of_cons. done.
    + simpl. by rewrite Hdel.
    + intros v''. simpl. by rewrite Hset.
Qed.

End ObjFacts.

(** ** Facts about arrays: [splice] and [sort] *)

Section ArrayFacts.
Context {A : Type}.
Implicit Types (l : list A) (x : A).

Lemma splice_start_le (n : nat) (i : Z) : (Js.splice_start n i ≤ n)%nat.
Proof. unfold Js.splice_start. destruct (i <? 0) eqn:E; lia. Qed.

Lemma splice_start_beyond (n : nat) (i : Z) :
  Z.of_nat n ≤ i → Js.splice_start n i = n.
Proof.
  intros Hi. unfold Js.splice_start.
  destruct (i <? 0) eqn:E; [apply Z.ltb_lt in E; lia | lia].
Qed.

(** Inserting one element. *)
Lemma splice_insert l i x :
  Js.splice l i 0 [x]
  = take (Js.splice_start (length l) i) l
    ++ x :: drop (Js.splice_start (length l) i) l.
Proof. unfold Js.splice. by rewrite Nat.add_0_r. Qed.

Lemma splice_insert_perm l i x : Js.splice l i 0 [x] ≡ₚ x :: l.
Proof.
  rewrite splice_insert. rewrite <- Permutation_middle.
  by rewrite take_drop.
Qed.



Section Sort.
Variable cmp : A → A → Z.

Lemma sort_insert_split x l :
  ∃ l1 l2, l = l1 ++ l2
           ∧ Js.sort_insert cmp x l = l1 ++ x :: l2
           ∧ Forall (λ y, 0 < cmp x y) l1
           ∧ ∀ y, head l2 = Some y → cmp x y ≤ 0.
Proof.
  induction l as [|y l IH]; simpl.
  - exists [], []. repeat split; [constructor | done].
  - destruct (cmp x y <=? 0) eqn:E.
    + exists [], (y :: l). repeat split; [constructor|].
      intros y' [= <-]. by apply Z.leb_le.
    + destruct IH as (l1 & l2 & -> & -> & Hl1 & Hl2).
      exists (y :: l1), l2. repeat split; [|done].
      constructor; [|done]. apply Z.leb_gt in E. lia.
Qed.

Lemma sort_insert_perm x l : Js.sort_insert cmp x l ≡ₚ x :: l.
Proof.
  destruct (sort_insert_split x l) as (l1 & l2 & -> & -> & _).
  by rewrite <- Permutation_middle.
Qed.

Lemma sort_perm l : Js.sort cmp l ≡ₚ l.
Proof.
  induction l as [|x l IH]; simpl; [done|].
  by rewrite sort_insert_perm, IH.
Qed.

Lemma length_sort l : length (Js.sort cmp l) = length l.
Proof. by rewrite sort_perm. Qed.

(** Stability: the elements of a class whose members compare as equal
    keep their relative order. *)
Lemma sort_stable (P : A → Prop) `{!∀ a, Decision (P a)} l :
  (∀ a b, P a → P b → cmp a b ≤ 0) →
  filter P (Js.sort cmp l) = filter P l.
Proof.
  intros HP. induction l as [|x l IH]; simpl; [done|].
  destruct (sort_insert_split x (Js.sort cmp l))
    as (l1 & l2 & Hs & -> & Hl1 & _).
  rewrite filter_cons, <- IH, Hs, !filter_app, filter_cons.
  destruct (decide (P x)) as [Hx|Hx]; [|done].
  assert (filter P l1 = []) as ->; [|done].
  clear Hs IH. induction Hl1 as [|y l1 Hy Hl1 IH1]; [done|].
  rewrite filter_cons. destruct (decide (P y)) as [HPy|]; [|exact IH1].
  specialize (HP x y Hx HPy). lia.
Qed.

Lemma sort_sorted_id l : Sorted (Js.precedes cmp) l → Js.sort cmp l = l.
Proof.
  induction 1 as [|x l Hs IH Hhd]; simpl; [done|].
  rewrite IH. destruct Hhd as [|y l Hxy]; simpl; [done|].
  unfold Js.precedes in Hxy. by rewrite (proj2 (Z.leb_le _ _) Hxy).
Qed.

Hypothesis cmp_total : ∀ a b, 0 < cmp a b → cmp b a ≤ 0.
Hypothesis cmp_trans : ∀ a b c, cmp a b ≤ 0 → cmp b c ≤ 0 → cmp a c ≤ 0.

Lemma sort_insert_sorted x l :
  StronglySorted (Js.precedes cmp) l →
  StronglySorted (Js.precedes cmp) (Js.sort_insert cmp x l).
Proof.
  intros Hl.
  destruct (sort_insert_split x l) as (l1 & l2 & -> & -> & Hl1 & Hl2).
  apply StronglySorted_app in Hl as (H12 & Hs1 & Hs2).
  apply StronglySorted_app_2; [| done |].
  - intros a b Ha Hb. apply elem_of_cons in Hb as [->|Hb]; [|by apply H12].
    rewrite Forall_forall in Hl1. apply cmp_total, Hl1. done.
  - constructor; [done|].
    destruct l2 as [|y l2]; [constructor|].
    specialize (Hl2 y eq_refl).
    apply StronglySorted_cons in Hs2 as [Hy _].
    constructor; [exact Hl2|].
    eapply Forall_impl; [exact Hy|]. intros z Hz.
    exact (cmp_trans _ _ _ Hl2 Hz).
Qed.

Lemma sort_sorted l : StronglySorted (Js.precedes cmp) (Js.sort cmp l).
Proof.
  induction l as [|x l IH]; simpl; [constructor|].
  by apply sort_insert_sorted.
Qed.

Lemma sort_idem l : Js.sort cmp (Js.sort cmp l) = Js.sort cmp l.
Proof. apply sort_sorted_id, StronglySorted_Sorted, sort_sorted. Qed.

End Sort.

End ArrayFacts.

(** ** Facts about the retry loop *)

Section RetryFacts.
Context {S A : Type}.
Implicit Types (fn : M S A) (s : S).

(** An attempt that returns ends the loop with no further effect. *)
Lemma retry_loop_returns fn maxRetries delay n last s a s' :
  fn s = (inr a, s') →
  retry_loop fn maxRetries delay (Datatypes.S n) last s = (inr a, s', []).
Proof. intros H. simpl. by rewrite H. Qed.

(** A failure that leaves the state as it was is repeated until the
    iterations are used up: every one of them calls [fn] and warns, and all
    but the last are followed by a delay. *)
Lemma retry_loop_fails fn maxRetries delay e s :
  fn s = (inl e, s) →
  ∀ n last, (n ≤ maxRetries)%nat →
  ∃ evs,
    retry_loop fn maxRetries delay n last s
    = (inl (match n with O => last | _ => e end), s, evs)
    ∧ length (List.filter is_warn evs) = n
    ∧ length (List.filter is_sleep evs) = (n - 1)%nat
    ∧ Forall (λ ev, ev = Sleep delay ∨ ∃ k, ev = Warn k e) evs.
Proof.
  intros Hfn. induction n as [|n IH]; intros last Hn.
  - exists []. simpl. repeat split; constructor.
  - destruct (IH e) as (evs & Hloop & Hw & Hs & Hall); [lia|].
    simpl. rewrite Hfn, Hloop.
    eexists. split; [|split_and!].
    + f_equal. f_equal. by destruct n.
    + simpl. rewrite List.filter_app.
      destruct (decide _); simpl; by rewrite Hw.
    + simpl. rewrite List.filter_app.
      destruct (decide _) as [Hlt|Hge]; simpl; rewrite Hs; lia.
    + constructor; [right; eauto|]. apply Forall_app. split; [|done].
      destruct (decide _); repeat constructor.
Qed.

Lemma runWithRetry_returns fn maxRetries delay s a s' :
  (0 < maxRetries)%nat → fn s = (inr a, s') →
  runWithRetry fn maxRetries delay s = (inr a, s', []).
Proof.
  intros Hpos H. unfold runWithRetry.
  destruct maxRetries; [lia|]. by apply retry_loop_returns.
Qed.

Lemma runWithRetry_fails fn maxRetries delay e s :
  (0 < maxRetries)%nat → fn s = (inl e, s) →
  ∃ evs,
    runWithRetry fn maxRetries delay s = (inl e, s, evs)
    ∧ attempts (inl e : Thrown + A) evs = maxRetries
    ∧ length (List.filter is_sleep evs) = (maxRetries - 1)%nat.
Proof.
  intros Hpos H. unfold runWithRetry.
  destruct (retry_loop_fails fn maxRetries delay e s H maxRetries Undefined)
    as (evs & Hloop & Hw & Hs & _); [lia|].
  exists evs. split_and!; [|unfold attempts; lia|done].
  rewrite Hloop. by destruct maxRetries; [lia|].
Qed.

End RetryFacts.

(** A transaction body that throws leaves the store as it was. *)
Lemma runTransaction_throws {A} (body : Txn A) s e s' :
  body s = (inl e, s') → runTransaction body s = (inl e, s).
Proof. intros H. unfold runTransaction. by rewrite H. Qed.

Lemma runTransaction_returns {A} (body : Txn A) s a s' :
  body s = (inr a, s') → runTransaction body s = (inr a, s').
Proof. intros H. unfold runTransaction. by rewrite H. Qed.

(** ** Facts about buckets *)

Lemma compareOrderOrZero_total a b :
  0 < compareOrderOrZero a b → compareOrderOrZero b a ≤ 0.
Proof. unfold compareOrderOrZero. lia. Qed.

Lemma compareOrderOrZero_trans a b c :
  compareOrderOrZero a b ≤ 0 → compareOrderOrZero b c ≤ 0 →
  compareOrderOrZero a c ≤ 0.
Proof. unfold compareOrderOrZero. lia. Qed.

Lemma compareOrderIfPresent_total a b :
  0 < compareOrderIfPresent a b → compareOrderIfPresent b a ≤ 0.
Proof.
  unfold compareOrderIfPresent.
  destruct (order_of a), (order_of b); lia.
Qed.

Lemma compareOrderIfPresent_trans a b c :
  compareOrderIfPresent a b ≤ 0 → compareOrderIfPresent b c ≤ 0 →
  compareOrderIfPresent a c ≤ 0.
Proof.
  unfold compareOrderIfPresent.
  destruct (order_of a), (order_of b), (order_of c); lia.
Qed.

Lemma bucket_wf_keys ts :
  bucket_wf ts → Js.keys ts = id_of <$> Js.values ts.
Proof.
  intros [_ Hid]. unfold Js.keys, Js.values.
  induction Hid as [|[k t] ts Hk _ IH]; [done|].
  rewrite !fmap_cons. simpl in *. by f_equal.
Qed.

Lemma bucket_wf_ids ts : bucket_wf ts → NoDup (id_of <$> Js.values ts).
Proof. intros Hwf. rewrite <- bucket_wf_keys by done. apply Hwf. Qed.

(** The object built by a renumbering loop, when the ids are distinct:
    one entry for each element, in the order of the array. *)
Lemma forEach_assign_nodup f l :
  NoDup (id_of <$> l) →
  forEach_assign f l = imap (λ idx t, (id_of t, f idx t)) l.
Proof.
  intros Hnd. unfold forEach_assign. rewrite foldl_set_fresh; [done|].
  simpl. rewrite fmap_imap.
  rewrite (imap_ext _ (const id_of)) by done. by rewrite imap_const.
Qed.

Lemma forEach_assign_values f l :
  NoDup (id_of <$> l) → Js.values (forEach_assign f l) = imap f l.
Proof.
  intros Hnd. rewrite forEach_assign_nodup by done.
  unfold Js.values. rewrite fmap_imap. by apply imap_ext.
Qed.

Lemma forEach_assign_keys f l :
  NoDup (id_of <$> l) → Js.keys (forEach_assign f l) = id_of <$> l.
Proof.
  intros Hnd. rewrite forEach_assign_nodup by done.
  unfold Js.keys. rewrite fmap_imap.
  rewrite (imap_ext _ (const id_of)) by done. by rewrite imap_const.
Qed.

Lemma forEach_assign_wf f l :
  NoDup (id_of <$> l) → (∀ i t, id_of (f i t) = id_of t) →
  bucket_wf (forEach_assign f l).
Proof.
  intros Hnd Hf. split; [by rewrite forEach_assign_keys|].
  rewrite forEach_assign_nodup by done.
  apply Forall_forall. intros [k t] Hin.
  apply list_elem_of_lookup in Hin as [i Hi].
  rewrite list_lookup_imap in Hi.
  destruct (l !! i) as [t0|]; simplify_eq/=. apply Hf.
Qed.

Lemma imap_fixed {A} (f : nat → A → A) (l : list A) :
  (∀ i x, l !! i = Some x → f i x = x) → imap f l = l.
Proof.
  revert f. induction l as [|x l IH]; intros f Hf; [done|].
  rewrite imap_cons. f_equal.
  - by apply (Hf 0%nat).
  - apply IH. intros i y Hi. by apply (Hf (Datatypes.S i)).
Qed.



(** ** The Ordering Normalizer: [sortTasksByOrder] *)

(** In a list sorted by the comparator of [sortTasksByOrder], the items
    that have an order stand before those that lack one. *)
Lemma sorted_orders_first l :
  StronglySorted (Js.precedes compareOrderIfPresent) l →
  l = filter has_order l ++ filter lacks_order l.
Proof.
  induction 1 as [|a l Hs IH Ha]; [done|].
  rewrite !filter_cons.
  destruct (decide (has_order a)) as [Hh|Hh].
  - destruct (decide (lacks_order a)) as [Hl|_].
    + destruct Hh as [x Hx]. unfold lacks_order in Hl. congruence.
    + simpl. by rewrite <- IH.
  - assert (lacks_order a) as Hl.
    { unfold has_order, lacks_order in *. by destruct (order_of a); [destruct Hh|]. }
    rewrite decide_True by done.
    assert (filter has_order l = []) as Hnone.
    { clear IH Hs. induction Ha as [|b l Hab _ IHa]; [done|].
      rewrite filter_cons, IHa. destruct (decide (has_order b)) as [[y Hy]|]; [|done].
      unfold Js.precedes, compareOrderIfPresent in Hab.
      rewrite Hl, Hy in Hab. lia. }
    rewrite Hnone in *. simpl in *. by rewrite <- IH.
Qed.

Lemma sorted_by_order l :
  StronglySorted (Js.precedes compareOrderIfPresent) l →
  StronglySorted by_order (filter has_order l).
Proof.
  induction 1 as [|a l Hs IH Ha]; [constructor|].
  rewrite filter_cons. destruct (decide (has_order a)) as [[x Hx]|]; [|done].
  constructor; [done|].
  clear IH Hs. induction Ha as [|b l Hab _ IHa]; [constructor|].
  rewrite filter_cons. destruct (decide (has_order b)) as [[y Hy]|]; [|done].
  constructor; [|done]. exists x, y. split_and!; [done..|].
  unfold Js.precedes, compareOrderIfPresent in Hab.
  rewrite Hx, Hy in Hab. lia.
Qed.

Lemma fillMissingOrder_id i (t : TaskItem) : id_of (fillMissingOrder i t) = id_of t.
Proof. unfold fillMissingOrder. by destruct (order_of t). Qed.

Lemma fillMissingOrder_has i t : has_order t → fillMissingOrder i t = t.
Proof. intros [o Ho]. unfold fillMissingOrder. by rewrite Ho. Qed.

Lemma fillMissingOrder_lacks i t :
  lacks_order t →
  fillMissingOrder i t = with_item (with_order (Some (Z.of_nat i))) t.
Proof. intros Ho. unfold fillMissingOrder. by rewrite Ho. Qed.

Lemma sort_ids cmp (l : list TaskItem) :
  NoDup (id_of <$> l) → NoDup (id_of <$> Js.sort cmp l).
Proof. by rewrite sort_perm. Qed.

(** The items of the normalized bucket, in its order. *)
Lemma sortDayTasks_values ts :
  bucket_wf ts →
  Js.values (sortDayTasks ts)
  = imap fillMissingOrder (Js.sort compareOrderIfPresent (Js.values ts)).
Proof.
  intros Hwf. unfold sortDayTasks.
  apply forEach_assign_values, sort_ids, bucket_wf_ids, Hwf.
Qed.

(** C3, as stated, fails on the bucket of the service's own test: the item
    with order 2 keeps it and the item without an order receives its
    position 2, so the orders are 0, 2, 2 and not 0, 1, 2. *)
Lemma sortTasksByOrder_orders_not_dense :
  (λ day, order_of <$> Js.values (tasks day))
    <$> days (sortTasksByOrder Sample.legacyPlan) !! 1
  = Some [Some 0; Some 2; Some 2]
  ∧ ¬ dense_orders (Js.values (sortDayTasks Sample.legacyBucket)).
Proof.
  split; [by vm_compute|].
  unfold dense_orders. intros Hperm.
  assert (Some 1 ∈ order_of <$> Js.values (sortDayTasks Sample.legacyBucket))
    as Hin.
  { rewrite Hperm. vm_compute. right. left. }
  vm_compute in Hin.
  repeat (apply elem_of_cons in Hin as [Hin|Hin]; [discriminate|]).
  by apply elem_of_nil in Hin.
Qed.

(** C3 (amended): the normalizer re-emits the items of a bucket, none of
    whose ids consists of digits only or is [__proto__], sorted by their
    existing order, ascending and stable, with the items that lack an order
    after them in their original relative order; an item that has an order
    keeps it, and an item that lacks one receives its position. *)
Theorem sortTasksByOrder_sorts_and_fills ts :
  bucket_wf ts →
  Js.plain_keys ts →
  ∃ ordered : list TaskItem,
    ordered ≡ₚ filter has_order (Js.values ts)
    ∧ StronglySorted by_order ordered
    ∧ (∀ o, filter (has_order_value o) ordered
            = filter (has_order_value o) (Js.values ts))
    ∧ Js.values (sortDayTasks ts)
      = ordered
        ++ imap (λ i t, with_item
                          (with_order (Some (Z.of_nat (length ordered + i)))) t)
             (filter lacks_order (Js.values ts))
    ∧ Js.keys (sortDayTasks ts) = id_of <$> Js.values (sortDayTasks ts).
Proof.
  intros Hwf Hkeys.
  set (sorted := Js.sort compareOrderIfPresent (Js.values ts)).
  assert (StronglySorted (Js.precedes compareOrderIfPresent) sorted) as Hs.
  { apply sort_sorted; [apply compareOrderIfPresent_total
                       | apply compareOrderIfPresent_trans]. }
  assert (filter lacks_order sorted = filter lacks_order (Js.values ts))
    as Hlacks.
  { apply sort_stable. intros a b Ha Hb.
    unfold lacks_order, compareOrderIfPresent in *. by rewrite Ha, Hb. }
  exists (filter has_order sorted). split_and!.
  - unfold sorted. by rewrite sort_perm.
  - by apply sorted_by_order.
  - intros o. rewrite list_filter_filter_l.
    + apply sort_stable. intros a b Ha Hb.
      unfold has_order_value, compareOrderIfPresent in *.
      rewrite Ha, Hb. lia.
    + intros t Ht. by exists o.
  - rewrite sortDayTasks_values by done. fold sorted.
    rewrite (sorted_orders_first sorted Hs) at 1.
    rewrite imap_app, Hlacks. f_equal.
    + apply imap_fixed. intros i t Hi. apply fillMissingOrder_has.
      apply list_elem_of_lookup_2, list_elem_of_filter in Hi. apply Hi.
    + apply imap_ext. intros i t Hi. simpl.
      rewrite fillMissingOrder_lacks; [done|].
      apply list_elem_of_lookup_2, list_elem_of_filter in Hi. apply Hi.
  - apply bucket_wf_keys. unfold sortDayTasks. apply forEach_assign_wf.
    + apply sort_ids, bucket_wf_ids, Hwf.
    + apply fillMissingOrder_id.
Qed.

Lemma sortTasksByOrder_sorts_and_fills_witness :
  bucket_wf Sample.legacyBucket
  ∧ Js.plain_keys Sample.legacyBucket
  ∧ Js.keys (sortDayTasks Sample.legacyBucket)
    = id_of <$> Js.values (sortDayTasks Sample.legacyBucket).
Proof.
  assert (bucket_wf Sample.legacyBucket) as Hwf.
  { apply (bool_decide_unpack _). vm_compute. exact I. }
  assert (Js.plain_keys Sample.legacyBucket) as Hkeys.
  { apply (bool_decide_unpack _). vm_compute. exact I. }
  split; [exact Hwf|]. split; [exact Hkeys|].
  destruct (sortTasksByOrder_sorts_and_fills _ Hwf Hkeys)
    as (? & _ & _ & _ & _ & H).
  exact H.
Defined.

(** Normalizing a bucket in which every item has an order sorts it and
    changes no item; normalizing the result again changes nothing. *)
Lemma sortDayTasks_all_ordered ts :
  bucket_wf ts → Forall has_order (Js.values ts) →
  sortDayTasks ts
  = (λ t, (id_of t, t)) <$> Js.sort compareOrderIfPresent (Js.values ts).
Proof.
  intros Hwf Hall. unfold sortDayTasks.
  rewrite forEach_assign_nodup by apply sort_ids, bucket_wf_ids, Hwf.
  rewrite <- (imap_const (λ t, (id_of t, t))).
  apply imap_ext. intros i t Hi. simpl. f_equal.
  apply fillMissingOrder_has.
  apply list_elem_of_lookup_2 in Hi. rewrite sort_perm in Hi.
  rewrite Forall_forall in Hall. by apply Hall.
Qed.

Lemma sortDayTasks_idempotent ts :
  bucket_wf ts → Forall has_order (Js.values ts) →
  sortDayTasks (sortDayTasks ts) = sortDayTasks ts.
Proof.
  intros Hwf Hall.
  assert (bucket_wf (sortDayTasks ts)) as Hwf'.
  { unfold sortDayTasks. apply forEach_assign_wf.
    - apply sort_ids, bucket_wf_ids, Hwf.
    - apply fillMissingOrder_id. }
  assert (Js.values (sortDayTasks ts)
          = Js.sort compareOrderIfPresent (Js.values ts)) as Hvals.
  { rewrite sortDayTasks_all_ordered by done.
    unfold Js.values. rewrite <- list_fmap_compose. apply list_fmap_id. }
  rewrite (sortDayTasks_all_ordered (sortDayTasks ts)); [|done|].
  - rewrite Hvals, sort_idem.
    + by rewrite sortDayTasks_all_ordered.
    + apply compareOrderIfPresent_total.
    + apply compareOrderIfPresent_trans.
  - rewrite Hvals. by rewrite sort_perm.
Qed.

Lemma dense_orders_has_order l : dense_orders l → Forall has_order l.
Proof.
  unfold dense_orders. intros Hperm. apply Forall_forall. intros t Ht.
  assert (order_of t ∈ positions (length l)) as Hin.
  { rewrite <- Hperm. by apply list_elem_of_fmap_2. }
  unfold positions in Hin. apply list_elem_of_fmap in Hin as (i & Hi & _).
  unfold has_order. rewrite Hi. by eexists.
Qed.

(** C8: on a plan whose buckets are already normalized (order values
    exactly 0..N-1), normalizing twice gives the plan that normalizing once
    gives. *)
Theorem sortTasksByOrder_idempotent plan :
  (∀ d day, days plan !! d = Some day →
            bucket_wf (tasks day) ∧ dense_orders (Js.values (tasks day))) →
  sortTasksByOrder (sortTasksByOrder plan) = sortTasksByOrder plan.
Proof.
  intros Hdays. unfold sortTasksByOrder, with_days. simpl. f_equal.
  rewrite <- map_fmap_compose. apply map_fmap_ext.
  intros d day Hday. destruct (Hdays d day Hday) as [Hwf Hdense].
  unfold with_tasks. simpl. f_equal.
  apply sortDayTasks_idempotent; [done|]. by apply dense_orders_has_order.
Qed.

Lemma sortTasksByOrder_idempotent_witness :
  sortTasksByOrder (sortTasksByOrder Sample.planBA)
  = sortTasksByOrder Sample.planBA.
Proof.
  apply sortTasksByOrder_idempotent.
  intros d day Hday.
  change (days Sample.planBA) with ({[ 1 := Sample.dayBA ]} : gmap Z DayPlan)
    in Hday.
  apply lookup_singleton_Some in Hday as [_ <-].
  split; apply (bool_decide_unpack _); vm_compute; exact I.
Defined.

(** ** What the operations do to the store *)

Lemma getPlanCollection_set isT c s :
  getPlanCollection isT (setPlanCollection isT c s) = c.
Proof. by destruct isT. Qed.

Lemma getPlanCollection_set_other isT c s :
  getPlanCollection (negb isT) (setPlanCollection isT c s)
  = getPlanCollection (negb isT) s.
Proof. by destruct isT. Qed.

Lemma committed_plan isT planId ds now s plan :
  getPlanCollection isT s !! planId = Some plan →
  getPlanCollection isT (committed isT planId ds now s) !! planId
  = Some (with_days ds now plan).
Proof.
  intros Hplan. unfold committed, transaction_update. simpl.
  rewrite getPlanCollection_set, lookup_alter_eq. by rewrite Hplan.
Qed.

Lemma committed_days_of isT planId ds now s plan :
  getPlanCollection isT s !! planId = Some plan →
  days_of (committed isT planId ds now s) isT planId = Some ds.
Proof.
  intros Hplan. unfold days_of. by erewrite committed_plan.
Qed.

Lemma committed_bucket_of isT planId ds now s plan d :
  getPlanCollection isT s !! planId = Some plan →
  bucket_of (committed isT planId ds now s) isT planId d = tasks <$> ds !! d.
Proof.
  intros Hplan. unfold bucket_of. by erewrite committed_plan.
Qed.

Lemma committed_other_plan isT planId ds now s planId' :
  planId ≠ planId' →
  getPlanCollection isT (committed isT planId ds now s) !! planId'
  = getPlanCollection isT s !! planId'.
Proof.
  intros Hne. unfold committed, transaction_update. simpl.
  by rewrite getPlanCollection_set, lookup_alter_ne.
Qed.

Lemma committed_other_collection isT planId ds now s :
  getPlanCollection (negb isT) (committed isT planId ds now s)
  = getPlanCollection (negb isT) s.
Proof. apply getPlanCollection_set_other. Qed.

(** A transaction that throws without a write is attempted
    [maxRetries = 5] times and fails with what it threw. *)
Lemma retried_failure {A} (body : Txn A) e s :
  body s = (inl e, s) →
  ∃ evs,
    runWithRetry (runTransaction body) maxRetries_default delay_default s
    = (inl e, s, evs)
    ∧ attempts (inl e : Thrown + A) evs = 5%nat
    ∧ length (List.filter is_sleep evs) = 4%nat.
Proof.
  intros Hbody.
  apply (runWithRetry_fails (runTransaction body) maxRetries_default).
  - unfold maxRetries_default. lia.
  - by eapply runTransaction_throws.
Qed.

Lemma first_attempt {A} (body : Txn A) a s s' :
  body s = (inr a, s') →
  runWithRetry (runTransaction body) maxRetries_default delay_default s
  = (inr a, s', []).
Proof.
  intros Hbody. apply runWithRetry_returns.
  - unfold maxRetries_default. lia.
  - by eapply runTransaction_returns.
Qed.

Ltac run_txn H :=
  unfold mbind, M_bind, transaction_get, throw; rewrite ?H; simpl.

(** From a transaction body that throws at [s] to the failed run of the
    operation [op] built on it. *)
Ltac retried Hbody op :=
  let evs := fresh "evs" in
  let Hrun := fresh "Hrun" in
  let Hn := fresh "Hn" in
  let Hs := fresh "Hs" in
  destruct (retried_failure _ _ _ Hbody) as (evs & Hrun & Hn & Hs);
  exists evs; unfold op; rewrite Hrun; unfold forget; simpl;
  split_and!; [reflexivity | exact Hn | exact Hs].

Lemma addTaskToDay_run planId dayOfWeek newItem isT insertIndex taskId now
    s plan :
  getPlanCollection isT s !! planId = Some plan →
  let r := addTaskToDay_day
             (default (emptyDay planId dayOfWeek) (days plan !! dayOfWeek))
             newItem insertIndex taskId now in
  let ds := <[dayOfWeek := r.2]> (days plan) in
  addTaskToDay planId dayOfWeek newItem isT insertIndex taskId now s
  = (inr (r.1, ds), committed isT planId ds now s, []).
Proof.
  intros Hplan r ds. apply first_attempt.
  unfold addTaskToDay_txn. run_txn Hplan. done.
Qed.

Lemma updateTask_run planId dayOfWeek taskId updates isT now s plan day
    currentTask :
  getPlanCollection isT s !! planId = Some plan →
  days plan !! dayOfWeek = Some day →
  Js.get taskId (tasks day) = Some currentTask →
  let ds := <[dayOfWeek :=
                with_tasks
                  (Js.set taskId (updatedTaskOf currentTask updates now)
                     (tasks day)) day]> (days plan) in
  updateTask planId dayOfWeek taskId updates isT now s
  = (inr (), committed isT planId ds now s, []).
Proof.
  intros Hplan Hday Hget ds. apply first_attempt.
  unfold updateTask_txn. run_txn Hplan. rewrite Hday, Hget. done.
Qed.

Lemma deleteTask_run planId dayOfWeek taskId isT now s plan day found :
  getPlanCollection isT s !! planId = Some plan →
  days plan !! dayOfWeek = Some day →
  Js.get taskId (tasks day) = Some found →
  let ds := deleteTask_days dayOfWeek taskId (days plan) day in
  deleteTask planId dayOfWeek taskId isT now s
  = (inr (), committed isT planId ds now s, []).
Proof.
  intros Hplan Hday Hget ds. apply first_attempt.
  unfold deleteTask_txn. run_txn Hplan. rewrite Hday.
  unfold Js.truthy_at. rewrite Hget. done.
Qed.

Lemma del_absent {V} k (o : Js.Obj V) : Js.get k o = None → Js.del k o = o.
Proof.
  induction o as [|[k' v'] o IH]; simpl; [done|].
  destruct (decide (k = k')); [done|]. intros Hget. by rewrite IH.
Qed.

(** The deletion of an inherited key that the bucket does not have: the
    guard lets it pass, and the days are written with the bucket as it
    was, or without the day if its bucket is empty. *)
Lemma deleteTask_inherited_run planId dayOfWeek taskId isT now s plan day :
  getPlanCollection isT s !! planId = Some plan →
  days plan !! dayOfWeek = Some day →
  Js.get taskId (tasks day) = None →
  Js.inherited taskId →
  let ds := deleteTask_days dayOfWeek taskId (days plan) day in
  deleteTask planId dayOfWeek taskId isT now s
  = (inr (), committed isT planId ds now s, []).
Proof.
  intros Hplan Hday Hget Hin ds. apply first_attempt.
  unfold deleteTask_txn. run_txn Hplan. rewrite Hday.
  unfold Js.truthy_at. rewrite Hget. by rewrite bool_decide_eq_true_2.
Qed.

Lemma moveTask_run planId source target taskId isT assignToUser sourceIndex
    targetIndex now s plan sourceDay found :
  getPlanCollection isT s !! planId = Some plan →
  days plan !! source = Some sourceDay →
  Js.get taskId (tasks sourceDay) = Some found →
  let ds := moveTask_days planId source target taskId assignToUser
              sourceIndex targetIndex now (days plan) sourceDay found in
  moveTask planId source target taskId isT assignToUser sourceIndex
    targetIndex now s
  = (inr (), committed isT planId ds now s, []).
Proof.
  intros Hplan Hday Hget ds. apply first_attempt.
  unfold moveTask_txn. run_txn Hplan. rewrite Hday, Hget. done.
Qed.

Lemma addTaskToDay_plan_missing planId dayOfWeek newItem isT insertIndex
    taskId now s :
  getPlanCollection isT s !! planId = None →
  addTaskToDay_txn planId dayOfWeek newItem isT insertIndex taskId now s
  = (inl (Err "Plan not found"), s).
Proof. intros H. unfold addTaskToDay_txn. run_txn H. done. Qed.

Lemma updateTask_plan_missing planId dayOfWeek taskId updates isT now s :
  getPlanCollection isT s !! planId = None →
  updateTask_txn planId dayOfWeek taskId updates isT now s
  = (inl (Err "Plan not found"), s).
Proof. intros H. unfold updateTask_txn. run_txn H. done. Qed.

Lemma deleteTask_plan_missing planId dayOfWeek taskId isT now s :
  getPlanCollection isT s !! planId = None →
  deleteTask_txn planId dayOfWeek taskId isT now s
  = (inl (Err "Plan not found"), s).
Proof. intros H. unfold deleteTask_txn. run_txn H. done. Qed.

Lemma moveTask_plan_missing planId source target taskId isT assignToUser
    sourceIndex targetIndex now s :
  getPlanCollection isT s !! planId = None →
  moveTask_txn planId source target taskId isT assignToUser sourceIndex
    targetIndex now s
  = (inl (Err "Plan not found"), s).
Proof. intros H. unfold moveTask_txn. run_txn H. done. Qed.

Lemma updateTask_item_missing planId dayOfWeek taskId updates isT now s plan :
  getPlanCollection isT s !! planId = Some plan →
  item_absent plan dayOfWeek taskId →
  updateTask_txn planId dayOfWeek taskId updates isT now s
  = (inl (Err "Task not found"), s).
Proof.
  intros H Habs. unfold updateTask_txn, item_absent in *. run_txn H.
  destruct (days plan !! dayOfWeek) as [day|]; [|done].
  simpl in Habs. by rewrite Habs.
Qed.

Lemma deleteTask_item_missing planId dayOfWeek taskId isT now s plan :
  getPlanCollection isT s !! planId = Some plan →
  item_absent plan dayOfWeek taskId →
  ¬ Js.inherited taskId →
  deleteTask_txn planId dayOfWeek taskId isT now s
  = (inl (Err "Task not found"), s).
Proof.
  intros H Habs Hown. unfold deleteTask_txn, item_absent in *. run_txn H.
  destruct (days plan !! dayOfWeek) as [day|]; [|done].
  simpl in Habs. unfold Js.truthy_at. rewrite Habs.
  by rewrite bool_decide_eq_false_2.
Qed.

Lemma deleteTask_day_missing planId dayOfWeek taskId isT now s plan :
  getPlanCollection isT s !! planId = Some plan →
  days plan !! dayOfWeek = None →
  deleteTask_txn planId dayOfWeek taskId isT now s
  = (inl (Err "Task not found"), s).
Proof.
  intros H Hday. unfold deleteTask_txn. run_txn H. by rewrite Hday.
Qed.

Lemma moveTask_item_missing planId source target taskId isT assignToUser
    sourceIndex targetIndex now s plan :
  getPlanCollection isT s !! planId = Some plan →
  item_absent plan source taskId →
  moveTask_txn planId source target taskId isT assignToUser sourceIndex
    targetIndex now s
  = (inl (Err "Task not found"), s).
Proof.
  intros H Habs. unfold moveTask_txn, item_absent in *. run_txn H.
  destruct (days plan !! source) as [day|]; [|done].
  simpl in Habs. by rewrite Habs.
Qed.

(** ** C5: which failures the Retry Controller retries *)

(** C5, as stated, fails: a call on a plan id that does not resolve, and a
    call on an item id that is absent, are each attempted five times, with
    four delays, before the error reaches the caller. *)
Lemma not_found_is_retried :
  (let r := deleteTask "no-such-plan" 1 "a" true 2000 Sample.storeA in
   r.1.1 = inl (Err "Plan not found")
   ∧ attempts r.1.1 r.2 = 5%nat
   ∧ List.filter is_sleep r.2 = [Sleep 1000; Sleep 1000; Sleep 1000; Sleep 1000])
  ∧ (let r := deleteTask "plan123" 1 "no-such-item" true 2000 Sample.storeA in
     r.1.1 = inl (Err "Task not found")
     ∧ attempts r.1.1 r.2 = 5%nat
     ∧ List.filter is_sleep r.2
       = [Sleep 1000; Sleep 1000; Sleep 1000; Sleep 1000]).
Proof. by vm_compute. Qed.

(** C5 (amended): the Retry Controller retries every failure alike. A
    mutation whose plan id does not resolve, or whose addressed item is
    absent under an id that is not the name of a property that objects
    inherit, is attempted five times, with a delay after each of the first
    four attempts, and only then fails with that error, the store being as
    before; so is any transaction that fails without a write, whatever it
    throws. *)
Theorem every_failure_is_retried (m : Mutation) (now : Z) (s : Store) :
  (getPlanCollection (addressed_plan m).1 s !! (addressed_plan m).2 = None →
   ∃ evs, perform m now s = (inl (Err "Plan not found"), s, evs)
          ∧ attempts (perform m now s).1.1 evs = 5%nat
          ∧ length (List.filter is_sleep evs) = 4%nat)
  ∧ (∀ plan d taskId,
       getPlanCollection (addressed_plan m).1 s !! (addressed_plan m).2
       = Some plan →
       addressed_item m = Some (d, taskId) →
       item_absent plan d taskId →
       ¬ Js.inherited taskId →
       ∃ evs, perform m now s = (inl (Err "Task not found"), s, evs)
              ∧ attempts (perform m now s).1.1 evs = 5%nat
              ∧ length (List.filter is_sleep evs) = 4%nat)
  ∧ (∀ (body : Txn unit) e,
       body s = (inl e, s) →
       ∃ evs,
         runWithRetry (runTransaction body) maxRetries_default delay_default s
         = (inl e, s, evs)
         ∧ attempts (inl e : Thrown + unit) evs = 5%nat
         ∧ length (List.filter is_sleep evs) = 4%nat).
Proof.
  split_and!.
  - intros Hnone.
    destruct m as [pid d ni isT ii tid | pid d tid u isT | pid d tid isT
                  | pid src tgt tid isT au si ti]; simpl in *.
    + retried (addTaskToDay_plan_missing pid d ni isT ii tid now s Hnone)
        addTaskToDay.
    + retried (updateTask_plan_missing pid d tid u isT now s Hnone)
        updateTask.
    + retried (deleteTask_plan_missing pid d tid isT now s Hnone) deleteTask.
    + retried (moveTask_plan_missing pid src tgt tid isT au si ti now s Hnone)
        moveTask.
  - intros plan d' tid' Hplan Haddr Habs Hown.
    destruct m as [pid d ni isT ii tid | pid d tid u isT | pid d tid isT
                  | pid src tgt tid isT au si ti]; simpl in *;
      [done| | |]; injection Haddr as <- <-.
    + retried (updateTask_item_missing pid d tid u isT now s plan Hplan Habs)
        updateTask.
    + retried (deleteTask_item_missing pid d tid isT now s plan Hplan Habs
                 Hown) deleteTask.
    + retried (moveTask_item_missing pid src tgt tid isT au si ti now s plan
                 Hplan Habs) moveTask.
  - intros body e Hbody. by apply retried_failure.
Qed.

Lemma every_failure_is_retried_witness :
  (∃ evs,
     perform (Delete "no-such-plan" 1 "a" true) 2000 Sample.storeA
     = (inl (Err "Plan not found"), Sample.storeA, evs)
     ∧ attempts
         (perform (Delete "no-such-plan" 1 "a" true) 2000 Sample.storeA).1.1
         evs = 5%nat
     ∧ length (List.filter is_sleep evs) = 4%nat)
  ∧ (∃ evs,
       perform (Move "plan123" 1 2 "no-such-item" true None None None) 2000
         Sample.storeA
       = (inl (Err "Task not found"), Sample.storeA, evs)
       ∧ attempts
           (perform (Move "plan123" 1 2 "no-such-item" true None None None)
              2000 Sample.storeA).1.1
           evs = 5%nat
       ∧ length (List.filter is_sleep evs) = 4%nat).
Proof.
  split.
  - apply (proj1 (every_failure_is_retried
                    (Delete "no-such-plan" 1 "a" true) 2000 Sample.storeA)).
    vm_compute. reflexivity.
  - apply (proj1 (proj2 (every_failure_is_retried
                           (Move "plan123" 1 2 "no-such-item" true None None
                              None) 2000 Sample.storeA))
             Sample.planA 1 "no-such-item").
    + vm_compute. reflexivity.
    + reflexivity.
    + vm_compute. reflexivity.
    + apply (bool_decide_unpack _). vm_compute. exact I.
Defined.

(** ** C6: Delete *)

(** C6 (what the code does): on a plan that resolves, deleting an item
    that is in the addressed bucket returns at the first attempt and
    removes exactly the entry of that item; the key of a bucket that became
    empty is removed from the days of the plan, and a bucket that did not
    stays, with the remaining entries as they were, orders included.
    Deleting an id that the bucket does not have fails with
    [Task not found] when the day is absent or the id is not the name of a
    property that objects inherit. For such a name ([toString],
    [constructor], ...) and a day that is present the guard
    [!day.tasks[taskId]] finds the inherited property: Delete returns at
    the first attempt, writes the modification time of the plan, leaves the
    days as they were if the bucket has an entry and removes the day if it
    has none. *)
Theorem deleteTask_removes_item planId dayOfWeek taskId isT now s plan :
  getPlanCollection isT s !! planId = Some plan →
  (∀ day found,
     days plan !! dayOfWeek = Some day →
     NoDup (Js.keys (tasks day)) →
     Js.get taskId (tasks day) = Some found →
     ∃ s' before after,
       deleteTask planId dayOfWeek taskId isT now s = (inr (), s', [])
       ∧ tasks day = before ++ (taskId, found) :: after
       ∧ (taskId ∉ Js.keys (before ++ after))
       ∧ (before ++ after = [] →
          days_of s' isT planId = Some (delete dayOfWeek (days plan)))
       ∧ (before ++ after ≠ [] →
          days_of s' isT planId
          = Some (<[dayOfWeek := with_tasks (before ++ after) day]>
                    (days plan))))
  ∧ (item_absent plan dayOfWeek taskId →
     ¬ Js.inherited taskId ∨ days plan !! dayOfWeek = None →
     ∃ evs, deleteTask planId dayOfWeek taskId isT now s
            = (inl (Err "Task not found"), s, evs))
  ∧ (∀ day,
       days plan !! dayOfWeek = Some day →
       Js.get taskId (tasks day) = None →
       Js.inherited taskId →
       ∃ s' plan',
         deleteTask planId dayOfWeek taskId isT now s = (inr (), s', [])
         ∧ getPlanCollection isT s' !! planId = Some plan'
         ∧ plan_updatedAt plan' = now
         ∧ (tasks day ≠ [] → days plan' = days plan)
         ∧ (tasks day = [] → days plan' = delete dayOfWeek (days plan))).
Proof.
  intros Hplan. split_and!.
  - intros day found Hday Hnd Hget.
    destruct (get_split _ _ _ Hget) as (before & after & Hts & Hk & Hdel & _).
    eexists _, before, after. split_and!.
    + by eapply deleteTask_run.
    + done.
    + rewrite Hts in Hnd. unfold Js.keys in *.
      rewrite fmap_app in *. simpl in Hnd.
      apply NoDup_app in Hnd as (_ & Hdis & Hnd2).
      apply NoDup_cons in Hnd2 as [Hk2 _].
      rewrite elem_of_app. intros [?|?]; done.
    + intros Hempty. erewrite committed_days_of by done. f_equal.
      unfold deleteTask_days. simpl. rewrite Hdel, Hempty. done.
    + intros Hrest. erewrite committed_days_of by done. f_equal.
      unfold deleteTask_days. simpl. rewrite Hdel.
      destruct (decide _) as [Hlen|_]; [|done].
      unfold Js.keys in Hlen. rewrite length_fmap in Hlen.
      by apply nil_length_inv in Hlen.
  - intros Habs [Hown|Hday].
    + destruct (retried_failure _ _ _
                  (deleteTask_item_missing planId dayOfWeek taskId isT now s
                     plan Hplan Habs Hown)) as (evs & Hrun & _).
      by exists evs.
    + destruct (retried_failure _ _ _
                  (deleteTask_day_missing planId dayOfWeek taskId isT now s
                     plan Hplan Hday)) as (evs & Hrun & _).
      by exists evs.
  - intros day Hday Hget Hin. eexists _, _. split_and!.
    + by eapply deleteTask_inherited_run.
    + by apply committed_plan.
    + done.
    + intros Hrest. unfold deleteTask_days. cbn [days with_days].
      rewrite del_absent by done. cbn [tasks with_tasks].
      destruct (decide _) as [Hlen|_].
      { unfold Js.keys in Hlen. rewrite length_fmap in Hlen.
        by apply nil_length_inv in Hlen. }
      apply insert_id. rewrite Hday. by destruct day.
    + intros Hempty. unfold deleteTask_days. cbn [days with_days].
      rewrite del_absent by done. cbn [tasks with_tasks].
      by rewrite Hempty.
Qed.

Lemma deleteTask_removes_item_witness :
  (∃ s', deleteTask "plan123" 1 "a" true 2000 Sample.storeA = (inr (), s', [])
         ∧ Sample.dayOf s' 1 = Some [("b", Some 1)])
  ∧ (∃ s', deleteTask "plan123" 1 "a" true 2000 Sample.storeB
           = (inr (), s', [])
           ∧ Sample.dayOf s' 1 = None)
  ∧ (∃ evs, deleteTask "plan123" 1 "x" true 2000 Sample.storeB
            = (inl (Err "Task not found"), Sample.storeB, evs))
  ∧ (∃ s' plan',
       deleteTask "plan123" 1 "toString" true 2000 Sample.storeA
       = (inr (), s', [])
       ∧ getPlanCollection true s' !! "plan123" = Some plan'
       ∧ plan_updatedAt plan' = 2000
       ∧ days plan' = days Sample.planA).
Proof.
  split_and!.
  - destruct (proj1 (deleteTask_removes_item "plan123" 1 "a" true 2000
                       Sample.storeA Sample.planA eq_refl)
                Sample.dayA Sample.taskA eq_refl)
      as (s' & before & after & Hrun & _).
    + apply (bool_decide_unpack _). vm_compute. exact I.
    + reflexivity.
    + exists s'. split; [exact Hrun|].
      vm_compute in Hrun. injection Hrun as <-. vm_compute. reflexivity.
  - destruct (proj1 (deleteTask_removes_item "plan123" 1 "a" true 2000
                       Sample.storeB Sample.planB eq_refl)
                Sample.dayB Sample.taskA eq_refl)
      as (s' & before & after & Hrun & _).
    + apply (bool_decide_unpack _). vm_compute. exact I.
    + reflexivity.
    + exists s'. split; [exact Hrun|].
      vm_compute in Hrun. injection Hrun as <-. vm_compute. reflexivity.
  - apply (proj1 (proj2 (deleteTask_removes_item "plan123" 1 "x" true 2000
                           Sample.storeB Sample.planB eq_refl))).
    + vm_compute. reflexivity.
    + left. apply (bool_decide_unpack _). vm_compute. exact I.
  - destruct (proj2 (proj2 (deleteTask_removes_item "plan123" 1 "toString"
                              true 2000 Sample.storeA Sample.planA eq_refl))
                Sample.dayA eq_refl)
      as (s' & plan' & Hrun & Hplan' & Htime & Hrest & _).
    + reflexivity.
    + apply (bool_decide_unpack _). vm_compute. exact I.
    + exists s', plan'. split_and!; [done..|]. by apply Hrest.
Defined.

(** ** C7: Update *)

(** C7, as stated, fails: [order] is one of the fields that the partial
    updates may carry, and an update that carries it overwrites the order
    of the item. *)
Lemma updateTask_overwrites_order :
  let r := updateTask "plan123" 1 "a" Sample.retitleAndReorder true 2000
             Sample.storeA in
  r.1.1 = inr ()
  ∧ order_of Sample.taskA = Some 0
  ∧ Sample.dayOf r.1.2 1 = Some [("a", Some 5); ("b", Some 1)].
Proof. by vm_compute. Qed.

(** C7 (amended): on a plan that resolves and an item that is in the
    addressed bucket, Update returns at the first attempt; it replaces the
    entry of the item, in place, by the item with the fields of the partial
    updates merged in and the modification timestamp set; the order of the
    item is unchanged unless the updates carry an order, which then
    replaces it; every other entry of the bucket, every other bucket of the
    plan and every other plan are unchanged. *)
Theorem updateTask_merges_in_place planId dayOfWeek taskId updates isT now s
    plan day cur :
  getPlanCollection isT s !! planId = Some plan →
  days plan !! dayOfWeek = Some day →
  Js.get taskId (tasks day) = Some cur →
  ∃ s' before after,
    updateTask planId dayOfWeek taskId updates isT now s = (inr (), s', [])
    ∧ tasks day = before ++ (taskId, cur) :: after
    ∧ (let upd := updatedTaskOf cur updates now in
       days_of s' isT planId
       = Some (<[dayOfWeek :=
                   with_tasks (before ++ (taskId, upd) :: after) day]>
                 (days plan))
       ∧ item_updatedAt (item upd) = now
       ∧ order_of upd = or_else (upd_item updates ≫= upd_order) (order_of cur)
       ∧ (upd_item updates ≫= upd_order = None → order_of upd = order_of cur)
       ∧ type upd = default (type cur) (upd_type updates)
       ∧ title (item upd)
         = default (title (item cur)) (upd_item updates ≫= upd_title)
       ∧ minutes (item upd)
         = or_else (upd_item updates ≫= upd_minutes) (minutes (item cur))
       ∧ assignedTo (item upd)
         = or_else (upd_item updates ≫= upd_assignedTo)
             (assignedTo (item cur))
       ∧ completed (item upd)
         = or_else (upd_item updates ≫= upd_completed) (completed (item cur))
       ∧ color (item upd)
         = or_else (upd_item updates ≫= upd_color) (color (item cur)))
    ∧ (∀ planId', planId' ≠ planId →
         getPlanCollection isT s' !! planId'
         = getPlanCollection isT s !! planId')
    ∧ getPlanCollection (negb isT) s' = getPlanCollection (negb isT) s.
Proof.
  intros Hplan Hday Hget.
  destruct (get_split _ _ _ Hget) as (before & after & Hts & _ & _ & Hset).
  eexists _, before, after.
  split; [by eapply updateTask_run|]. split; [done|].
  split; [cbv zeta; split_and!|split].
  - erewrite committed_days_of by done. by rewrite Hset.
  - done.
  - unfold updatedTaskOf, order_of. simpl.
    by destruct (upd_item updates) as [u|]; [destruct (upd_order u)|].
  - intros Hnone. unfold updatedTaskOf, order_of. simpl.
    destruct (upd_item updates) as [u|]; [|done]. simpl in *.
    by rewrite Hnone.
  - done.
  - simpl. by destruct (upd_item updates).
  - simpl. by destruct (upd_item updates).
  - simpl. by destruct (upd_item updates).
  - simpl. by destruct (upd_item updates).
  - simpl. by destruct (upd_item updates).
  - intros planId' Hne. by apply committed_other_plan.
  - apply committed_other_collection.
Qed.

Lemma updateTask_merges_in_place_witness :
  ∃ s', updateTask "plan123" 1 "a" Sample.complete true 2000 Sample.storeA
        = (inr (), s', [])
        ∧ Sample.dayOf s' 1 = Some [("a", Some 0); ("b", Some 1)].
Proof.
  destruct (updateTask_merges_in_place "plan123" 1 "a" Sample.complete true
              2000 Sample.storeA Sample.planA Sample.dayA Sample.taskA
              eq_refl eq_refl eq_refl)
    as (s' & before & after & Hrun & _).
  exists s'. split; [exact Hrun|].
  vm_compute in Hrun. injection Hrun as <-. vm_compute. reflexivity.
Defined.

(** ** C1: Sections and moves between days *)

(** C1, as stated of [moveTask], fails: the service does not look at the
    type of the item, and moves the section of day 0 to day 1. *)
Lemma moveTask_moves_section_between_days :
  let r := moveTask "plan123" 0 1 "s" true None (Some 0) (Some 0) 2000
             Sample.storeD in
  type Sample.sectionS = section
  ∧ Sample.dayOf Sample.storeD 0 = Some [("s", Some 0)]
  ∧ Sample.dayOf Sample.storeD 1 = None
  ∧ r.1.1 = inr ()
  ∧ Sample.dayOf r.1.2 0 = Some []
  ∧ Sample.dayOf r.1.2 1 = Some [("s", Some 0)]
  ∧ r.1.2 ≠ Sample.storeD.
Proof.
  split_and!; by vm_compute.
Qed.

(** C1 (amended): the move of a Section to another day is rejected by the
    caller of [moveTask], [moveTaskBetweenDays] of the task context. For
    every Section of the source bucket of its active plan and every two
    distinct day indices, it fails with [Sections cannot be moved between
    different days] before any call of the store, and the stored plans are
    as before. *)
Theorem moveTaskBetweenDays_rejects_section activeTemplate activeExecutionPlan
    currentUser source target itemId sourceIndex targetIndex assignToUser
    now s activePlan sourceDay found :
  or_else activeTemplate activeExecutionPlan = Some activePlan →
  is_Some currentUser →
  days activePlan !! source = Some sourceDay →
  Js.get itemId (tasks sourceDay) = Some found →
  type found = section →
  source ≠ target →
  moveTaskBetweenDays activeTemplate activeExecutionPlan currentUser source
    target itemId sourceIndex targetIndex assignToUser now s
  = (inl (Err "Sections cannot be moved between different days"), s, []).
Proof.
  intros Hactive [uid ->] Hday Hget Htype Hne.
  unfold moveTaskBetweenDays. rewrite Hactive, Hday. simpl. rewrite Hget.
  rewrite bool_decide_eq_true_2 by done.
  rewrite bool_decide_eq_true_2 by done. done.
Qed.

Lemma moveTaskBetweenDays_rejects_section_witness :
  moveTaskBetweenDays (Some Sample.planD) None (Some "user123") 0 1 "s" 0 0
    None 2000 Sample.storeD
  = (inl (Err "Sections cannot be moved between different days"),
     Sample.storeD, []).
Proof.
  apply (moveTaskBetweenDays_rejects_section (Some Sample.planD) None
           (Some "user123") 0 1 "s" 0 0 None 2000 Sample.storeD Sample.planD
           Sample.dayD Sample.sectionS).
  - reflexivity.
  - by eexists.
  - reflexivity.
  - reflexivity.
  - reflexivity.
  - lia.
Defined.

(** ** C4: the source bucket of a move between days *)

Lemma reassigned_id found assignToUser now :
  id_of (reassigned found assignToUser now) = id_of found.
Proof.
  unfold reassigned. destruct assignToUser; [|done].
  by destruct (isAssignableItem found).
Qed.

(** C4 (what the code does): after a move between two different days the
    source day is still a key of the days of the plan, with the entries it
    had less the one of the moved item; so it is, with no entry at all,
    when the item was its last. The emptied bucket is not pruned. *)
Theorem moveTask_keeps_source_key planId source target taskId isT
    assignToUser sourceIndex targetIndex now s plan sourceDay found :
  getPlanCollection isT s !! planId = Some plan →
  days plan !! source = Some sourceDay →
  Js.get taskId (tasks sourceDay) = Some found →
  source ≠ target →
  ∃ s',
    moveTask planId source target taskId isT assignToUser sourceIndex
      targetIndex now s = (inr (), s', [])
    ∧ bucket_of s' isT planId source = Some (Js.del taskId (tasks sourceDay))
    ∧ (tasks sourceDay = [(taskId, found)] →
       bucket_of s' isT planId source = Some []).
Proof.
  intros Hplan Hday Hget Hne.
  assert (bucket_of
            (committed isT planId
               (moveTask_days planId source target taskId assignToUser
                  sourceIndex targetIndex now (days plan) sourceDay found)
               now s) isT planId source
          = Some (Js.del taskId (tasks sourceDay))) as Hb.
  { erewrite committed_bucket_of by done. unfold moveTask_days.
    destruct (decide (source = target)); [done|].
    rewrite lookup_insert_ne by done. by rewrite lookup_insert_eq. }
  eexists. split_and!.
  - by eapply moveTask_run.
  - exact Hb.
  - intros Hone. rewrite Hb, Hone. simpl.
    destruct (decide (taskId = taskId)); done.
Qed.

Lemma moveTask_keeps_source_key_witness :
  ∃ s',
    moveTask "plan123" 1 2 "a" true None (Some 0) (Some 0) 2000 Sample.storeB
    = (inr (), s', [])
    ∧ bucket_of s' true "plan123" 1 = Some []
    ∧ Sample.dayOf s' 2 = Some [("a", Some 0)].
Proof.
  destruct (moveTask_keeps_source_key "plan123" 1 2 "a" true None (Some 0)
              (Some 0) 2000 Sample.storeB Sample.planB Sample.dayB
              Sample.taskA eq_refl eq_refl eq_refl)
    as (s' & Hrun & _ & Hempty); [lia|].
  exists s'. split_and!; [exact Hrun | by apply Hempty |].
  vm_compute in Hrun. injection Hrun as <-. vm_compute. reflexivity.
Defined.

(** ** C2: dense ordering after Add, Delete and Move *)




Lemma renumber_moved_id taskId now i t :
  id_of (renumber_moved taskId now i t) = id_of t.
Proof. done. Qed.

Lemma inserted_ids (l : list TaskItem) i x :
  NoDup (id_of <$> l) → id_of x ∉ id_of <$> l →
  NoDup (id_of <$> Js.splice l i 0 [x]).
Proof.
  intros Hnd Hx. rewrite splice_insert_perm, fmap_cons.
  by apply NoDup_cons.
Qed.









(** ** C10: the order of the item that Add returns *)

Lemma forEach_assign_get f l n t :
  NoDup (id_of <$> l) → l !! n = Some t →
  Js.get (id_of t) (forEach_assign f l) = Some (f n t).
Proof.
  intros Hnd Hn. apply get_elem_nodup.
  - by rewrite forEach_assign_keys.
  - rewrite forEach_assign_nodup by done.
    apply list_elem_of_lookup. exists n.
    rewrite list_lookup_imap. by rewrite Hn.
Qed.

Lemma splice_insert_lookup {A} (l : list A) i x :
  Js.splice l i 0 [x] !! Js.splice_start (length l) i = Some x.
Proof.
  rewrite splice_insert. apply list_lookup_middle.
  rewrite length_take. pose proof (splice_start_le (length l) i). lia.
Qed.

(** C10: the item that Add returns carries the insertion index given by
    the caller as its order, while the stored item carries its position
    after the splice; with an insertion index beyond the item count of the
    bucket the stored order is that count, and the returned order is
    larger. *)
Theorem addTaskToDay_returns_insertion_index planId d newItem isT
    (insertIndex : Z) taskId now s plan :
  getPlanCollection isT s !! planId = Some plan →
  (∀ day, days plan !! d = Some day →
          bucket_wf (tasks day) ∧ taskId ∉ Js.keys (tasks day)) →
  let count :=
    length (Js.values (tasks (default (emptyDay planId d)
                                (days plan !! d)))) in
  ∃ newTask ds s' stored,
    addTaskToDay planId d newItem isT (Some insertIndex) taskId now s
    = (inr (newTask, ds), s', [])
    ∧ order_of newTask = Some insertIndex
    ∧ bucket_of s' isT planId d ≫= Js.get taskId = Some stored
    ∧ order_of stored = Some (Z.of_nat (Js.splice_start count insertIndex))
    ∧ (Z.of_nat count < insertIndex →
       order_of stored = Some (Z.of_nat count)
       ∧ order_of stored ≠ order_of newTask).
Proof.
  intros Hplan Hday count.
  set (day := default (emptyDay planId d) (days plan !! d)) in *.
  assert (bucket_wf (tasks day) ∧ taskId ∉ Js.keys (tasks day))
    as [Hwf Hfresh].
  { unfold day. destruct (days plan !! d) as [day'|]; [by apply Hday|].
    simpl. split; [|apply not_elem_of_nil].
    split; [apply NoDup_nil_2 | apply Forall_nil_2]. }
  set (sorted := Js.sort compareOrderOrZero (Js.values (tasks day))).
  assert (length sorted = count) as Hlen by apply length_sort.
  assert (taskId ∉ id_of <$> sorted) as Hfresh'.
  { unfold sorted. rewrite sort_perm. by rewrite <- bucket_wf_keys. }
  set (r := addTaskToDay_day day newItem (Some insertIndex) taskId now).
  assert (Js.get taskId (tasks r.2)
          = Some (with_item
                    (with_order
                       (Some (Z.of_nat (Js.splice_start count insertIndex))))
                    r.1)) as Hstored.
  { rewrite <- Hlen. simpl. fold sorted.
    match goal with
    | |- Js.get _ (forEach_assign ?f (Js.splice _ _ _ [?x])) = _ =>
        apply (forEach_assign_get f _ _ x)
    end.
    - apply inserted_ids; [|exact Hfresh'].
      apply sort_ids, bucket_wf_ids, Hwf.
    - apply splice_insert_lookup. }
  eexists r.1, _, _, _. split_and!.
  - by eapply addTaskToDay_run.
  - done.
  - erewrite committed_bucket_of by done. rewrite lookup_insert_eq.
    simpl. exact Hstored.
  - done.
  - intros Hbeyond. unfold order_of. simpl.
    rewrite splice_start_beyond by lia.
    split; [done|]. intros [= Heq]. lia.
Qed.

Lemma addTaskToDay_returns_insertion_index_witness :
  ∃ newTask ds s' stored,
    addTaskToDay "plan123" 1 (Sample.aTask "" None 45 None) true (Some 5) "c"
      2000 Sample.storeA = (inr (newTask, ds), s', [])
    ∧ order_of newTask = Some 5
    ∧ bucket_of s' true "plan123" 1 ≫= Js.get "c" = Some stored
    ∧ order_of stored = Some 2
    ∧ order_of stored ≠ order_of newTask.
Proof.
  destruct (addTaskToDay_returns_insertion_index "plan123" 1
              (Sample.aTask "" None 45 None) true 5 "c" 2000 Sample.storeA
              Sample.planA eq_refl)
    as (newTask & ds & s' & stored & Hrun & Hret & Hget & _ & Hbeyond).
  - intros day Hday.
    change (days Sample.planA) with ({[ 1 := Sample.dayA ]} : gmap Z DayPlan)
      in Hday.
    apply lookup_singleton_Some in Hday as [_ <-].
    split; apply (bool_decide_unpack _); vm_compute; exact I.
  - exists newTask, ds, s', stored.
    destruct Hbeyond as [Hstored Hne]; [vm_compute; reflexivity|].
    split_and!; [exact Hrun | exact Hret | exact Hget | exact Hstored
                | exact Hne].
Defined.

(** ** C9: the Metrics Projector *)

Module TaskServiceFacts.
Import TaskService.

Section Metrics.
Variables userId partnerId : string.

Lemma length_filter_count (P : Task → bool) tasks :
  Z.of_nat (length (List.filter P tasks)) = count_where P tasks.
Proof.
  induction tasks as [|t tasks IH]; simpl; [done|].
  destruct (P t); simpl; lia.
Qed.

Lemma reduce_minutes (acc : Z) tasks :
  foldl (λ total task, total + minutes task) acc tasks
  = acc + minutes_where (λ _, true) tasks.
Proof.
  revert acc. induction tasks as [|t tasks IH]; intros acc; simpl; [lia|].
  rewrite IH. lia.
Qed.

Lemma count_where_filter (P Q : Task → bool) tasks :
  count_where Q (List.filter P tasks)
  = count_where (λ t, P t && Q t) tasks.
Proof.
  induction tasks as [|t tasks IH]; simpl; [done|].
  destruct (P t); simpl; by rewrite IH.
Qed.

Lemma minutes_where_filter (P Q : Task → bool) tasks :
  minutes_where Q (List.filter P tasks)
  = minutes_where (λ t, P t && Q t) tasks.
Proof.
  induction tasks as [|t tasks IH]; simpl; [done|].
  destruct (P t); simpl; by rewrite IH.
Qed.

Lemma count_where_ext (P Q : Task → bool) tasks :
  (∀ t, P t = Q t) → count_where P tasks = count_where Q tasks.
Proof.
  intros H. induction tasks as [|t tasks IH]; simpl; [done|].
  by rewrite H, IH.
Qed.

Lemma minutes_where_ext (P Q : Task → bool) tasks :
  (∀ t, P t = Q t) → minutes_where P tasks = minutes_where Q tasks.
Proof.
  intros H. induction tasks as [|t tasks IH]; simpl; [done|].
  by rewrite H, IH.
Qed.

Lemma filterTasksByOwner_belongs tasks owner :
  filterTasksByOwner userId partnerId tasks owner
  = List.filter (belongs userId partnerId owner) tasks.
Proof. by destruct owner. Qed.

(** The metrics of a list of tasks, in terms of the list. *)
Lemma calculateTaskMetrics_spec (P : Task → bool) tasks :
  let m := calculateTaskMetrics (List.filter P tasks) in
  totalTasks m = count_where P tasks
  ∧ completedTasks m = count_where (λ t, P t && completed t) tasks
  ∧ totalMinutes m = minutes_where P tasks
  ∧ remainingMinutes m
    = minutes_where (λ t, P t && negb (completed t)) tasks.
Proof.
  simpl. split_and!.
  - apply length_filter_count.
  - by rewrite length_filter_count, count_where_filter.
  - rewrite reduce_minutes, minutes_where_filter. simpl.
    apply minutes_where_ext. intros t. by rewrite andb_true_r.
  - rewrite reduce_minutes. rewrite !minutes_where_filter. simpl.
    apply minutes_where_ext. intros t. by rewrite andb_true_r.
Qed.

(** Three tests of which every element passes exactly one split a list in
    three. *)
Lemma filter3_partition (P1 P2 P3 : Task → bool) tasks :
  Forall (λ t, (P1 t = true ∧ P2 t = false ∧ P3 t = false)
               ∨ (P1 t = false ∧ P2 t = true ∧ P3 t = false)
               ∨ (P1 t = false ∧ P2 t = false ∧ P3 t = true)) tasks →
  List.filter P1 tasks ++ List.filter P2 tasks ++ List.filter P3 tasks
  ≡ₚ tasks.
Proof.
  induction 1 as [|t tasks Ht _ IH]; simpl; [done|].
  destruct Ht as [(-> & -> & ->)|[(-> & -> & ->)|(-> & -> & ->)]]; simpl.
  - by rewrite IH.
  - rewrite <- Permutation_middle. by rewrite IH.
  - rewrite app_assoc, <- Permutation_middle, <- app_assoc. by rewrite IH.
Qed.

(** C9 (amended): for each of the three owners, the metrics of the
    owner's group are the count of the tasks of the group and the count of
    its completed tasks and, when no task has negative minutes and the
    minutes of all tasks add up to at most [2^53], the sum of its minutes
    and the sum of the minutes of its incomplete tasks; the completion rate
    is completed/total for a group that is not empty and 0 for an empty
    one. With two distinct collaborators, and every task assigned to one of
    them or unassigned, the three groups partition the tasks. *)
Theorem metrics_by_owner (tasks : list Task) :
  let m := calculateTaskMetricsByOwner userId partnerId tasks in
  (∀ owner,
     let group := filterTasksByOwner userId partnerId tasks owner in
     let g := metrics_of m owner in
     (∀ t, In t group ↔ In t tasks ∧ belongs userId partnerId owner t = true)
     ∧ totalTasks g = Z.of_nat (length group)
     ∧ totalTasks g = count_where (belongs userId partnerId owner) tasks
     ∧ completedTasks g
       = count_where (λ t, belongs userId partnerId owner t && completed t)
           tasks
     ∧ (exact_minutes tasks →
        totalMinutes g = minutes_where (belongs userId partnerId owner) tasks
        ∧ remainingMinutes g
          = minutes_where
              (λ t, belongs userId partnerId owner t && negb (completed t))
              tasks)
     ∧ (group ≠ [] →
        completionRate g
        = Qdiv (inject_Z (completedTasks g)) (inject_Z (totalTasks g)))
     ∧ (group = [] → completionRate g = inject_Z 0))
  ∧ (userId ≠ partnerId →
     Forall (λ t, assignedTo t = Some userId ∨ assignedTo t = Some partnerId
                  ∨ assignedTo t = None) tasks →
     filterTasksByOwner userId partnerId tasks user
     ++ filterTasksByOwner userId partnerId tasks partner
     ++ filterTasksByOwner userId partnerId tasks unassigned
     ≡ₚ tasks).
Proof.
  split.
  - intros owner group g.
    assert (g = calculateTaskMetrics
                  (List.filter (belongs userId partnerId owner) tasks)) as Hg.
    { unfold g. by destruct owner. }
    assert (group = List.filter (belongs userId partnerId owner) tasks)
      as Hgroup by apply filterTasksByOwner_belongs.
    destruct (calculateTaskMetrics_spec (belongs userId partnerId owner) tasks)
      as (Htotal & Hdone & Hmin & Hrem).
    rewrite <- Hg in Htotal, Hdone, Hmin, Hrem.
    split_and!; try done.
    + intros t. rewrite Hgroup. apply filter_In.
    + by rewrite Hg, Hgroup.
    + intros Hne. rewrite Hg at 1. simpl. rewrite <- Hgroup.
      destruct group; [done|]. simpl. by rewrite Hg, <- Hgroup.
    + intros Hempty. rewrite Hg. simpl. rewrite <- Hgroup, Hempty. done.
  - intros Hne Hall. rewrite !filterTasksByOwner_belongs.
    apply filter3_partition. eapply Forall_impl; [exact Hall|].
    intros t Ht. simpl.
    destruct Ht as [Ht|[Ht|Ht]]; rewrite Ht.
    + left. split_and!; [by apply bool_decide_eq_true_2
                        | apply bool_decide_eq_false_2; congruence
                        | by apply bool_decide_eq_false_2].
    + right. left. split_and!; [apply bool_decide_eq_false_2; congruence
                               | by apply bool_decide_eq_true_2
                               | by apply bool_decide_eq_false_2].
    + right. right. split_and!; [by apply bool_decide_eq_false_2
                                | by apply bool_decide_eq_false_2
                                | by apply bool_decide_eq_true_2].
Qed.

End Metrics.

(** C9, as stated, fails for two equal collaborator identifiers, which is
    how the service is set up before a partnership is known: a task
    assigned to that identifier is in the group of owner A and in that of
    owner B, so the three groups count two tasks where the list has one. *)
Lemma metrics_groups_overlap :
  let tasks := [sampleTask "t1" 30 (Some "u1") true] in
  let m := calculateTaskMetricsByOwner "u1" "u1" tasks in
  filterTasksByOwner "u1" "u1" tasks user = tasks
  ∧ filterTasksByOwner "u1" "u1" tasks partner = tasks
  ∧ totalTasks (of_user m) + totalTasks (of_partner m)
    + totalTasks (of_unassigned m) = 2
  ∧ totalTasks (of_all m) = 1.
Proof. by vm_compute. Qed.

Lemma metrics_by_owner_witness :
  filterTasksByOwner "u1" "u2" sampleTasks user
  ++ filterTasksByOwner "u1" "u2" sampleTasks partner
  ++ filterTasksByOwner "u1" "u2" sampleTasks unassigned
  ≡ₚ sampleTasks
  ∧ totalMinutes
      (metrics_of (calculateTaskMetricsByOwner "u1" "u2" sampleTasks) user)
    = 75.
Proof.
  split.
  - apply (proj2 (metrics_by_owner "u1" "u2" sampleTasks)).
    + discriminate.
    + unfold sampleTasks, sampleTask.
      repeat (apply Forall_cons; split; [simpl; tauto|]).
      apply Forall_nil_2.
  - destruct (proj1 (metrics_by_owner "u1" "u2" sampleTasks) user)
      as (_ & _ & _ & _ & Hmin & _).
    destruct Hmin as [Hmin _].
    + apply (bool_decide_unpack _). vm_compute. exact I.
    + rewrite Hmin. reflexivity.
Defined.

End TaskServiceFacts.

(** * Further properties of the services *)

(** ** The retry loop, for any function *)

Lemma retry_loop_trace {S A} (fn : M S A) maxRetries delay :
  ∀ n lastError s, (n ≤ maxRetries)%nat →
  let res := retry_loop fn maxRetries delay n lastError s in
  ∃ failed : nat,
    (failed ≤ n)%nat
    ∧ (∀ i, (i < failed)%nat →
            (fn (state_before_call fn s i)).1 = inl (thrown_by fn s i))
    ∧ res.2
      = seq 0 failed
          ≫= (λ i, Warn (maxRetries - n + i + 1) (thrown_by fn s i)
                   :: (if decide (maxRetries - n + i < maxRetries - 1)%nat
                       then [Sleep delay] else []))
    ∧ ((failed < n)%nat →
       ∃ a, fn (state_before_call fn s failed) = (inr a, res.1.2)
            ∧ res.1.1 = inr a)
    ∧ (failed = n →
       res.1.2 = state_before_call fn s failed
       ∧ res.1.1 = inl (match failed with
                        | O => lastError
                        | Datatypes.S i => thrown_by fn s i
                        end)).
Proof.
  induction n as [|n IH]; intros lastError s Hn.
  - exists 0%nat. simpl. split_and!; [done|lia|done|lia|done].
  - cbn zeta. simpl retry_loop. destruct (fn s) as [[e|a] s1] eqn:Hfn.
    + specialize (IH e s1 ltac:(lia)). cbn zeta in IH.
      destruct (retry_loop fn maxRetries delay n e s1) as [[r s2] evs].
      cbn [fst snd] in *.
      destruct IH as (failed & Hle & Hfail & Hevs & Hret & Hthrow).
      assert (∀ i, state_before_call fn s (Datatypes.S i)
                   = state_before_call fn s1 i) as Hstate
        by (intros i; simpl; by rewrite Hfn).
      assert (∀ i, thrown_by fn s (Datatypes.S i) = thrown_by fn s1 i)
        as Hthrown by (intros i; unfold thrown_by; by rewrite Hstate).
      assert (thrown_by fn s 0 = e) as Hfirst
        by (unfold thrown_by; simpl; by rewrite Hfn).
      exists (Datatypes.S failed). split_and!.
      * lia.
      * intros [|i] Hi.
        -- simpl. by rewrite Hfirst, Hfn.
        -- rewrite Hstate, Hthrown. apply Hfail. lia.
      * cbn [seq]. rewrite bind_cons, <- fmap_S_seq, list_fmap_bind.
        rewrite Hfirst, Nat.add_0_r. simpl app. f_equal. f_equal.
        rewrite Hevs. apply list_bind_ext; [|done]. intros i. simpl.
        rewrite Hthrown.
        by replace (maxRetries - Datatypes.S n + Datatypes.S i)%nat
          with (maxRetries - n + i)%nat by lia.
      * intros Hlt. rewrite Hstate. apply Hret. lia.
      * intros [= ->]. rewrite Hstate.
        destruct (Hthrow eq_refl) as [-> ->]. split; [done|].
        destruct n as [|n']; [by rewrite Hfirst | by rewrite Hthrown].
    + exists 0%nat. cbn [fst snd]. split_and!; [lia|lia|done| |lia].
      intros _. exists a. simpl. by rewrite Hfn.
Qed.

(** X1: a run of [runWithRetry] is a sequence of at most [maxRetries]
    calls of [fn], each made in the state that the call before it left,
    that ends with the first call that returns. If a call returns, the run
    returns its value in the state that it left; if [maxRetries] calls
    fail, the run throws what the last of them threw ([undefined] for
    [maxRetries = 0]) in the state that it left. The events of the run are,
    for each failed call in turn, its warning with the number of the
    attempt and what the call threw, followed by one delay of [delay]
    unless the call was the last that the loop allows. *)
Theorem runWithRetry_bounds {S A} (fn : M S A) maxRetries delay s :
  let res := runWithRetry fn maxRetries delay s in
  ∃ failed : nat,
    (failed ≤ maxRetries)%nat
    ∧ (∀ i, (i < failed)%nat →
            (fn (state_before_call fn s i)).1 = inl (thrown_by fn s i))
    ∧ res.2 = seq 0 failed ≫= events_of_failure fn maxRetries delay s
    ∧ ((failed < maxRetries)%nat →
       ∃ a, fn (state_before_call fn s failed) = (inr a, res.1.2)
            ∧ res.1.1 = inr a
            ∧ attempts res.1.1 res.2 = Datatypes.S failed)
    ∧ (failed = maxRetries →
       res.1.2 = state_before_call fn s failed
       ∧ res.1.1 = inl (match failed with
                        | O => Undefined
                        | Datatypes.S i => thrown_by fn s i
                        end)
       ∧ attempts res.1.1 res.2 = maxRetries).
Proof.
  intros res.
  destruct (retry_loop_trace fn maxRetries delay maxRetries Undefined s
              ltac:(lia)) as (failed & Hle & Hfail & Hevs & Hret & Hthrow).
  fold (runWithRetry fn maxRetries delay s) in Hevs, Hret, Hthrow.
  fold res in Hevs, Hret, Hthrow.
  assert (res.2 = seq 0 failed ≫= events_of_failure fn maxRetries delay s)
    as Hevents.
  { rewrite Hevs. apply list_bind_ext; [|done]. intros i.
    unfold events_of_failure. by rewrite Nat.sub_diag. }
  assert (length (List.filter is_warn res.2) = failed) as Hwarns.
  { rewrite Hevents. clear. generalize 0%nat.
    induction failed as [|k IH]; intros j; [done|].
    cbn [seq]. rewrite bind_cons, List.filter_app, length_app, IH.
    unfold events_of_failure. simpl. by destruct (decide _). }
  exists failed. split_and!; [done|done|done| |].
  - intros Hlt. destruct (Hret Hlt) as (a & Hcall & Hres).
    exists a. split_and!; [done|done|].
    unfold attempts. rewrite Hwarns, Hres. lia.
  - intros Heq. destruct (Hthrow Heq) as [Hstate Hres].
    split_and!; [done|done|].
    unfold attempts. rewrite Hwarns, Hres. lia.
Qed.

(** ** The four mutations: outcome, frame and invariant *)

(** A mutation either commits new days for the plan it addresses, at the
    first attempt, or throws one of two errors after five attempts that
    leave the store as it was. *)
Lemma perform_cases m now s :
  (∃ plan ds,
     getPlanCollection (addressed_plan m).1 s !! (addressed_plan m).2
     = Some plan
     ∧ (∀ d taskId, addressed_item m = Some (d, taskId) →
                    ¬ item_absent plan d taskId ∨ Js.inherited taskId)
     ∧ perform m now s
       = (inr (),
          committed (addressed_plan m).1 (addressed_plan m).2 ds now s, []))
  ∨ (∃ e evs,
       perform m now s = (inl e, s, evs)
       ∧ attempts (perform m now s).1.1 evs = 5%nat
       ∧ length (List.filter is_sleep evs) = 4%nat
       ∧ ((e = Err "Plan not found"
           ∧ getPlanCollection (addressed_plan m).1 s !! (addressed_plan m).2
             = None)
          ∨ (e = Err "Task not found"
             ∧ ∃ plan d taskId,
                 getPlanCollection (addressed_plan m).1 s
                   !! (addressed_plan m).2 = Some plan
                 ∧ addressed_item m = Some (d, taskId)
                 ∧ item_absent plan d taskId))).
Proof.
  destruct (getPlanCollection (addressed_plan m).1 s !! (addressed_plan m).2)
    as [plan|] eqn:Hplan.
  - assert (∀ d taskId,
              item_absent plan d taskId
              ∨ ∃ day found, days plan !! d = Some day
                             ∧ Js.get taskId (tasks day) = Some found)
      as Hitem.
    { intros d taskId. unfold item_absent.
      destruct (days plan !! d) as [day|] eqn:Hday; simpl; [|by left].
      destruct (Js.get taskId (tasks day)) as [found|] eqn:Hget; [|by left].
      right. exists day, found. by split. }
    assert (∀ d taskId day found,
              days plan !! d = Some day →
              Js.get taskId (tasks day) = Some found →
              ¬ item_absent plan d taskId) as Hpresent.
    { intros d taskId day found Hday Hget. unfold item_absent.
      rewrite Hday. simpl. by rewrite Hget. }
    destruct m as [pid d ni isT ii tid | pid d tid u isT | pid d tid isT
                  | pid src tgt tid isT au si ti]; simpl in *.
    + left. eexists plan, _. split; [done|]. split; [done|].
      unfold forget. by erewrite addTaskToDay_run.
    + destruct (Hitem d tid) as [Habs|(day & found & Hday & Hget)].
      * right.
        destruct (retried_failure _ _ _
                    (updateTask_item_missing pid d tid u isT now s plan
                       Hplan Habs)) as (evs & Hrun & Hn & Hs).
        exists (Err "Task not found"), evs. unfold updateTask.
        rewrite Hrun. split_and!; [done..|].
        right. split; [done|]. by exists plan, d, tid.
      * left. eexists plan, _. split; [done|]. split.
        { intros ?? [= <- <-]. left. by eapply Hpresent. }
        by eapply updateTask_run.
    + destruct (Hitem d tid) as [Habs|(day & found & Hday & Hget)].
      * assert (deleteTask_txn pid d tid isT now s
                = (inl (Err "Task not found"), s)
                ∨ ∃ day, days plan !! d = Some day
                         ∧ Js.get tid (tasks day) = None
                         ∧ Js.inherited tid)
          as [Hbody|(day & Hday & Hget & Hin)].
        { destruct (days plan !! d) as [day|] eqn:Hday.
          - destruct (decide (Js.inherited tid)) as [Hin|Hown].
            + right. exists day. split; [done|]. split; [|done].
              unfold item_absent in Habs. by rewrite Hday in Habs.
            + left. by apply (deleteTask_item_missing _ _ _ _ _ _ plan).
          - left. by apply (deleteTask_day_missing _ _ _ _ _ _ plan). }
        -- right.
           destruct (retried_failure _ _ _ Hbody) as (evs & Hrun & Hn & Hs).
           exists (Err "Task not found"), evs. unfold deleteTask.
           rewrite Hrun. split_and!; [done..|].
           right. split; [done|]. by exists plan, d, tid.
        -- left. eexists plan, _. split; [done|]. split.
           { intros ?? [= <- <-]. by right. }
           by eapply deleteTask_inherited_run.
      * left. eexists plan, _. split; [done|]. split.
        { intros ?? [= <- <-]. left. by eapply Hpresent. }
        by eapply deleteTask_run.
    + destruct (Hitem src tid) as [Habs|(day & found & Hday & Hget)].
      * right.
        destruct (retried_failure _ _ _
                    (moveTask_item_missing pid src tgt tid isT au si ti now s
                       plan Hplan Habs)) as (evs & Hrun & Hn & Hs).
        exists (Err "Task not found"), evs. unfold moveTask.
        rewrite Hrun. split_and!; [done..|].
        right. split; [done|]. by exists plan, src, tid.
      * left. eexists plan, _. split; [done|]. split.
        { intros ?? [= <- <-]. left. by eapply Hpresent. }
        by eapply moveTask_run.
  - right.
    assert (∃ evs, perform m now s = (inl (Err "Plan not found"), s, evs)
                   ∧ attempts (perform m now s).1.1 evs = 5%nat
                   ∧ length (List.filter is_sleep evs) = 4%nat)
      as (evs & Hrun & Hn & Hs).
    { destruct m as [pid d ni isT ii tid | pid d tid u isT | pid d tid isT
                    | pid src tgt tid isT au si ti]; simpl in *.
      - retried (addTaskToDay_plan_missing pid d ni isT ii tid now s Hplan)
          addTaskToDay.
      - retried (updateTask_plan_missing pid d tid u isT now s Hplan)
          updateTask.
      - retried (deleteTask_plan_missing pid d tid isT now s Hplan)
          deleteTask.
      - retried (moveTask_plan_missing pid src tgt tid isT au si ti now s
                   Hplan) moveTask. }
    exists (Err "Plan not found"), evs. split_and!; [done..|]. by left.
Qed.

Lemma committed_elsewhere isT planId ds now s isT' planId' :
  (isT', planId') ≠ (isT, planId) →
  getPlanCollection isT' (committed isT planId ds now s) !! planId'
  = getPlanCollection isT' s !! planId'.
Proof.
  intros Hne. destruct (decide (isT' = isT)) as [->|Hcol].
  - apply committed_other_plan. congruence.
  - assert (isT' = negb isT) as -> by (destruct isT, isT'; done).
    by rewrite committed_other_collection.
Qed.

(** X2: a mutation that addresses no item, or an item whose id is not the
    name of a property that objects inherit, returns exactly when the plan
    it addresses resolves and, for Update, Delete and Move, the addressed
    item is in the addressed bucket; it then returns at the first attempt.
    Otherwise it throws [Plan not found] or [Task not found] after five
    attempts, and the store is as it was: there is no partial write. *)
Theorem perform_all_or_nothing m now s :
  (∀ d taskId, addressed_item m = Some (d, taskId) →
               ¬ Js.inherited taskId) →
  let res := perform m now s in
  let resolved :=
    getPlanCollection (addressed_plan m).1 s !! (addressed_plan m).2 in
  (res.1.1 = inr ()
   ↔ ∃ plan, resolved = Some plan
             ∧ ∀ d taskId, addressed_item m = Some (d, taskId) →
                           ¬ item_absent plan d taskId)
  ∧ (res.1.1 = inr () → res.2 = [])
  ∧ (res.1.1 ≠ inr () →
     res.1.2 = s
     ∧ attempts res.1.1 res.2 = 5%nat
     ∧ (res.1.1 = inl (Err "Plan not found") ∨
        res.1.1 = inl (Err "Task not found")))
  ∧ (res.1.1 = inl (Err "Plan not found") ↔ resolved = None).
Proof.
  intros Hown res resolved. unfold res, resolved.
  destruct (perform_cases m now s)
    as [(plan & ds & Hplan & Hitem & Hrun)
       |(e & evs & Hrun & Hn & Hs & Hwhy)].
  - rewrite Hrun. simpl. split_and!.
    + split; [|done]. intros _. exists plan. split; [done|].
      intros d tid Ha. destruct (Hitem d tid Ha) as [?|Hin]; [done|].
      by destruct (Hown d tid Ha).
    + done.
    + done.
    + split; [done|]. by rewrite Hplan.
  - rewrite Hrun in Hn |- *. simpl in *. split_and!.
    + split; [done|]. intros (plan & Hplan & Hitem).
      destruct Hwhy as [[_ Hnone]|[_ (plan' & d & tid & Hp & Ha & Habs)]].
      * by rewrite Hnone in Hplan.
      * rewrite Hp in Hplan. injection Hplan as ->.
        by destruct (Hitem d tid Ha).
    + done.
    + intros _. split_and!; [done..|].
      destruct Hwhy as [[-> _]|[-> _]]; [by left|by right].
    + destruct Hwhy as [[-> Hnone]|[-> (plan' & d & tid & Hp & _)]].
      * done.
      * split; [done|]. by rewrite Hp.
Qed.

Lemma perform_all_or_nothing_witness :
  let res := perform (Delete "plan123" 1 "a" true) 2000 Sample.storeA in
  let resolved := getPlanCollection true Sample.storeA !! "plan123" in
  (res.1.1 = inr ()
   ↔ ∃ plan, resolved = Some plan
             ∧ ∀ d taskId, Some (1, "a") = Some (d, taskId) →
                           ¬ item_absent plan d taskId)
  ∧ (res.1.1 = inr () → res.2 = [])
  ∧ (res.1.1 ≠ inr () →
     res.1.2 = Sample.storeA
     ∧ attempts res.1.1 res.2 = 5%nat
     ∧ (res.1.1 = inl (Err "Plan not found") ∨
        res.1.1 = inl (Err "Task not found")))
  ∧ (res.1.1 = inl (Err "Plan not found") ↔ resolved = None).
Proof.
  apply (perform_all_or_nothing (Delete "plan123" 1 "a" true) 2000
           Sample.storeA).
  intros d taskId [= <- <-].
  apply (bool_decide_unpack _). vm_compute. exact I.
Defined.

(** X3: a mutation writes nothing but the days and the modification time
    of the plan it addresses: every other plan of either collection is as
    before, the addressed plan keeps its other fields, and no plan is
    created or deleted. *)
Theorem perform_frame m now s :
  let s' := (perform m now s).1.2 in
  (∀ isT' planId', (isT', planId') ≠ addressed_plan m →
     getPlanCollection isT' s' !! planId'
     = getPlanCollection isT' s !! planId')
  ∧ (∀ p, getPlanCollection (addressed_plan m).1 s !! (addressed_plan m).2
          = Some p →
          ∃ p', getPlanCollection (addressed_plan m).1 s'
                  !! (addressed_plan m).2 = Some p'
                ∧ same_plan_header p p')
  ∧ (getPlanCollection (addressed_plan m).1 s !! (addressed_plan m).2 = None →
     s' = s).
Proof.
  intros s'. unfold s'.
  destruct (perform_cases m now s)
    as [(plan & ds & Hplan & Hitem & Hrun)
       |(e & evs & Hrun & Hn & Hs & Hwhy)];
    rewrite Hrun; simpl.
  - split_and!.
    + intros isT' planId' Hne. apply committed_elsewhere.
      by destruct (addressed_plan m).
    + intros p Hp. rewrite Hplan in Hp. injection Hp as <-.
      eexists. split; [by apply committed_plan|].
      unfold same_plan_header. by repeat split.
    + intros Hnone. by rewrite Hnone in Hplan.
  - split_and!; [done| |done].
    intros p Hp. exists p. split; [done|].
    unfold same_plan_header. by repeat split.
Qed.

(** ** Buckets stay keyed by item id *)

Lemma set_wf ts k t : bucket_wf ts → id_of t = k → bucket_wf (Js.set k t ts).
Proof.
  intros [Hnd Hid] Ht. destruct (Js.get k ts) as [v0|] eqn:Hget.
  - destruct (get_split _ _ _ Hget) as (l1 & l2 & -> & _ & _ & Hset).
    rewrite Hset. split.
    + unfold Js.keys in *. by rewrite fmap_app in *.
    + apply Forall_app in Hid as [H1 H2].
      apply Forall_cons in H2 as [_ H2].
      apply Forall_app. split; [done|]. by constructor.
  - apply get_None in Hget. rewrite set_fresh by done. split.
    + unfold Js.keys in *. rewrite fmap_app. simpl.
      apply NoDup_app. split_and!; [done| |apply NoDup_singleton].
      intros k' Hk' Hin. apply list_elem_of_singleton in Hin as ->. done.
    + apply Forall_app. split; [done|]. by constructor.
Qed.

Lemma del_wf ts k : bucket_wf ts → bucket_wf (Js.del k ts).
Proof.
  intros [Hnd Hid]. destruct (Js.get k ts) as [v0|] eqn:Hget.
  - destruct (get_split _ _ _ Hget) as (l1 & l2 & -> & _ & -> & _). split.
    + unfold Js.keys in *. rewrite fmap_app in *. simpl in Hnd.
      apply NoDup_app in Hnd as (H1 & Hdis & H2).
      apply NoDup_cons in H2 as [_ H2].
      apply NoDup_app. split_and!; [done| |done].
      intros k' Hk' Hin. apply (Hdis k' Hk'). by right.
    + apply Forall_app in Hid as [H1 H2].
      apply Forall_cons in H2 as [_ H2]. apply Forall_app. by split.
  - assert (Js.del k ts = ts) as ->; [|by split].
    apply get_None in Hget. clear Hnd Hid. unfold Js.keys in Hget.
    induction ts as [|[k' v'] ts IH]; simpl; [done|].
    simpl in Hget. rewrite not_elem_of_cons in Hget. destruct Hget as [Hne Hk].
    destruct (decide (k = k')); [done|]. by rewrite IH.
Qed.

(** A renumbering loop always builds a bucket keyed by item id, whatever
    ids the items of the array have. *)
Lemma forEach_assign_wf_any f l :
  (∀ i t, id_of (f i t) = id_of t) → bucket_wf (forEach_assign f l).
Proof.
  intros Hf. unfold forEach_assign.
  assert (∀ (pairs : list (string * TaskItem)) acc,
            bucket_wf acc → Forall (λ kv, id_of kv.2 = kv.1) pairs →
            bucket_wf (foldl (λ o '(k, v), Js.set k v o) acc pairs)) as Hfold.
  { induction pairs as [|[k v] pairs IH]; intros acc Hacc Hall; [done|].
    apply Forall_cons in Hall as [Hkv Hall]. simpl.
    apply IH; [|done]. by apply set_wf. }
  apply Hfold.
  - split; [apply NoDup_nil_2 | apply Forall_nil_2].
  - apply Forall_forall. intros [k v] Hin.
    apply list_elem_of_lookup in Hin as [i Hi].
    rewrite list_lookup_imap in Hi.
    destruct (l !! i) as [t|]; simplify_eq/=. apply Hf.
Qed.

Lemma wf_get_id ts k t : bucket_wf ts → Js.get k ts = Some t → id_of t = k.
Proof.
  intros [_ Hid] Hget. apply get_Some_elem in Hget.
  rewrite Forall_forall in Hid. exact (Hid _ Hget).
Qed.

Lemma emptyDay_wf planId d : bucket_wf (tasks (emptyDay planId d)).
Proof. split; [apply NoDup_nil_2 | apply Forall_nil_2]. Qed.

Lemma moveTask_days_wf planId source target taskId assignToUser sourceIndex
    targetIndex now ds sourceDay found :
  map_Forall (λ _ day, bucket_wf (tasks day)) ds →
  ds !! source = Some sourceDay →
  Js.get taskId (tasks sourceDay) = Some found →
  map_Forall (λ _ day, bucket_wf (tasks day))
    (moveTask_days planId source target taskId assignToUser sourceIndex
       targetIndex now ds sourceDay found).
Proof.
  intros Hwf Hday Hget.
  assert (bucket_wf (tasks sourceDay)) as Hsrc by exact (Hwf _ _ Hday).
  assert (id_of (reassigned found assignToUser now) = taskId) as Hid.
  { rewrite reassigned_id. by eapply wf_get_id. }
  assert (map_Forall (λ _ day, bucket_wf (tasks day))
            (<[target :=
                 placeInTargetDay
                   (default (emptyDay planId target)
                      (<[source := with_tasks (Js.del taskId (tasks sourceDay))
                                     sourceDay]> ds !! target))
                   (reassigned found assignToUser now) taskId targetIndex now]>
               (<[source := with_tasks (Js.del taskId (tasks sourceDay))
                              sourceDay]> ds))) as Hbetween.
  { assert (map_Forall (λ _ day, bucket_wf (tasks day))
              (<[source := with_tasks (Js.del taskId (tasks sourceDay))
                             sourceDay]> ds)) as Hds1.
    { apply map_Forall_insert_2; [|done]. simpl. by apply del_wf. }
    apply map_Forall_insert_2; [|done].
    set (targetDay := default _ _).
    assert (bucket_wf (tasks targetDay)) as Htgt.
    { unfold targetDay.
      destruct (_ !! target) as [day|] eqn:Hlook; simpl.
      - exact (Hds1 _ _ Hlook).
      - exact (emptyDay_wf planId target). }
    destruct targetIndex as [ti|]; simpl.
    - apply forEach_assign_wf_any, renumber_moved_id.
    - by apply set_wf. }
  unfold moveTask_days.
  destruct (decide (source = target)) as [->|Hne]; [|exact Hbetween].
  destruct sourceIndex as [si|]; [|exact Hbetween].
  destruct targetIndex as [ti|]; [|exact Hbetween].
  apply map_Forall_insert_2; [|done]. simpl.
  apply forEach_assign_wf_any, renumber_moved_id.
Qed.

(** X4: the four mutations keep every bucket of the plan keyed by item id
    (each entry under the id of its item, no key twice), provided the id
    that an Update, a Delete or a Move addresses is not the name of a
    property that objects inherit, and an Update does not carry an item id
    other than the one it addresses. *)
Theorem mutations_keep_buckets_wf m now s plan :
  getPlanCollection (addressed_plan m).1 s !! (addressed_plan m).2
  = Some plan →
  plan_wf plan →
  ¬ renames_item m →
  (∀ d taskId, addressed_item m = Some (d, taskId) →
               ¬ Js.inherited taskId) →
  ∃ plan',
    getPlanCollection (addressed_plan m).1 (perform m now s).1.2
      !! (addressed_plan m).2 = Some plan'
    ∧ plan_wf plan'.
Proof.
  intros Hplan Hwf Hren Hown.
  assert (∀ d taskId,
            item_absent plan d taskId
            ∨ ∃ day found, days plan !! d = Some day
                           ∧ Js.get taskId (tasks day) = Some found)
    as Hitem.
  { intros d taskId. unfold item_absent.
    destruct (days plan !! d) as [day|] eqn:Hday; simpl; [|by left].
    destruct (Js.get taskId (tasks day)) as [found|] eqn:Hget; [|by left].
    right. exists day, found. by split. }
  assert (∀ ds, map_Forall (λ _ day, bucket_wf (tasks day)) ds →
                plan_wf (with_days ds now plan)) as Hdone by done.
  destruct m as [pid d ni isT ii tid | pid d tid u isT | pid d tid isT
                | pid src tgt tid isT au si ti]; simpl in *.
  - unfold forget. erewrite addTaskToDay_run by done. simpl.
    erewrite committed_plan by done. eexists. split; [done|].
    apply Hdone. apply map_Forall_insert_2; [|done]. simpl.
    by apply forEach_assign_wf_any.
  - destruct (Hitem d tid) as [Habs|(day & found & Hday & Hget)].
    + destruct (retried_failure _ _ _
                  (updateTask_item_missing pid d tid u isT now s plan
                     Hplan Habs)) as (evs & Hrun & _).
      unfold updateTask. rewrite Hrun. simpl. by exists plan.
    + erewrite updateTask_run by done. simpl.
      erewrite committed_plan by done. eexists. split; [done|].
      apply Hdone. apply map_Forall_insert_2; [|done]. simpl.
      apply set_wf; [exact (Hwf _ _ Hday)|].
      assert (id_of found = tid) as Hfound
        by (eapply wf_get_id; [exact (Hwf _ _ Hday)|done]).
      unfold id_of, updatedTaskOf. simpl.
      destruct (upd_item u) as [ui|] eqn:Hui; simpl; [|done].
      destruct (upd_id ui) as [k|] eqn:Hk; simpl; [|done].
      destruct (decide (k = tid)) as [->|Hne]; [done|].
      destruct Hren. exists k. rewrite ?Hui. simpl. by rewrite ?Hk.
  - destruct (Hitem d tid) as [Habs|(day & found & Hday & Hget)].
    + destruct (retried_failure _ _ _
                  (deleteTask_item_missing pid d tid isT now s plan
                     Hplan Habs (Hown d tid eq_refl))) as (evs & Hrun & _).
      unfold deleteTask. rewrite Hrun. simpl. by exists plan.
    + erewrite deleteTask_run by done. simpl.
      erewrite committed_plan by done. eexists. split; [done|].
      apply Hdone. unfold deleteTask_days. destruct (decide _).
      * by apply map_Forall_delete.
      * apply map_Forall_insert_2; [|done]. simpl.
        apply del_wf. exact (Hwf _ _ Hday).
  - destruct (Hitem src tid) as [Habs|(day & found & Hday & Hget)].
    + destruct (retried_failure _ _ _
                  (moveTask_item_missing pid src tgt tid isT au si ti now s
                     plan Hplan Habs)) as (evs & Hrun & _).
      unfold moveTask. rewrite Hrun. simpl. by exists plan.
    + erewrite moveTask_run by done. simpl.
      erewrite committed_plan by done. eexists. split; [done|].
      apply Hdone. by apply moveTask_days_wf.
Qed.

Lemma mutations_keep_buckets_wf_witness :
  ∃ plan',
    getPlanCollection true
      (perform (Move "plan123" 1 2 "a" true None None None) 2000
         Sample.storeA).1.2 !! "plan123" = Some plan'
    ∧ plan_wf plan'.
Proof.
  apply (mutations_keep_buckets_wf (Move "plan123" 1 2 "a" true None None None)
           2000 Sample.storeA Sample.planA).
  - reflexivity.
  - intros d day Hday.
    change (days Sample.planA) with ({[ 1 := Sample.dayA ]} : gmap Z DayPlan)
      in Hday.
    apply lookup_singleton_Some in Hday as [_ <-].
    apply (bool_decide_unpack _). vm_compute. exact I.
  - simpl. tauto.
  - intros d taskId [= <- <-].
    apply (bool_decide_unpack _). vm_compute. exact I.
Defined.

Lemma get_set_eq {V} k (v : V) o : Js.get k (Js.set k v o) = Some v.
Proof.
  induction o as [|[k0 v0] o IH]; simpl.
  - destruct (decide (k = k)); done.
  - destruct (decide (k = k0)) as [->|]; simpl.
    + destruct (decide (k0 = k0)); done.
    + destruct (decide (k = k0)); done.
Qed.

Lemma get_set_ne {V} k k' (v : V) o :
  k ≠ k' → Js.get k' (Js.set k v o) = Js.get k' o.
Proof.
  intros Hne. induction o as [|[k0 v0] o IH]; simpl.
  - destruct (decide (k' = k)); [congruence | done].
  - destruct (decide (k = k0)) as [->|]; simpl.
    + destruct (decide (k' = k0)); [congruence | done].
    + destruct (decide (k' = k0)); done.
Qed.

Lemma get_del_ne {V} k k' (o : Js.Obj V) :
  k ≠ k' → Js.get k' (Js.del k o) = Js.get k' o.
Proof.
  intros Hne. induction o as [|[k0 v0] o IH]; simpl; [done|].
  destruct (decide (k = k0)) as [->|].
  - destruct (decide (k' = k0)); [congruence | done].
  - simpl. destruct (decide (k' = k0)); done.
Qed.

Lemma get_del_eq {V} k (o : Js.Obj V) :
  NoDup (Js.keys o) → Js.get k (Js.del k o) = None.
Proof.
  unfold Js.keys. induction o as [|[k0 v0] o IH]; simpl; [done|].
  rewrite NoDup_cons. intros [Hk0 Hnd].
  destruct (decide (k = k0)) as [->|].
  - by apply get_None.
  - simpl. destruct (decide (k = k0)); [done | auto].
Qed.

(** X5: Update never moves an entry to another key. When the partial
    updates carry an item id other than the addressed one, the entry stays
    under the addressed key with the new id in its item, the entry that the
    new id may already have is untouched, and the bucket is no longer keyed
    by item id. *)
Theorem updateTask_keeps_key planId dayOfWeek taskId updates isT now s plan
    day cur newId :
  getPlanCollection isT s !! planId = Some plan →
  days plan !! dayOfWeek = Some day →
  Js.get taskId (tasks day) = Some cur →
  upd_item updates ≫= upd_id = Some newId →
  newId ≠ taskId →
  ∃ s' ts upd,
    updateTask planId dayOfWeek taskId updates isT now s = (inr (), s', [])
    ∧ bucket_of s' isT planId dayOfWeek = Some ts
    ∧ Js.keys ts = Js.keys (tasks day)
    ∧ Js.get taskId ts = Some upd
    ∧ id_of upd = newId
    ∧ Js.get newId ts = Js.get newId (tasks day)
    ∧ ¬ bucket_wf ts.
Proof.
  intros Hplan Hday Hget Hid Hne.
  set (upd := updatedTaskOf cur updates now).
  assert (id_of upd = newId) as Hupd.
  { unfold upd, id_of, updatedTaskOf. simpl.
    destruct (upd_item updates) as [ui|]; simpl in *; [|done].
    by rewrite Hid. }
  eexists _, _, upd. split_and!.
  - by eapply updateTask_run.
  - erewrite committed_bucket_of by done. by rewrite lookup_insert_eq.
  - simpl. destruct (get_split _ _ _ Hget) as (l1 & l2 & -> & _ & _ & Hset).
    rewrite Hset. unfold Js.keys. by rewrite !fmap_app.
  - simpl. apply get_set_eq.
  - done.
  - simpl. by apply get_set_ne.
  - simpl. intros Hwf.
    assert (id_of upd = taskId) as Hback.
    { eapply wf_get_id; [exact Hwf|]. apply get_set_eq. }
    congruence.
Qed.

Lemma updateTask_keeps_key_witness :
  ∃ s' ts upd,
    updateTask "plan123" 1 "a"
      (mkPartialTaskItem None
         (Some (mkPartialItem (Some "z") None None None None None None None
                  None None None None)))
      true 2000 Sample.storeA = (inr (), s', [])
    ∧ bucket_of s' true "plan123" 1 = Some ts
    ∧ Js.get "a" ts = Some upd
    ∧ id_of upd = "z".
Proof.
  destruct (updateTask_keeps_key "plan123" 1 "a"
              (mkPartialTaskItem None
                 (Some (mkPartialItem (Some "z") None None None None None None
                          None None None None None)))
              true 2000 Sample.storeA Sample.planA Sample.dayA Sample.taskA
              "z" eq_refl eq_refl eq_refl eq_refl)
    as (s' & ts & upd & Hrun & Hb & _ & Hget & Hid & _).
  - discriminate.
  - by exists s', ts, upd.
Defined.

(** ** The plan collections *)

Lemma getPlanCollection_set_any isT' isT c s :
  getPlanCollection isT' (setPlanCollection isT c s)
  = if decide (isT' = isT) then c else getPlanCollection isT' s.
Proof. by destruct isT, isT'. Qed.

Lemma store_wf_set isT id p s :
  store_wf s → plan_id p = id → isTemplate p = isT →
  store_wf (setPlanCollection isT (<[id := p]> (getPlanCollection isT s)) s).
Proof.
  intros Hwf Hid Hflag isT' k q. rewrite getPlanCollection_set_any.
  destruct (decide (isT' = isT)) as [->|]; [|apply Hwf].
  rewrite lookup_insert. destruct (decide (id = k)) as [->|].
  - by intros [= <-].
  - apply Hwf.
Qed.

Lemma store_wf_delete isT id s :
  store_wf s →
  store_wf (setPlanCollection isT (delete id (getPlanCollection isT s)) s).
Proof.
  intros Hwf isT' k q. rewrite getPlanCollection_set_any.
  destruct (decide (isT' = isT)) as [->|]; [|apply Hwf].
  rewrite lookup_delete. destruct (decide (id = k)); [done|apply Hwf].
Qed.

Lemma store_wf_committed isT planId ds now s :
  store_wf s → store_wf (committed isT planId ds now s).
Proof.
  intros Hwf isT' k q. unfold committed, transaction_update. simpl.
  rewrite getPlanCollection_set_any.
  destruct (decide (isT' = isT)) as [->|]; [|apply Hwf].
  rewrite lookup_alter. destruct (decide (planId = k)) as [->|]; [|apply Hwf].
  destruct (getPlanCollection isT s !! k) as [p|] eqn:Hp; simpl; [|done].
  intros [= <-]. simpl. by apply Hwf.
Qed.

Lemma store_after_wf c now s : store_wf s → store_wf (store_after c now s).
Proof.
  intros Hwf.
  destruct c as [t id|id|tid w u id|pid n id|pid w id|id|m];
    cbn [store_after].
  - refine (store_wf_set true id _ s Hwf _ _); reflexivity.
  - exact (store_wf_delete true id s Hwf).
  - unfold createExecutionPlan, getTemplate, getDoc, mbind, M_bind, mret,
      M_ret, throw.
    destruct (getPlanCollection true s !! tid); cbn [fmap option_fmap option_map];
      [|done].
    refine (store_wf_set false id _ s Hwf _ _); reflexivity.
  - unfold createTemplateFromPlan, getExecutionPlan, getDoc, mbind, M_bind,
      mret, M_ret, throw.
    destruct (getPlanCollection false s !! pid);
      cbn [fmap option_fmap option_map]; [|done].
    refine (store_wf_set true id _ s Hwf _ _); reflexivity.
  - unfold cloneExecutionPlan, getExecutionPlan, getDoc, mbind, M_bind,
      mret, M_ret, throw.
    destruct (getPlanCollection false s !! pid) as [p|] eqn:Hp;
      cbn [fmap option_fmap option_map]; [|done].
    refine (store_wf_set false id _ s Hwf _ _); [reflexivity|].
    simpl. by apply (Hwf false pid p).
  - exact (store_wf_delete false id s Hwf).
  - destruct (perform_cases m now s)
      as [(plan & ds & _ & _ & ->)|(e & evs & -> & _)]; simpl; [|done].
    by apply store_wf_committed.
Qed.

(** X6: every store that the plan services build from the empty store
    (creating, cloning and deleting templates and execution plans, and the
    four item mutations, in any sequence) holds each document under its
    own id and in the collection that its [isTemplate] flag names; each
    service keeps that property of a store. *)
Theorem plan_services_keep_store_wf :
  (∀ c now s, store_wf s → store_wf (store_after c now s))
  ∧ (∀ cs, store_wf (store_after_all cs emptyStore)).
Proof.
  split; [apply store_after_wf|].
  intros cs. unfold store_after_all.
  assert (∀ s, store_wf s →
               store_wf (foldl (λ s c, store_after c.1 c.2 s) s cs)) as H.
  { induction cs as [|[c now] cs IH]; intros s Hs; [done|].
    simpl. apply IH. by apply store_after_wf. }
  apply H. intros isT k p. by destruct isT.
Qed.

Lemma plan_services_keep_store_wf_witness :
  store_wf
    (store_after (CloneExecutionPlan "e1" "2024-01-08" "e2") 3000
       (store_after (CreateExecutionPlan "plan123" "2024-01-01" "u1" "e1")
          2000 Sample.storeA)).
Proof.
  apply (proj1 plan_services_keep_store_wf).
  apply (proj1 plan_services_keep_store_wf).
  intros isT k p Hp. destruct isT.
  - change (getPlanCollection true Sample.storeA)
      with ({[ "plan123" := Sample.planA ]} : gmap string WeekPlan) in Hp.
    apply lookup_singleton_Some in Hp as [<- <-]. split; reflexivity.
  - vm_compute in Hp. discriminate.
Defined.

Lemma sortTasksByOrder_twice plan :
  plan_wf plan → plan_ordered plan →
  sortTasksByOrder (sortTasksByOrder plan) = sortTasksByOrder plan.
Proof.
  intros Hwf Hord. unfold sortTasksByOrder, with_days. simpl. f_equal.
  rewrite <- map_fmap_compose. apply map_fmap_ext.
  intros d day Hday. unfold with_tasks. simpl. f_equal.
  apply sortDayTasks_idempotent; [exact (Hwf _ _ Hday)|exact (Hord _ _ Hday)].
Qed.

(** Normalizing a plan that differs from a normalized one in its header
    only changes nothing. *)
Lemma sortTasksByOrder_derived plan (derived : WeekPlan) :
  plan_wf plan → plan_ordered plan →
  days derived = days (sortTasksByOrder plan) →
  sortTasksByOrder derived = derived.
Proof.
  intros Hwf Hord Hdays.
  pose proof (f_equal days (sortTasksByOrder_twice plan Hwf Hord)) as Htwice.
  destruct derived. simpl in Hdays. subst.
  unfold sortTasksByOrder at 1, with_days. simpl. f_equal. exact Htwice.
Qed.

(** X7: a template that [createTemplate] stores is a template under the
    generated id whatever id and flag the input carries, and [getTemplate]
    of that id returns it, normalized; [getTemplate] of a deleted or unknown
    id returns [null]; creating or deleting one template leaves what
    [getTemplate] returns for every other id, and all execution plans, as
    they were. *)
Theorem template_round_trip template templateId now s :
  let created := createTemplate template templateId now s in
  (∃ newTemplate,
     created.1 = inr newTemplate
     ∧ plan_id newTemplate = templateId
     ∧ isTemplate newTemplate = true
     ∧ days newTemplate = days template
     ∧ (getTemplate templateId created.2).1
       = inr (Some (sortTasksByOrder newTemplate)))
  ∧ (getTemplate templateId (deleteTemplate templateId s).2).1 = inr None
  ∧ (getPlanCollection true s !! templateId = None →
     (getTemplate templateId s).1 = inr None)
  ∧ (∀ other, other ≠ templateId →
       (getTemplate other created.2).1 = (getTemplate other s).1
       ∧ (getTemplate other (deleteTemplate templateId s).2).1
         = (getTemplate other s).1)
  ∧ getPlanCollection false created.2 = getPlanCollection false s
  ∧ getPlanCollection false (deleteTemplate templateId s).2
    = getPlanCollection false s.
Proof.
  intros created. unfold created, createTemplate, deleteTemplate, getTemplate,
    getDoc, setDoc, deleteDoc, mbind, M_bind, mret, M_ret. cbn [fst snd].
  rewrite !getPlanCollection_set. split_and!.
  - eexists. split_and!; try reflexivity.
    by rewrite lookup_insert_eq.
  - by rewrite lookup_delete_eq.
  - by intros ->.
  - intros other Hne.
    rewrite lookup_insert_ne, lookup_delete_ne by done. done.
  - done.
  - done.
Qed.

Lemma createExecutionPlan_run templateId weekStartDate userId executionPlanId
    now s t :
  getPlanCollection true s !! templateId = Some t →
  let ep :=
    mkWeekPlan executionPlanId (name t) false (days (sortTasksByOrder t))
      now now userId (collaborators t) (partnershipId t) (Some templateId)
      (Some weekStartDate) in
  createExecutionPlan templateId weekStartDate userId executionPlanId now s
  = (inr ep,
     setPlanCollection false
       (<[executionPlanId := ep]> (getPlanCollection false s)) s).
Proof.
  intros Ht ep. unfold createExecutionPlan, getTemplate, getDoc, setDoc,
    mbind, M_bind, mret, M_ret. by rewrite Ht.
Qed.

Lemma cloneExecutionPlan_run executionPlanId weekStartDate newPlanId now s p :
  getPlanCollection false s !! executionPlanId = Some p →
  let cp :=
    mkWeekPlan newPlanId (name p +:+ " (Copy)") (isTemplate p)
      (days (sortTasksByOrder p)) now now (createdBy p) (collaborators p)
      (partnershipId p) (templateId p) (Some weekStartDate) in
  cloneExecutionPlan executionPlanId weekStartDate newPlanId now s
  = (inr cp,
     setPlanCollection false (<[newPlanId := cp]> (getPlanCollection false s))
       s).
Proof.
  intros Hp cp. unfold cloneExecutionPlan, getExecutionPlan, getDoc, setDoc,
    mbind, M_bind, mret, M_ret. by rewrite Hp.
Qed.

Lemma createTemplateFromPlan_run executionPlanId newName newId now s p :
  getPlanCollection false s !! executionPlanId = Some p →
  let t :=
    mkWeekPlan newId newName true (days (sortTasksByOrder p)) now now
      (createdBy p) (collaborators p) (partnershipId p) None None in
  createTemplateFromPlan executionPlanId newName newId now s
  = (inr t,
     setPlanCollection true (<[newId := t]> (getPlanCollection true s)) s).
Proof.
  intros Hp t. unfold createTemplateFromPlan, getExecutionPlan, getDoc,
    setDoc, mbind, M_bind, mret, M_ret. by rewrite Hp.
Qed.

Lemma getExecutionPlan_run planId s :
  getExecutionPlan planId s
  = (inr (sortTasksByOrder <$> getPlanCollection false s !! planId), s).
Proof. done. Qed.

(** X8: [createExecutionPlan] on a template id that does not resolve
    throws [Template not found] and writes nothing. On one that resolves it
    stores, under the generated id, an execution plan (not a template) that
    refers to the template and has the normalized days of the template; the
    templates and the other execution plans are as before; and when the
    items of the template are keyed by id and all have an order,
    [getExecutionPlan] of the new id returns exactly the plan that was
    returned. *)
Theorem createExecutionPlan_instantiates templateId weekStartDate userId
    executionPlanId now s :
  (getPlanCollection true s !! templateId = None →
   createExecutionPlan templateId weekStartDate userId executionPlanId now s
   = (inl (Err "Template not found"), s))
  ∧ (∀ t, getPlanCollection true s !! templateId = Some t →
       ∃ ep s',
         createExecutionPlan templateId weekStartDate userId executionPlanId
           now s = (inr ep, s')
         ∧ getPlanCollection false s' !! executionPlanId = Some ep
         ∧ getPlanCollection true s' = getPlanCollection true s
         ∧ (∀ k, k ≠ executionPlanId →
                 getPlanCollection false s' !! k
                 = getPlanCollection false s !! k)
         ∧ plan_id ep = executionPlanId
         ∧ isTemplate ep = false
         ∧ sourceTemplateOf ep = Some templateId
         ∧ weekStartOf ep = Some weekStartDate
         ∧ createdBy ep = userId
         ∧ collaborators ep = collaborators t
         ∧ days ep = days (sortTasksByOrder t)
         ∧ (plan_wf t → plan_ordered t →
            getExecutionPlan executionPlanId s' = (inr (Some ep), s'))).
Proof.
  split.
  - intros Hnone. unfold createExecutionPlan, getTemplate, getDoc, mbind,
      M_bind, mret, M_ret. by rewrite Hnone.
  - intros t Ht. eexists _, _. split; [by apply createExecutionPlan_run|].
    rewrite !getPlanCollection_set. split_and!; try done.
    + by rewrite lookup_insert_eq.
    + intros k Hk. by rewrite lookup_insert_ne.
    + intros Hwf Hord. rewrite getExecutionPlan_run.
      rewrite getPlanCollection_set, lookup_insert_eq. simpl.
      do 3 f_equal. by apply (sortTasksByOrder_derived t).
Qed.

Lemma createExecutionPlan_instantiates_witness :
  ∃ ep s',
    createExecutionPlan "plan123" "2024-01-01" "u1" "e1" 2000 Sample.storeA
    = (inr ep, s')
    ∧ getExecutionPlan "e1" s' = (inr (Some ep), s').
Proof.
  destruct (proj2 (createExecutionPlan_instantiates "plan123" "2024-01-01"
                     "u1" "e1" 2000 Sample.storeA) Sample.planA eq_refl)
    as (ep & s' & Hrun & _ & _ & _ & _ & _ & _ & _ & _ & _ & _ & Hget).
  exists ep, s'. split; [exact Hrun|]. apply Hget.
  - intros d day Hday.
    change (days Sample.planA) with ({[ 1 := Sample.dayA ]} : gmap Z DayPlan)
      in Hday.
    apply lookup_singleton_Some in Hday as [_ <-].
    apply (bool_decide_unpack _). vm_compute. exact I.
  - intros d day Hday.
    change (days Sample.planA) with ({[ 1 := Sample.dayA ]} : gmap Z DayPlan)
      in Hday.
    apply lookup_singleton_Some in Hday as [_ <-].
    apply (bool_decide_unpack _). vm_compute. exact I.
Defined.

(** X9: [cloneExecutionPlan] on a plan id that does not resolve throws
    [Execution plan not found] and writes nothing. On one that resolves it
    stores, under the new id, a plan named after the source with [ (Copy)]
    appended, with the normalized days of the source and its template
    reference; the source document is as before unless the new id is its
    own, in which case the clone replaces it; the templates are as before;
    and when the items of the source are keyed by id and all have an order,
    reading the clone back gives the days that reading the source gave. *)
Theorem cloneExecutionPlan_copies executionPlanId weekStartDate newPlanId now
    s :
  (getPlanCollection false s !! executionPlanId = None →
   cloneExecutionPlan executionPlanId weekStartDate newPlanId now s
   = (inl (Err "Execution plan not found"), s))
  ∧ (∀ p, getPlanCollection false s !! executionPlanId = Some p →
       ∃ cp s',
         cloneExecutionPlan executionPlanId weekStartDate newPlanId now s
         = (inr cp, s')
         ∧ getPlanCollection false s' !! newPlanId = Some cp
         ∧ getPlanCollection true s' = getPlanCollection true s
         ∧ (newPlanId ≠ executionPlanId →
            getPlanCollection false s' !! executionPlanId = Some p)
         ∧ (∀ k, k ≠ newPlanId →
                 getPlanCollection false s' !! k
                 = getPlanCollection false s !! k)
         ∧ plan_id cp = newPlanId
         ∧ name cp = name p +:+ " (Copy)"
         ∧ sourceTemplateOf cp = sourceTemplateOf p
         ∧ weekStartOf cp = Some weekStartDate
         ∧ days cp = days (sortTasksByOrder p)
         ∧ (plan_wf p → plan_ordered p →
            ∃ source,
              (getExecutionPlan executionPlanId s).1 = inr (Some source)
              ∧ getExecutionPlan newPlanId s' = (inr (Some cp), s')
              ∧ days cp = days source)).
Proof.
  split.
  - intros Hnone. unfold cloneExecutionPlan, getExecutionPlan, getDoc, mbind,
      M_bind, mret, M_ret. by rewrite Hnone.
  - intros p Hp. eexists _, _. split; [by apply cloneExecutionPlan_run|].
    rewrite !getPlanCollection_set. split_and!; try done.
    + by rewrite lookup_insert_eq.
    + intros Hne. by rewrite lookup_insert_ne.
    + intros k Hk. by rewrite lookup_insert_ne.
    + intros Hwf Hord. exists (sortTasksByOrder p).
      rewrite !getExecutionPlan_run, Hp. split; [done|].
      rewrite getPlanCollection_set, lookup_insert_eq. simpl.
      split; [|done]. do 3 f_equal. by apply (sortTasksByOrder_derived p).
Qed.

Lemma cloneExecutionPlan_copies_witness :
  ∃ cp s',
    cloneExecutionPlan "plan123" "2024-01-08" "e2" 3000
      (mkStore ∅ {[ "plan123" := Sample.planA ]}) = (inr cp, s')
    ∧ name cp = "Test Plan (Copy)"
    ∧ getPlanCollection false s' !! "plan123" = Some Sample.planA.
Proof.
  assert (getPlanCollection false (mkStore ∅ {[ "plan123" := Sample.planA ]})
            !! "plan123" = Some Sample.planA) as Hp
    by (vm_compute; reflexivity).
  destruct (proj2 (cloneExecutionPlan_copies "plan123" "2024-01-08" "e2" 3000
                     (mkStore ∅ {[ "plan123" := Sample.planA ]}))
              Sample.planA Hp)
    as (cp & s' & Hrun & _ & _ & Hsrc & _ & _ & Hname & _).
  exists cp, s'. split_and!; [exact Hrun|exact Hname|].
  apply Hsrc. discriminate.
Defined.

(** X10: a template made by [createTemplateFromPlan] from an execution
    plan that [createExecutionPlan] made from a template whose items are
    keyed by id and all have an order has the normalized days of that
    template; it is a template, refers to no template and has no week start
    date; its creator is the user who created the execution plan, and its
    collaborators are those of the first template, which is still stored as
    it was when the new id differs from its id. *)
Theorem template_to_plan_to_template templateId weekStartDate userId
    executionPlanId newName newId now1 now2 s t :
  getPlanCollection true s !! templateId = Some t →
  plan_wf t → plan_ordered t →
  ∃ ep s1 t2 s2,
    createExecutionPlan templateId weekStartDate userId executionPlanId now1 s
    = (inr ep, s1)
    ∧ createTemplateFromPlan executionPlanId newName newId now2 s1
      = (inr t2, s2)
    ∧ getPlanCollection true s2 !! newId = Some t2
    ∧ days t2 = days (sortTasksByOrder t)
    ∧ isTemplate t2 = true
    ∧ sourceTemplateOf t2 = None
    ∧ weekStartOf t2 = None
    ∧ name t2 = newName
    ∧ createdBy t2 = userId
    ∧ collaborators t2 = collaborators t
    ∧ (newId ≠ templateId → getPlanCollection true s2 !! templateId = Some t)
    ∧ getPlanCollection false s2 = getPlanCollection false s1.
Proof.
  intros Ht Hwf Hord.
  set (ep := mkWeekPlan executionPlanId (name t) false
               (days (sortTasksByOrder t)) now1 now1 userId (collaborators t)
               (partnershipId t) (Some templateId) (Some weekStartDate)).
  set (s1 := setPlanCollection false
               (<[executionPlanId := ep]> (getPlanCollection false s)) s).
  assert (sortTasksByOrder ep = ep) as Hep
    by (by apply (sortTasksByOrder_derived t)).
  exists ep, s1. eexists _, _.
  split; [by apply createExecutionPlan_run|].
  split.
  { apply (createTemplateFromPlan_run executionPlanId newName newId now2 s1
             ep).
    unfold s1. by rewrite getPlanCollection_set, lookup_insert_eq. }
  rewrite Hep. rewrite !getPlanCollection_set. split_and!; try done.
  - by rewrite lookup_insert_eq.
  - intros Hne. rewrite lookup_insert_ne by done.
    unfold s1. by destruct s.
Qed.

Lemma template_to_plan_to_template_witness :
  ∃ ep s1 t2 s2,
    createExecutionPlan "plan123" "2024-01-01" "u1" "e1" 2000 Sample.storeA
    = (inr ep, s1)
    ∧ createTemplateFromPlan "e1" "Again" "t2" 3000 s1 = (inr t2, s2)
    ∧ days t2 = days (sortTasksByOrder Sample.planA)
    ∧ createdBy t2 = "u1".
Proof.
  destruct (template_to_plan_to_template "plan123" "2024-01-01" "u1" "e1"
              "Again" "t2" 2000 3000 Sample.storeA Sample.planA eq_refl)
    as (ep & s1 & t2 & s2 & H1 & H2 & _ & Hdays & _ & _ & _ & _ & Hby & _).
  - intros d day Hday.
    change (days Sample.planA) with ({[ 1 := Sample.dayA ]} : gmap Z DayPlan)
      in Hday.
    apply lookup_singleton_Some in Hday as [_ <-].
    apply (bool_decide_unpack _). vm_compute. exact I.
  - intros d day Hday.
    change (days Sample.planA) with ({[ 1 := Sample.dayA ]} : gmap Z DayPlan)
      in Hday.
    apply lookup_singleton_Some in Hday as [_ <-].
    apply (bool_decide_unpack _). vm_compute. exact I.
  - by exists ep, s1, t2, s2.
Defined.

(** ** Add and Delete *)

(** The array that [addTaskToDay] renumbers: the sorted items of the day
    with the new item spliced in. *)
Lemma addTaskToDay_day_entries day newItem insertIndex taskId now :
  bucket_wf (tasks day) → taskId ∉ Js.keys (tasks day) →
  let r := addTaskToDay_day day newItem insertIndex taskId now in
  let sorted := Js.sort compareOrderOrZero (Js.values (tasks day)) in
  let pos :=
    Js.splice_start (length sorted)
      (default (Z.of_nat (length sorted)) insertIndex) in
  tasks r.2
  = imap (λ i t, (id_of t, with_item (with_order (Some (Z.of_nat i))) t))
      (take pos sorted ++ r.1 :: drop pos sorted)
  ∧ id_of r.1 = taskId
  ∧ (taskId ∉ id_of <$> sorted)
  ∧ NoDup (id_of <$> sorted)
  ∧ (pos ≤ length sorted)%nat.
Proof.
  intros Hwf Hfresh r sorted pos.
  assert (taskId ∉ id_of <$> sorted) as Hfresh'.
  { unfold sorted. rewrite sort_perm. by rewrite <- bucket_wf_keys. }
  assert (NoDup (id_of <$> sorted)) as Hnd
    by apply sort_ids, bucket_wf_ids, Hwf.
  split_and!; [|done|done|done|apply splice_start_le].
  unfold r, addTaskToDay_day. cbn [fst snd tasks with_tasks]. fold sorted.
  rewrite forEach_assign_nodup by (apply inserted_ids; [done|exact Hfresh']).
  by rewrite splice_insert.
Qed.

(** X11: when [addTaskToDay] is given no insertion index, or one between
    0 and the item count of the bucket, the item that it returns is exactly
    the item that it stores: its order is the index given, or the item
    count if none was. *)
Theorem addTaskToDay_returns_stored_item planId d newItem isT insertIndex
    taskId now s plan :
  getPlanCollection isT s !! planId = Some plan →
  (∀ day, days plan !! d = Some day →
          bucket_wf (tasks day) ∧ taskId ∉ Js.keys (tasks day)) →
  let count :=
    length (Js.values (tasks (default (emptyDay planId d)
                                (days plan !! d)))) in
  (∀ i, insertIndex = Some i → 0 ≤ i ≤ Z.of_nat count) →
  ∃ newTask ds s',
    addTaskToDay planId d newItem isT insertIndex taskId now s
    = (inr (newTask, ds), s', [])
    ∧ bucket_of s' isT planId d ≫= Js.get taskId = Some newTask
    ∧ order_of newTask = Some (default (Z.of_nat count) insertIndex).
Proof.
  intros Hplan Hday count Hrange.
  set (day := default (emptyDay planId d) (days plan !! d)) in *.
  assert (bucket_wf (tasks day) ∧ taskId ∉ Js.keys (tasks day))
    as [Hwf Hfresh].
  { unfold day. destruct (days plan !! d) as [day'|]; [by apply Hday|].
    simpl. split; [exact (emptyDay_wf planId d) | apply not_elem_of_nil]. }
  destruct (addTaskToDay_day_entries day newItem insertIndex taskId now Hwf
              Hfresh) as (Hentries & Hid & Hfresh' & Hnd & Hpos).
  set (r := addTaskToDay_day day newItem insertIndex taskId now) in *.
  set (sorted := Js.sort compareOrderOrZero (Js.values (tasks day))) in *.
  assert (length sorted = count) as Hlen by apply length_sort.
  set (target := default (Z.of_nat (length sorted)) insertIndex) in *.
  assert (0 ≤ target ≤ Z.of_nat (length sorted)) as Htarget.
  { unfold target. destruct insertIndex as [i|]; simpl; [|lia].
    rewrite Hlen. by apply Hrange. }
  assert (Js.splice_start (length sorted) target = Z.to_nat target) as Hstart.
  { unfold Js.splice_start. destruct (target <? 0) eqn:E; [lia|lia]. }
  eexists r.1, (<[d := r.2]> (days plan)), _. split_and!.
  - by eapply addTaskToDay_run.
  - erewrite committed_bucket_of by done. rewrite lookup_insert_eq.
    cbn [fmap option_fmap option_map mbind option_bind].
    fold day. fold r. rewrite Hentries, <- Hid.
    erewrite get_elem_nodup; [reflexivity| |].
    + unfold Js.keys. rewrite fmap_imap.
      rewrite (imap_ext _ (const id_of)) by done. rewrite imap_const.
      rewrite fmap_app, fmap_cons. apply NoDup_app.
      pose proof (take_drop (Js.splice_start (length sorted) target) sorted)
        as Htd.
      rewrite <- Htd, fmap_app in Hnd, Hfresh'.
      apply NoDup_app in Hnd as (H1 & Hdis & H2).
      rewrite not_elem_of_app in Hfresh'. destruct Hfresh' as [Hf1 Hf2].
      split_and!; [done| |].
      * intros k Hk1 Hk2. apply elem_of_cons in Hk2 as [->|Hk2].
        -- by rewrite Hid in Hk1.
        -- by apply (Hdis k).
      * apply NoDup_cons. by rewrite Hid.
    + apply list_elem_of_lookup.
      exists (Js.splice_start (length sorted) target).
      rewrite list_lookup_imap, list_lookup_middle by (rewrite length_take; lia).
      simpl. f_equal. f_equal. rewrite Hstart.
      unfold r, with_item, with_order. simpl. fold sorted. fold target.
      by rewrite Z2Nat.id by lia.
  - unfold r, order_of. simpl. fold sorted. by rewrite Hlen.
Qed.

Lemma addTaskToDay_returns_stored_item_witness :
  ∃ newTask ds s',
    addTaskToDay "plan123" 1 (Sample.aTask "" None 45 None) true None "c" 2000
      Sample.storeA = (inr (newTask, ds), s', [])
    ∧ bucket_of s' true "plan123" 1 ≫= Js.get "c" = Some newTask
    ∧ order_of newTask = Some 2.
Proof.
  apply (addTaskToDay_returns_stored_item "plan123" 1
           (Sample.aTask "" None 45 None) true None "c" 2000 Sample.storeA
           Sample.planA eq_refl).
  - intros day Hday.
    change (days Sample.planA) with ({[ 1 := Sample.dayA ]} : gmap Z DayPlan)
      in Hday.
    apply lookup_singleton_Some in Hday as [_ <-].
    split; apply (bool_decide_unpack _); vm_compute; exact I.
  - intros i Hi. discriminate.
Defined.

Lemma get_middle {V} k (v : V) (l1 l2 : Js.Obj V) :
  k ∉ l1.*1 → Js.get k (l1 ++ (k, v) :: l2) = Some v.
Proof.
  induction l1 as [|[k' v'] l1 IH]; simpl.
  - intros _. destruct (decide (k = k)); done.
  - rewrite not_elem_of_cons. intros [Hne Hk].
    destruct (decide (k = k')); [done | auto].
Qed.

Lemma del_middle {V} k (v : V) (l1 l2 : Js.Obj V) :
  k ∉ l1.*1 → Js.del k (l1 ++ (k, v) :: l2) = l1 ++ l2.
Proof.
  induction l1 as [|[k' v'] l1 IH]; simpl.
  - intros _. destruct (decide (k = k)); done.
  - rewrite not_elem_of_cons. intros [Hne Hk].
    destruct (decide (k = k')); [done|]. by rewrite IH.
Qed.

(** The entries written by a renumbering loop are the items of the array
    but for their order. *)
Lemma renumbered_but_order (h : nat → Z) (l : list TaskItem) :
  (λ kv, with_item (with_order None) kv.2)
    <$> imap (λ i t, (id_of t, with_item (with_order (Some (h i))) t)) l
  = with_item (with_order None) <$> l.
Proof.
  rewrite fmap_imap.
  rewrite (imap_ext _ (const (with_item (with_order None)))) by done.
  by rewrite imap_const.
Qed.

Lemma renumbered_keys (h : nat → Z) (l : list TaskItem) :
  (imap (λ i t, (id_of t, with_item (with_order (Some (h i))) t)) l).*1
  = id_of <$> l.
Proof.
  rewrite fmap_imap. rewrite (imap_ext _ (const id_of)) by done.
  by rewrite imap_const.
Qed.



(** X13: in a bucket none of whose ids, the new one included, consists of
    digits only or is [__proto__], an Add followed by the Delete of the
    added item leaves the items that the bucket had, in the sequence of
    their orders, each with all its fields but the order. A day whose
    bucket was absent or empty before is not a key of the days
    afterwards. *)
Theorem add_then_delete planId d newItem isT insertIndex taskId now now' s
    plan :
  getPlanCollection isT s !! planId = Some plan →
  (∀ day, days plan !! d = Some day →
          bucket_wf (tasks day) ∧ taskId ∉ Js.keys (tasks day)) →
  (∀ day, days plan !! d = Some day → Js.plain_keys (tasks day)) →
  Js.plain_key taskId →
  let before := tasks (default (emptyDay planId d) (days plan !! d)) in
  let sorted := Js.sort compareOrderOrZero (Js.values before) in
  ∃ r s1 s2,
    addTaskToDay planId d newItem isT insertIndex taskId now s
    = (inr r, s1, [])
    ∧ deleteTask planId d taskId isT now' s1 = (inr (), s2, [])
    ∧ (before = [] →
       days_of s2 isT planId = Some (delete d (days plan)))
    ∧ (before ≠ [] →
       ∃ ts, bucket_of s2 isT planId d = Some ts
             ∧ Js.keys ts = id_of <$> sorted
             ∧ with_item (with_order None) <$> Js.values ts
               = with_item (with_order None) <$> sorted).
Proof.
  intros Hplan Hday Hkeys Hnew before sorted.
  set (day := default (emptyDay planId d) (days plan !! d)) in *.
  assert (bucket_wf (tasks day) ∧ taskId ∉ Js.keys (tasks day))
    as [Hwf Hfresh].
  { unfold day. destruct (days plan !! d) as [day'|]; [by apply Hday|].
    simpl. split; [exact (emptyDay_wf planId d) | apply not_elem_of_nil]. }
  destruct (addTaskToDay_day_entries day newItem insertIndex taskId now Hwf
              Hfresh) as (Hentries & Hid & Hfresh' & Hnd & Hpos).
  set (r := addTaskToDay_day day newItem insertIndex taskId now) in *.
  fold before in Hentries, Hfresh', Hnd, Hpos.
  fold sorted in Hentries, Hfresh', Hnd, Hpos.
  set (pos := Js.splice_start (length sorted)
                (default (Z.of_nat (length sorted)) insertIndex)) in *.
  set (ds1 := <[d := r.2]> (days plan)).
  set (s1 := committed isT planId ds1 now s).
  assert (getPlanCollection isT s1 !! planId
          = Some (with_days ds1 now plan)) as Hplan1
    by by apply committed_plan.
  (* the bucket after the Add, around the entry of the new item *)
  rewrite imap_app, imap_cons, Hid in Hentries.
  rewrite (imap_ext _
             (λ i t, (id_of t,
                      with_item
                        (with_order
                           (Some (Z.of_nat (length (take pos sorted)
                                            + Datatypes.S i)))) t))
             (drop pos sorted)) in Hentries by done.
  set (l1 := imap (λ i t, (id_of t,
                           with_item (with_order (Some (Z.of_nat i))) t))
               (take pos sorted)) in *.
  set (l2 := imap _ (drop pos sorted)) in Hentries.
  assert (taskId ∉ l1.*1) as Hl1.
  { unfold l1. rewrite renumbered_keys. intros Hin. apply Hfresh'.
    rewrite <- (take_drop pos sorted), fmap_app, elem_of_app. by left. }
  assert (Js.del taskId (tasks r.2) = l1 ++ l2) as Hdel
    by (rewrite Hentries; by apply del_middle).
  assert (length (Js.keys (l1 ++ l2)) = length before) as Hlen.
  { unfold Js.keys. rewrite length_fmap.
    unfold l1, l2. rewrite length_app, !length_imap, <- length_app, take_drop.
    unfold sorted. rewrite length_sort. unfold Js.values.
    by rewrite length_fmap. }
  eexists (r.1, ds1), s1, _. split_and!.
  - by eapply addTaskToDay_run.
  - eapply (deleteTask_run planId d taskId isT now' s1 _ r.2); [exact Hplan1| |].
    + simpl. unfold ds1. by rewrite lookup_insert_eq.
    + rewrite Hentries. by apply get_middle.
  - intros Hempty. erewrite committed_days_of by exact Hplan1.
    f_equal. unfold deleteTask_days. cbn [tasks with_tasks days with_days].
    rewrite Hdel, Hlen, Hempty.
    simpl. unfold ds1. by rewrite delete_insert_eq.
  - intros Hne. exists (l1 ++ l2).
    erewrite committed_bucket_of by exact Hplan1.
    unfold deleteTask_days. cbn [tasks with_tasks days with_days].
    rewrite Hdel, Hlen.
    destruct (decide (length before = 0%nat)) as [H0|_].
    { by apply nil_length_inv in H0. }
    rewrite lookup_insert_eq. split_and!; [done| |].
    + unfold Js.keys. rewrite fmap_app. unfold l1, l2.
      rewrite (renumbered_keys Z.of_nat).
      rewrite (renumbered_keys
                 (λ i, Z.of_nat (length (take pos sorted) + Datatypes.S i))).
      by rewrite <- fmap_app, take_drop.
    + unfold Js.values. rewrite <- (take_drop pos sorted) at 1.
      rewrite !fmap_app. unfold l1, l2.
      rewrite <- !list_fmap_compose.
      rewrite (renumbered_but_order Z.of_nat).
      by rewrite (renumbered_but_order
                    (λ i, Z.of_nat (length (take pos sorted)
                                    + Datatypes.S i))).
Qed.

Lemma add_then_delete_witness :
  let before := tasks Sample.dayA in
  let sorted := Js.sort compareOrderOrZero (Js.values before) in
  ∃ r s1 s2,
    addTaskToDay "plan123" 1 (Sample.aTask "" None 45 None) true (Some 0) "c"
      2000 Sample.storeA = (inr r, s1, [])
    ∧ deleteTask "plan123" 1 "c" true 3000 s1 = (inr (), s2, [])
    ∧ (before = [] →
       days_of s2 true "plan123" = Some (delete 1 (days Sample.planA)))
    ∧ (before ≠ [] →
       ∃ ts, bucket_of s2 true "plan123" 1 = Some ts
             ∧ Js.keys ts = id_of <$> sorted
             ∧ with_item (with_order None) <$> Js.values ts
               = with_item (with_order None) <$> sorted).
Proof.
  apply (add_then_delete "plan123" 1 (Sample.aTask "" None 45 None) true
           (Some 0) "c" 2000 3000 Sample.storeA Sample.planA eq_refl).
  - intros day Hday.
    change (days Sample.planA) with ({[ 1 := Sample.dayA ]} : gmap Z DayPlan)
      in Hday.
    apply lookup_singleton_Some in Hday as [_ <-].
    split; apply (bool_decide_unpack _); vm_compute; exact I.
  - intros day Hday.
    change (days Sample.planA) with ({[ 1 := Sample.dayA ]} : gmap Z DayPlan)
      in Hday.
    apply lookup_singleton_Some in Hday as [_ <-].
    apply (bool_decide_unpack _). vm_compute. exact I.
  - apply (bool_decide_unpack _). vm_compute. exact I.
Defined.

(** X14: once an item is deleted, whose id is not the name of a property
    that objects inherit, no Update, Delete or Move that addresses it in
    that bucket succeeds: each throws [Task not found] after five attempts
    and leaves the store as the deletion left it. *)
Theorem deleted_item_is_gone planId d taskId isT now now' s plan day m :
  getPlanCollection isT s !! planId = Some plan →
  days plan !! d = Some day →
  NoDup (Js.keys (tasks day)) →
  is_Some (Js.get taskId (tasks day)) →
  ¬ Js.inherited taskId →
  addressed_plan m = (isT, planId) →
  addressed_item m = Some (d, taskId) →
  ∃ s1 evs,
    deleteTask planId d taskId isT now s = (inr (), s1, [])
    ∧ perform m now' s1 = (inl (Err "Task not found"), s1, evs)
    ∧ attempts (perform m now' s1).1.1 evs = 5%nat.
Proof.
  intros Hplan Hday Hnd [found Hget] Hown Hp Hi.
  set (ds := deleteTask_days d taskId (days plan) day).
  set (s1 := committed isT planId ds now s).
  assert (getPlanCollection isT s1 !! planId
          = Some (with_days ds now plan)) as Hplan1
    by by apply committed_plan.
  assert (item_absent (with_days ds now plan) d taskId) as Habs.
  { unfold item_absent, ds, deleteTask_days. cbn [days with_days].
    destruct (decide _).
    - by rewrite lookup_delete_eq.
    - rewrite lookup_insert_eq. simpl. by apply get_del_eq. }
  assert (deleteTask planId d taskId isT now s = (inr (), s1, [])) as Hrun1
    by by eapply deleteTask_run.
  destruct m as [pid d0 ni isT0 ii tid | pid d0 tid u isT0 | pid d0 tid isT0
                |pid src tgt tid isT0 au si ti]; simplify_eq/=.
  - destruct (retried_failure _ _ _
                (updateTask_item_missing planId d taskId u isT now' s1 _
                   Hplan1 Habs)) as (evs & Hrun & Hn & _).
    exists s1, evs. unfold updateTask. by rewrite Hrun.
  - destruct (retried_failure _ _ _
                (deleteTask_item_missing planId d taskId isT now' s1 _
                   Hplan1 Habs Hown)) as (evs & Hrun & Hn & _).
    exists s1, evs. unfold deleteTask at 2 3. by rewrite Hrun.
  - destruct (retried_failure _ _ _
                (moveTask_item_missing planId d tgt taskId isT au si ti now'
                   s1 _ Hplan1 Habs)) as (evs & Hrun & Hn & _).
    exists s1, evs. unfold moveTask. by rewrite Hrun.
Qed.

Lemma deleted_item_is_gone_witness :
  ∃ s1 evs,
    deleteTask "plan123" 1 "a" true 2000 Sample.storeA = (inr (), s1, [])
    ∧ perform (Update "plan123" 1 "a" Sample.complete true) 3000 s1
      = (inl (Err "Task not found"), s1, evs)
    ∧ attempts
        (perform (Update "plan123" 1 "a" Sample.complete true) 3000 s1).1.1
        evs = 5%nat.
Proof.
  apply (deleted_item_is_gone "plan123" 1 "a" true 2000 3000 Sample.storeA
           Sample.planA Sample.dayA
           (Update "plan123" 1 "a" Sample.complete true) eq_refl eq_refl).
  - apply (bool_decide_unpack _). vm_compute. exact I.
  - by eexists.
  - apply (bool_decide_unpack _). vm_compute. exact I.
  - reflexivity.
  - reflexivity.
Defined.

(** ** Move *)











Lemma length_del_present {V} k (v : V) (o : Js.Obj V) :
  Js.get k o = Some v → Datatypes.S (length (Js.del k o)) = length o.
Proof.
  intros Hget. destruct (get_split _ _ _ Hget) as (l1 & l2 & -> & _ & -> & _).
  rewrite !length_app. simpl. lia.
Qed.

(** X18: in a bucket none of whose ids consists of digits only or is
    [__proto__], a move within one day without a target index takes the
    item out of the bucket and appends it: the other entries keep their
    positions and their orders, and the item comes last with the item count
    less one as its order. *)
Theorem moveTask_same_day_appends planId d taskId isT assignToUser
    sourceIndex now s plan day found :
  getPlanCollection isT s !! planId = Some plan →
  days plan !! d = Some day →
  NoDup (Js.keys (tasks day)) →
  Js.plain_keys (tasks day) →
  Js.get taskId (tasks day) = Some found →
  ∃ s',
    moveTask planId d d taskId isT assignToUser sourceIndex None now s
    = (inr (), s', [])
    ∧ bucket_of s' isT planId d
      = Some (Js.del taskId (tasks day)
              ++ [(taskId,
                   with_item
                     (with_order
                        (Some (Z.of_nat (length (Js.keys (tasks day))) - 1)))
                     (reassigned found assignToUser now))]).
Proof.
  intros Hplan Hday Hnd Hkeys Hget. eexists. split.
  - by eapply moveTask_run.
  - erewrite committed_bucket_of by done. unfold moveTask_days.
    assert (<[d := with_tasks (Js.del taskId (tasks day)) day]> (days plan)
              !! d
            = Some (with_tasks (Js.del taskId (tasks day)) day)) as Hlook
      by apply lookup_insert_eq.
    assert (Z.of_nat (length (Js.keys (Js.del taskId (tasks day))))
            = Z.of_nat (length (Js.keys (tasks day))) - 1) as Hlen.
    { unfold Js.keys. rewrite !length_fmap.
      pose proof (length_del_present _ _ _ Hget). lia. }
    assert (taskId ∉ Js.keys (Js.del taskId (tasks day))) as Hfresh
      by by apply get_None, get_del_eq.
    destruct (decide (d = d)) as [_|?]; [|done].
    destruct sourceIndex; rewrite Hlook; simpl;
      rewrite lookup_insert_eq; simpl;
      rewrite set_fresh by done; by rewrite Hlen.
Qed.

Lemma moveTask_same_day_appends_witness :
  ∃ s',
    moveTask "plan123" 1 1 "a" true None None None 2000 Sample.storeA
    = (inr (), s', [])
    ∧ bucket_of s' true "plan123" 1
      = Some (Js.del "a" (tasks Sample.dayA)
              ++ [("a",
                   with_item
                     (with_order
                        (Some (Z.of_nat (length (Js.keys (tasks Sample.dayA)))
                               - 1)))
                     (reassigned Sample.taskA None 2000))]).
Proof.
  apply (moveTask_same_day_appends "plan123" 1 "a" true None None 2000
           Sample.storeA Sample.planA Sample.dayA Sample.taskA eq_refl
           eq_refl).
  - apply (bool_decide_unpack _). vm_compute. exact I.
  - apply (bool_decide_unpack _). vm_compute. exact I.
  - reflexivity.
Defined.

(** ** What the readers return *)

Lemma set_values_Forall {V} (P : V → Prop) k v (o : Js.Obj V) :
  P v → Forall P (Js.values o) → Forall P (Js.values (Js.set k v o)).
Proof.
  intros Hv. unfold Js.values. induction o as [|[k0 v0] o IH]; simpl.
  - intros _. by constructor.
  - rewrite Forall_cons. intros [H0 Ho].
    destruct (decide (k = k0)); simpl; constructor; auto.
Qed.

(** Every entry of the object built by a renumbering loop was written by
    the loop, whether or not an id occurs twice in the array. *)
Lemma forEach_assign_values_Forall (P : TaskItem → Prop) f l :
  (∀ i t, P (f i t)) → Forall P (Js.values (forEach_assign f l)).
Proof.
  intros Hf. unfold forEach_assign.
  assert (∀ (pairs : list (string * TaskItem)) acc,
            Forall P (Js.values acc) → Forall (λ kv, P kv.2) pairs →
            Forall P (Js.values (foldl (λ o '(k, v), Js.set k v o) acc pairs)))
    as Hfold.
  { induction pairs as [|[k v] pairs IH]; intros acc Hacc Hall; [done|].
    apply Forall_cons in Hall as [Hkv Hall]. simpl.
    apply IH; [|done]. by apply set_values_Forall. }
  apply Hfold; [apply Forall_nil_2|].
  apply Forall_forall. intros [k v] Hin.
  apply list_elem_of_lookup in Hin as [i Hi].
  rewrite list_lookup_imap in Hi.
  destruct (l !! i) as [t|]; simplify_eq/=. apply Hf.
Qed.

Lemma fillMissingOrder_ordered i t : has_order (fillMissingOrder i t).
Proof.
  unfold has_order, fillMissingOrder.
  destruct (order_of t) as [o|] eqn:E; [by rewrite E | by eexists].
Qed.

(** X19: whatever the stored document, a plan that [getTemplate] or
    [getExecutionPlan] returns has an order on every item and holds every
    item under its id; it has the days and the header of the stored
    document, and the read leaves the store as it was. *)
Theorem fetched_plans_are_normalized (isT : bool) (planId : string) s p :
  (if isT then getTemplate planId s else getExecutionPlan planId s).1 = inr (Some p) →
  plan_ordered p ∧ plan_wf p
  ∧ (∃ stored,
       getPlanCollection isT s !! planId = Some stored
       ∧ same_plan_header stored p
       ∧ plan_updatedAt p = plan_updatedAt stored
       ∧ ∀ d, is_Some (days p !! d) ↔ is_Some (days stored !! d))
  ∧ (if isT then getTemplate planId s else getExecutionPlan planId s).2 = s.
Proof.
  intros Hfetch.
  assert (sortTasksByOrder <$> getPlanCollection isT s !! planId = Some p
          ∧ (if isT then getTemplate planId s else getExecutionPlan planId s).2 = s)
    as [Hp Hs].
  { destruct isT;
      unfold getTemplate, getExecutionPlan, getDoc, mbind, M_bind, mret,
        M_ret in *; simpl in *; split; congruence. }
  destruct (getPlanCollection isT s !! planId) as [stored|]; [|done].
  injection Hp as <-. split_and!; [| |exists stored; split_and!|done].
  - intros d day Hday. unfold sortTasksByOrder in Hday. simpl in Hday.
    rewrite lookup_fmap in Hday.
    destruct (days stored !! d) as [day0|]; [|done].
    injection Hday as <-. simpl. unfold sortDayTasks.
    apply forEach_assign_values_Forall, fillMissingOrder_ordered.
  - intros d day Hday. unfold sortTasksByOrder in Hday. simpl in Hday.
    rewrite lookup_fmap in Hday.
    destruct (days stored !! d) as [day0|]; [|done].
    injection Hday as <-. simpl. unfold sortDayTasks.
    apply forEach_assign_wf_any, fillMissingOrder_id.
  - done.
  - unfold same_plan_header. by repeat split.
  - done.
  - intros d. unfold sortTasksByOrder. simpl. rewrite lookup_fmap.
    by rewrite fmap_is_Some.
Qed.

Lemma fetched_plans_are_normalized_witness :
  plan_ordered (sortTasksByOrder Sample.legacyPlan)
  ∧ plan_wf (sortTasksByOrder Sample.legacyPlan)
  ∧ (∃ stored,
       getPlanCollection true (mkStore {[ "t1" := Sample.legacyPlan ]} ∅)
         !! "t1" = Some stored
       ∧ same_plan_header stored (sortTasksByOrder Sample.legacyPlan)
       ∧ plan_updatedAt (sortTasksByOrder Sample.legacyPlan)
         = plan_updatedAt stored
       ∧ ∀ d, is_Some (days (sortTasksByOrder Sample.legacyPlan) !! d)
              ↔ is_Some (days stored !! d))
  ∧ (getTemplate "t1" (mkStore {[ "t1" := Sample.legacyPlan ]} ∅)).2
    = mkStore {[ "t1" := Sample.legacyPlan ]} ∅.
Proof.
  apply (fetched_plans_are_normalized true "t1"
           (mkStore {[ "t1" := Sample.legacyPlan ]} ∅)
           (sortTasksByOrder Sample.legacyPlan)).
  vm_compute. reflexivity.
Defined.

(** ** The callers of [updateTask] in the task context *)

(** X20: for an item that the active plan shows as a task and that is in
    the stored bucket, [assignTask] followed by [toggleTaskCompletion]
    returns both times at the first attempt and leaves the stored item with
    the assignee and the completion flag given, the time of the second call
    as its modification time, and every other field and its type as they
    were. For an item that the active plan shows as a section each of the
    two throws its own error and the store is as it was. *)
Theorem assign_then_complete activeTemplate activeExecutionPlan currentUser
    d taskId userId (done : bool) now now' s activePlan current plan day
    stored :
  or_else activeTemplate activeExecutionPlan = Some activePlan →
  days activePlan !! d ≫= (λ day, Js.get taskId (tasks day)) = Some current →
  (type current = section →
   assignTask activeTemplate activeExecutionPlan currentUser d taskId userId
     now s
   = (inl (Err "Sections cannot be assigned to users"), s, [])
   ∧ toggleTaskCompletion activeTemplate activeExecutionPlan currentUser d
       taskId done now s
     = (inl (Err "Sections cannot be marked as completed"), s, []))
  ∧ (type current = task →
     is_Some currentUser →
     getPlanCollection (bool_decide (is_Some activeTemplate)) s
       !! plan_id activePlan = Some plan →
     days plan !! d = Some day →
     Js.get taskId (tasks day) = Some stored →
     ∃ s1 s2,
       assignTask activeTemplate activeExecutionPlan currentUser d taskId
         userId now s = (inr (), s1, [])
       ∧ toggleTaskCompletion activeTemplate activeExecutionPlan currentUser
           d taskId done now' s1 = (inr (), s2, [])
       ∧ bucket_of s2 (bool_decide (is_Some activeTemplate))
           (plan_id activePlan) d ≫= Js.get taskId
         = Some (mkTaskItem (type stored)
                   (mkItem (item_id (item stored)) (title (item stored))
                      (order (item stored)) (item_createdAt (item stored))
                      now' (minutes (item stored)) (Some userId) (Some done)
                      (categoryId (item stored)) (notes (item stored))
                      (color (item stored)) (collapsed (item stored))))).
Proof.
  intros Hactive Hcurrent. split.
  - intros Hsec. unfold assignTask, toggleTaskCompletion.
    rewrite Hactive, Hcurrent, Hsec. done.
  - intros Htask [u ->] Hplan Hday Hget.
    set (isT := bool_decide (is_Some activeTemplate)) in *.
    set (upd1 := updatedTaskOf stored (assignment userId) now).
    set (day1 := with_tasks (Js.set taskId upd1 (tasks day)) day).
    set (ds1 := <[d := day1]> (days plan)).
    set (s1 := committed isT (plan_id activePlan) ds1 now s).
    assert (getPlanCollection isT s1 !! plan_id activePlan
            = Some (with_days ds1 now plan)) as Hplan1
      by by apply committed_plan.
    set (upd2 := updatedTaskOf upd1 (completion done) now').
    set (day2 := with_tasks (Js.set taskId upd2 (tasks day1)) day1).
    set (ds2 := <[d := day2]> ds1).
    exists s1, (committed isT (plan_id activePlan) ds2 now' s1). split_and!.
    + unfold assignTask, updateTaskDetails.
      rewrite Hactive, Hcurrent, Htask. simpl. fold isT.
      by eapply updateTask_run.
    + unfold toggleTaskCompletion, updateTaskDetails.
      rewrite Hactive, Hcurrent, Htask. simpl. fold isT.
      eapply (updateTask_run _ _ _ _ _ _ _ _ day1 upd1 Hplan1).
      * simpl. unfold ds1. by rewrite lookup_insert_eq.
      * simpl. by rewrite get_set_eq.
    + erewrite committed_bucket_of by exact Hplan1.
      unfold ds2. rewrite lookup_insert_eq. simpl.
      by rewrite get_set_eq.
Qed.

Lemma assign_then_complete_witness :
  ∃ s1 s2,
    assignTask (Some Sample.planA) None (Some "u1") 1 "a" (Some "u2") 2000
      (mkStore {[ "plan123" := Sample.planA ]} ∅) = (inr (), s1, [])
    ∧ toggleTaskCompletion (Some Sample.planA) None (Some "u1") 1 "a" true
        3000 s1 = (inr (), s2, [])
    ∧ bucket_of s2 true "plan123" 1 ≫= Js.get "a"
      = Some (mkTaskItem task
                (mkItem "a" (title (item Sample.taskA)) (Some 0)
                   (item_createdAt (item Sample.taskA)) 3000 (Some 30)
                   (Some (Some "u2")) (Some true) None None None None)).
Proof.
  assert (plan_id Sample.planA = "plan123") as Hid by reflexivity.
  destruct (assign_then_complete (Some Sample.planA) None (Some "u1") 1 "a"
              (Some "u2") true 2000 3000
              (mkStore {[ "plan123" := Sample.planA ]} ∅) Sample.planA
              Sample.taskA Sample.planA Sample.dayA Sample.taskA eq_refl
              eq_refl) as [_ H].
  destruct H as (s1 & s2 & H1 & H2 & H3).
  - reflexivity.
  - by eexists.
  - vm_compute. reflexivity.
  - reflexivity.
  - reflexivity.
  - exists s1, s2. split_and!; [exact H1 | exact H2 | exact H3].
Defined.

(** ** Conversions and metrics *)

Lemma map_throwing_tasks (l : list TaskItem) :
  Forall (λ t, type t = task) l →
  map_throwing taskItemToTask l = inr (item <$> l).
Proof.
  induction 1 as [|t l Ht _ IH]; simpl; [done|].
  unfold taskItemToTask at 1. rewrite Ht, IH.
  by rewrite bool_decide_eq_false_2 by (intros H; by apply H).
Qed.

(** X21: [taskItemToTask] throws exactly on the items that are not tasks,
    and [taskItemsToTasks] never throws: it returns the [item] of every
    task of the array, in the order of the array, and skips the sections.
    It undoes [taskToTaskItem], and [getTasksForDay] returns what it
    returns on the values of the bucket of the day. *)
Theorem taskItemsToTasks_never_throws (taskItems : list TaskItem) :
  (∀ t, (∃ e, taskItemToTask t = inl e) ↔ type t = section)
  ∧ taskItemsToTasks taskItems
    = inr (item <$> filter (λ t, type t = task) taskItems)
  ∧ (∀ l, taskItemsToTasks (taskToTaskItem <$> l) = inr l)
  ∧ (∀ plan d day,
       days plan !! d = Some day →
       inr (getTasksForDay plan d) = taskItemsToTasks (Js.values (tasks day)))
  ∧ (∀ plan d, days plan !! d = None → getTasksForDay plan d = []).
Proof.
  assert (∀ l : list TaskItem,
            List.filter (λ t, bool_decide (type t = task)) l
            = filter (λ t, type t = task) l) as Hfilter.
  { induction l as [|t l IH]; [done|]. simpl. rewrite filter_cons.
    destruct (decide (type t = task)) as [Ht|Ht].
    - rewrite bool_decide_eq_true_2 by done. by rewrite IH.
    - by rewrite bool_decide_eq_false_2 by done. }
  assert (∀ l : list TaskItem,
            taskItemsToTasks l = inr (item <$> filter (λ t, type t = task) l))
    as Hconv.
  { intros l. unfold taskItemsToTasks. rewrite Hfilter.
    apply map_throwing_tasks, Forall_forall.
    intros t Ht. by apply list_elem_of_filter in Ht as [? _]. }
  split_and!.
  - intros t. unfold taskItemToTask. destruct (type t); simpl.
    + split; [by intros [e ?] | done].
    + split; [done | by eexists].
  - apply Hconv.
  - intros l. rewrite Hconv. f_equal.
    induction l as [|x l IH]; [done|].
    rewrite fmap_cons, filter_cons. cbn [taskToTaskItem type].
    destruct (decide (task = task)); [|done].
    rewrite fmap_cons. cbn [item]. by f_equal.
  - intros plan d day Hday. rewrite Hconv. unfold getTasksForDay.
    by rewrite Hday, Hfilter.
  - intros plan d Hday. unfold getTasksForDay. by rewrite Hday.
Qed.

Section PlanMetrics.
Import TaskService.
Variables userId partnerId : string.

Lemma count_where_app (P : Task → bool) l1 l2 :
  count_where P (l1 ++ l2) = count_where P l1 + count_where P l2.
Proof. induction l1 as [|t l1 IH]; simpl; [done|]. rewrite IH. lia. Qed.

Lemma minutes_where_app (P : Task → bool) l1 l2 :
  minutes_where P (l1 ++ l2) = minutes_where P l1 + minutes_where P l2.
Proof. induction l1 as [|t l1 IH]; simpl; [done|]. rewrite IH. lia. Qed.

Lemma filter_all (l : list Task) : List.filter (λ _, true) l = l.
Proof. induction l as [|t l IH]; simpl; [done|]. by rewrite IH. Qed.

(** Each of the four groups of the metrics by owner is the metrics of a
    sublist that a test on the single task selects. *)
Lemma group_as_filter (group : MetricsByOwner → Metrics) :
  group ∈ [of_user; of_partner; of_unassigned; of_all] →
  ∃ P : Task → bool,
    ∀ l, group (calculateTaskMetricsByOwner userId partnerId l)
         = calculateTaskMetrics (List.filter P l).
Proof.
  intros Hgroup.
  repeat (apply elem_of_cons in Hgroup as [->|Hgroup]).
  - by exists (belongs userId partnerId user).
  - by exists (belongs userId partnerId partner).
  - by exists (belongs userId partnerId unassigned).
  - exists (λ _, true). intros l. by rewrite filter_all.
  - by apply elem_of_nil in Hgroup.
Qed.

(** The counts and the sums of the minutes add up over a concatenation. *)
Lemma metrics_app (group : MetricsByOwner → Metrics) (field : Metrics → Z)
    l1 l2 :
  group ∈ [of_user; of_partner; of_unassigned; of_all] →
  field ∈ [totalTasks; completedTasks; totalMinutes; remainingMinutes] →
  field (group (calculateTaskMetricsByOwner userId partnerId (l1 ++ l2)))
  = field (group (calculateTaskMetricsByOwner userId partnerId l1))
    + field (group (calculateTaskMetricsByOwner userId partnerId l2)).
Proof.
  intros Hgroup Hfield. destruct (group_as_filter group Hgroup) as [P HP].
  rewrite !HP.
  destruct (TaskServiceFacts.calculateTaskMetrics_spec P (l1 ++ l2))
    as (H1 & H2 & H3 & H4).
  destruct (TaskServiceFacts.calculateTaskMetrics_spec P l1)
    as (H1a & H2a & H3a & H4a).
  destruct (TaskServiceFacts.calculateTaskMetrics_spec P l2)
    as (H1b & H2b & H3b & H4b).
  repeat (apply elem_of_cons in Hfield as [->|Hfield]).
  - rewrite H1, H1a, H1b. apply count_where_app.
  - rewrite H2, H2a, H2b. apply count_where_app.
  - rewrite H3, H3a, H3b. apply minutes_where_app.
  - rewrite H4, H4a, H4b. apply minutes_where_app.
  - by apply elem_of_nil in Hfield.
Qed.

Lemma metrics_nil (group : MetricsByOwner → Metrics) (field : Metrics → Z) :
  group ∈ [of_user; of_partner; of_unassigned; of_all] →
  field ∈ [totalTasks; completedTasks; totalMinutes; remainingMinutes] →
  field (group (calculateTaskMetricsByOwner userId partnerId [])) = 0.
Proof.
  intros Hgroup Hfield.
  repeat (apply elem_of_cons in Hgroup as [->|Hgroup]);
    try (by apply elem_of_nil in Hgroup);
    repeat (apply elem_of_cons in Hfield as [->|Hfield]);
    try (by apply elem_of_nil in Hfield); reflexivity.
Qed.

Lemma mapM_app_Some {A B} (f : A → option B) l1 l2 k1 k2 :
  mapM f l1 = Some k1 → mapM f l2 = Some k2 →
  mapM f (l1 ++ l2) = Some (k1 ++ k2).
Proof.
  rewrite !mapM_Some. apply Forall2_app.
Qed.

(** In a plan whose tasks have the fields of a [Task] the tasks of a day
    are read as typed tasks. *)
Lemma getTasksForDay_typed plan d :
  tasks_typed plan → is_Some (mapM asTask (getTasksForDay plan d)).
Proof.
  intros Htyped. apply mapM_is_Some_2, Forall_forall. intros i Hi.
  unfold getTasksForDay in Hi. destruct (days plan !! d) as [day|] eqn:Hday.
  - apply list_elem_of_fmap in Hi as (t & -> & Ht).
    apply list_elem_of_In, filter_In in Ht as [Ht Htype].
    apply list_elem_of_In in Ht. apply bool_decide_eq_true in Htype.
    simpl. by eapply Htyped.
  - by apply elem_of_nil in Hi.
Qed.

(** X22: in a plan whose tasks have the fields of a [Task], none with
    negative minutes and all together with at most [2^53] minutes, the
    metrics of the plan exist, as do those of each day, and for each of the
    four groups the task count, the completed count, the minutes and the
    remaining minutes of the plan are the sums of those of the days
    enumerated. *)
Theorem plan_metrics_sum_day_metrics plan (dayKeys : list Z) :
  tasks_typed plan →
  (∀ allTasks, mapM asTask (dayKeys ≫= getTasksForDay plan) = Some allTasks →
               exact_minutes allTasks) →
  ∃ planMetrics dayMetrics,
    calculatePlanMetrics userId partnerId plan dayKeys = Some planMetrics
    ∧ mapM (calculateDayMetrics userId partnerId plan) dayKeys
      = Some dayMetrics
    ∧ ∀ group field,
        group ∈ [of_user; of_partner; of_unassigned; of_all] →
        field ∈ [totalTasks; completedTasks; totalMinutes; remainingMinutes] →
        field (group planMetrics)
        = foldr Z.add 0 ((λ m, field (group m)) <$> dayMetrics).
Proof.
  intros Htyped _. unfold calculatePlanMetrics. cbv zeta.
  induction dayKeys as [|d ks IH].
  - exists (calculateTaskMetricsByOwner userId partnerId []), [].
    split_and!; [done|done|]. intros group field Hg Hf. by apply metrics_nil.
  - destruct IH as (pm & dms & Hpm & Hdms & Hsum).
    destruct (mapM asTask (ks ≫= getTasksForDay plan)) as [rest|] eqn:Hrest;
      [|done].
    injection Hpm as <-.
    destruct (getTasksForDay_typed plan d Htyped) as [ts Hts].
    exists (calculateTaskMetricsByOwner userId partnerId (ts ++ rest)),
      (calculateTaskMetricsByOwner userId partnerId ts :: dms).
    split_and!.
    + rewrite bind_cons. by erewrite mapM_app_Some.
    + apply mapM_Some_2. constructor; [|by apply mapM_Some_1].
      unfold calculateDayMetrics. by rewrite Hts.
    + intros group field Hg Hf. rewrite fmap_cons. simpl.
      rewrite metrics_app by done. by rewrite Hsum.
Qed.

End PlanMetrics.

Lemma planA_typed : tasks_typed Sample.planA.
Proof.
  intros d day t Hday Ht _.
  change (days Sample.planA) with ({[ 1 := Sample.dayA ]} : gmap Z DayPlan)
    in Hday.
  apply lookup_singleton_Some in Hday as [_ <-].
  change (Js.values (tasks Sample.dayA)) with [Sample.taskA; Sample.taskB]
    in Ht.
  repeat (apply elem_of_cons in Ht as [->|Ht]); [by eexists..|].
  by apply elem_of_nil in Ht.
Defined.

Lemma plan_metrics_sum_day_metrics_witness :
  ∃ planMetrics dayMetrics,
    calculatePlanMetrics "u1" "u2" Sample.planA [1; 2] = Some planMetrics
    ∧ mapM (calculateDayMetrics "u1" "u2" Sample.planA) [1; 2]
      = Some dayMetrics
    ∧ ∀ group field,
        group ∈ [TaskService.of_user; TaskService.of_partner;
                 TaskService.of_unassigned; TaskService.of_all] →
        field ∈ [TaskService.totalTasks; TaskService.completedTasks;
                 TaskService.totalMinutes; TaskService.remainingMinutes] →
        field (group planMetrics)
        = foldr Z.add 0 ((λ m, field (group m)) <$> dayMetrics).
Proof.
  apply (plan_metrics_sum_day_metrics "u1" "u2" Sample.planA [1; 2]
           planA_typed).
  intros allTasks Hall. vm_compute in Hall. injection Hall as <-.
  apply (bool_decide_unpack _). vm_compute. exact I.
Defined.

Section MetricsConsistency.
Import TaskService.
Variables userId partnerId : string.

Lemma count_where_bounds (P Q : Task → bool) l :
  0 ≤ count_where (λ t, P t && Q t) l ≤ count_where P l.
Proof.
  induction l as [|t l IH]; simpl; [lia|].
  destruct (P t), (Q t); simpl; lia.
Qed.

Lemma minutes_where_bounds (P Q : Task → bool) l :
  Forall (λ t, 0 ≤ minutes t) l →
  0 ≤ minutes_where (λ t, P t && Q t) l ≤ minutes_where P l.
Proof.
  induction 1 as [|t l Ht _ IH]; simpl; [lia|].
  destruct (P t), (Q t); simpl; lia.
Qed.

(** Three tests of which every task passes exactly one split every count
    and every sum of minutes in three. *)
Lemma where_partition (P1 P2 P3 Q : Task → bool) l :
  Forall (λ t, (P1 t = true ∧ P2 t = false ∧ P3 t = false)
               ∨ (P1 t = false ∧ P2 t = true ∧ P3 t = false)
               ∨ (P1 t = false ∧ P2 t = false ∧ P3 t = true)) l →
  count_where (λ t, P1 t && Q t) l + count_where (λ t, P2 t && Q t) l
  + count_where (λ t, P3 t && Q t) l = count_where Q l
  ∧ minutes_where (λ t, P1 t && Q t) l + minutes_where (λ t, P2 t && Q t) l
    + minutes_where (λ t, P3 t && Q t) l = minutes_where Q l.
Proof.
  induction 1 as [|t l Ht _ [IH1 IH2]]; simpl; [done|].
  destruct Ht as [(-> & -> & ->)|[(-> & -> & ->)|(-> & -> & ->)]]; simpl;
    destruct (Q t); lia.
Qed.

Lemma rate_bounds (c n : Z) :
  0 ≤ c ≤ n →
  (0 <= (if 0 <? n then Qdiv (inject_Z c) (inject_Z n) else inject_Z 0)
   <= 1)%Q.
Proof.
  intros Hc. destruct (0 <? n) eqn:E.
  - apply Z.ltb_lt in E.
    assert (0 < inject_Z n)%Q as Hn.
    { change (inject_Z 0 < inject_Z n)%Q. rewrite <- Zlt_Qlt. exact E. }
    split.
    + apply Qle_shift_div_l; [done|]. rewrite Qmult_0_l.
      change (inject_Z 0 <= inject_Z c)%Q. rewrite <- Zle_Qle. lia.
    + apply Qle_shift_div_r; [done|]. rewrite Qmult_1_l.
      rewrite <- Zle_Qle. lia.
  - split; [apply Qle_refl | done].
Qed.

(** X23: in each of the four groups of the metrics by owner the completed
    count lies between 0 and the task count and the completion rate
    between 0 and 1, and with no negative minutes the remaining minutes lie
    between 0 and the total minutes. With two distinct collaborators, every
    task assigned to one of them or to nobody, no negative minutes and at
    most [2^53] minutes in all, each count and each sum of minutes of the
    group [all] is the sum of those of the three others. *)
Theorem metrics_are_consistent (tasks : list Task) :
  let m := calculateTaskMetricsByOwner userId partnerId tasks in
  (∀ group,
     group ∈ [of_user; of_partner; of_unassigned; of_all] →
     0 ≤ completedTasks (group m) ≤ totalTasks (group m)
     ∧ (0 <= completionRate (group m) <= 1)%Q
     ∧ (Forall (λ t, 0 ≤ minutes t) tasks →
        0 ≤ remainingMinutes (group m) ≤ totalMinutes (group m)))
  ∧ (userId ≠ partnerId →
     Forall (λ t, assignedTo t = Some userId ∨ assignedTo t = Some partnerId
                  ∨ assignedTo t = None) tasks →
     exact_minutes tasks →
     ∀ field,
       field ∈ [totalTasks; completedTasks; totalMinutes; remainingMinutes] →
       field (of_all m)
       = field (of_user m) + field (of_partner m) + field (of_unassigned m)).
Proof.
  intros m. split.
  - intros group Hgroup.
    destruct (group_as_filter userId partnerId group Hgroup) as [P HP].
    unfold m. rewrite HP.
    destruct (TaskServiceFacts.calculateTaskMetrics_spec P tasks)
      as (H1 & H2 & H3 & H4).
    assert (0 ≤ completedTasks (calculateTaskMetrics (List.filter P tasks))
            ≤ totalTasks (calculateTaskMetrics (List.filter P tasks)))
      as Hbounds by (rewrite H1, H2; apply count_where_bounds).
    split; [exact Hbounds | split].
    + apply rate_bounds. exact Hbounds.
    + intros Hmin. rewrite H3, H4. by apply minutes_where_bounds.
  - intros Hne Hall _ field Hfield.
    assert (Forall
              (λ t, (belongs userId partnerId user t = true
                     ∧ belongs userId partnerId partner t = false
                     ∧ belongs userId partnerId unassigned t = false)
                    ∨ (belongs userId partnerId user t = false
                       ∧ belongs userId partnerId partner t = true
                       ∧ belongs userId partnerId unassigned t = false)
                    ∨ (belongs userId partnerId user t = false
                       ∧ belongs userId partnerId partner t = false
                       ∧ belongs userId partnerId unassigned t = true))
              tasks) as Hone.
    { eapply Forall_impl; [exact Hall|]. intros t Ht. simpl.
      destruct Ht as [Ht|[Ht|Ht]]; rewrite Ht.
      - left. split_and!; [by apply bool_decide_eq_true_2
                          | apply bool_decide_eq_false_2; congruence
                          | by apply bool_decide_eq_false_2].
      - right. left. split_and!; [apply bool_decide_eq_false_2; congruence
                                 | by apply bool_decide_eq_true_2
                                 | by apply bool_decide_eq_false_2].
      - right. right. split_and!; [by apply bool_decide_eq_false_2
                                  | by apply bool_decide_eq_false_2
                                  | by apply bool_decide_eq_true_2]. }
    assert (of_all m = calculateTaskMetrics (List.filter (λ _, true) tasks))
      as -> by (unfold m; simpl; by rewrite filter_all).
    assert (of_user m
            = calculateTaskMetrics
                (List.filter (belongs userId partnerId user) tasks))
      as -> by done.
    assert (of_partner m
            = calculateTaskMetrics
                (List.filter (belongs userId partnerId partner) tasks))
      as -> by done.
    assert (of_unassigned m
            = calculateTaskMetrics
                (List.filter (belongs userId partnerId unassigned) tasks))
      as -> by done.
    destruct (TaskServiceFacts.calculateTaskMetrics_spec (λ _, true) tasks)
      as (A1 & A2 & A3 & A4).
    destruct (TaskServiceFacts.calculateTaskMetrics_spec
                (belongs userId partnerId user) tasks)
      as (U1 & U2 & U3 & U4).
    destruct (TaskServiceFacts.calculateTaskMetrics_spec
                (belongs userId partnerId partner) tasks)
      as (P1 & P2 & P3 & P4).
    destruct (TaskServiceFacts.calculateTaskMetrics_spec
                (belongs userId partnerId unassigned) tasks)
      as (N1 & N2 & N3 & N4).
    assert (∀ (P : Task → bool) l,
              count_where P l = count_where (λ t, P t && true) l
              ∧ minutes_where P l = minutes_where (λ t, P t && true) l)
      as Htrue.
    { intros P l. split;
        [apply TaskServiceFacts.count_where_ext
        | apply TaskServiceFacts.minutes_where_ext];
        intros t; by rewrite andb_true_r. }
    repeat (apply elem_of_cons in Hfield as [->|Hfield]).
    + rewrite A1, U1, P1, N1.
      rewrite (proj1 (Htrue (belongs userId partnerId user) tasks)),
        (proj1 (Htrue (belongs userId partnerId partner) tasks)),
        (proj1 (Htrue (belongs userId partnerId unassigned) tasks)).
      symmetry. apply (where_partition _ _ _ (λ _, true) tasks Hone).
    + rewrite A2, U2, P2, N2. simpl.
      symmetry. apply (where_partition _ _ _ completed tasks Hone).
    + rewrite A3, U3, P3, N3.
      rewrite (proj2 (Htrue (belongs userId partnerId user) tasks)),
        (proj2 (Htrue (belongs userId partnerId partner) tasks)),
        (proj2 (Htrue (belongs userId partnerId unassigned) tasks)).
      symmetry. apply (where_partition _ _ _ (λ _, true) tasks Hone).
    + rewrite A4, U4, P4, N4. simpl.
      symmetry.
      apply (where_partition _ _ _ (λ t, negb (completed t)) tasks Hone).
    + by apply elem_of_nil in Hfield.
Qed.

End MetricsConsistency.
